(** * Green-ammonia hook of the PyPSA-Earth project

    A shallow embedding of [scripts/extra/green_ammonia.py] and the
    properties of its specification.

    - Configuration values (what YAML loading hands to the hook) are the
      inductive type [pyval]; a [dict] is an association list read with
      first-match lookup.
    - The [pypsa.Network] is a record of its four component tables that the
      hook reads or writes ([buses], [links], [stores], [carriers]); a table
      is the list of its rows in index order, and [network.add] appends a row
      under the name and with the attributes it is given.
    - Python mutates the network in place and may raise half-way; a
      computation is therefore a function from the network to an outcome
      (value or exception) together with the network as it is at that point.
    - [numpy] works on IEEE-754 binary64: coordinates and distances are the
      kernel's primitive floats, with the very operations of the source
      (subtraction, product, sum, square root, comparison).
    - [Index.str.contains] compiles its argument as a regular expression; the
      [re] engine is a parameter of the development.
    - The configuration is untyped.  A value of another type than the source
      declares is followed into the library call that receives it: where the
      answer of pandas, numpy or [str] is not stated in this file it is a
      parameter of the development too ([Library]). *)

From Stdlib Require Import String Ascii List ZArith Bool Lia Floats.
Import ListNotations.
Open Scope string_scope.

Set Warnings "-register-all,-inexact-float".

(** ** Python values and exceptions *)

Inductive pyval : Type :=
| PNone
| PBool (b : bool)
| PInt (z : Z)
| PFloat (f : float)
| PStr (s : string)
| PList (l : list pyval)
| PDict (d : list (string * pyval)).

Definition pydict : Type := list (string * pyval).

(** The exception classes the hook can meet.  [ReError] is [re.error]. *)
Inductive exc : Type :=
| ValueError (msg : string)
| AttributeError
| TypeError
| KeyError
| IndexError
| OverflowError
| ReError.

(** [issubclass(type(e), LookupError)]: in Python's hierarchy the subclasses
    of [LookupError] are [KeyError] and [IndexError]. *)
Definition is_LookupError (e : exc) : bool :=
  match e with
  | KeyError | IndexError => true
  | _ => false
  end.

Definition is_ValueError (e : exc) : bool :=
  match e with
  | ValueError _ => true
  | _ => false
  end.

(** A pure computation that may raise. *)
Inductive res (A : Type) : Type :=
| Ok (a : A)
| Err (e : exc).
Arguments Ok {A} a.
Arguments Err {A} e.

Definition res_bind {A B : Type} (r : res A) (k : A -> res B) : res B :=
  match r with
  | Ok a => k a
  | Err e => Err e
  end.

(** ** Dictionaries *)

Fixpoint assoc (k : string) (d : pydict) : option pyval :=
  match d with
  | [] => None
  | (k', v) :: d' => if String.eqb k k' then Some v else assoc k d'
  end.

(** [d.get(k, default)] on a dictionary. *)
Definition dict_get (d : pydict) (k : string) (default : pyval) : pyval :=
  match assoc k d with
  | Some v => v
  | None => default
  end.

(** [o.get(k, default)] on an arbitrary value: only a [dict] has the
    attribute [get]; on [None], a number, a string or a list Python raises
    [AttributeError]. *)
Definition py_get (o : pyval) (k : string) (default : pyval) : res pyval :=
  match o with
  | PDict d => Ok (dict_get d k default)
  | _ => Err AttributeError
  end.

(** Python truthiness ([bool(v)]). *)
Definition truthy (v : pyval) : bool :=
  match v with
  | PNone => false
  | PBool b => b
  | PInt z => negb (z =? 0)%Z
  | PFloat f => negb (f =? 0)%float
  | PStr s => negb (String.eqb s "")
  | PList l => match l with [] => false | _ => true end
  | PDict d => match d with [] => false | _ => true end
  end.

(** ** The configuration resolver

    [return config.get("custom", {}).get("green_ammonia", {})] *)
Definition _get_cfg (config : pydict) : res pyval :=
  py_get (dict_get config "custom" (PDict [])) "green_ammonia" (PDict []).

(** ** The network

    One record per row of [network.buses], [network.links] and
    [network.stores], with the attributes the hook reads or passes to
    [network.add].  Attributes whose value comes straight from the
    configuration keep it as the [pyval] the hook passes, and so does the
    index of [network.carriers], whose names the hook takes from the
    configuration; the labels of buses, links and stores are strings. *)

Record Bus : Type := mkBus {
  bus_name : string;
  bus_x : float;
  bus_y : float;
  bus_country : string;
  bus_carrier : pyval;
  bus_sub_network : string
}.

Record Link : Type := mkLink {
  link_name : string;
  link_bus0 : string;
  link_bus1 : string;
  link_carrier : pyval;
  link_efficiency : pyval;
  link_capital_cost : pyval;
  link_marginal_cost : pyval;
  link_lifetime : pyval;
  link_p_nom_extendable : bool;
  link_p_nom_max : pyval
}.

Record Store : Type := mkStore {
  store_name : string;
  store_bus : string;
  store_carrier : pyval;
  store_e_cyclic : pyval;
  store_standing_loss : pyval;
  store_capital_cost : pyval;
  store_e_nom_extendable : bool;
  store_e_nom_max : pyval
}.

Record Network : Type := mkNetwork {
  buses : list Bus;
  links : list Link;
  stores : list Store;
  carriers : list pyval
}.

(** [label in table.index] for a string label in an index of strings. *)
Definition in_index (label : string) (index : list string) : bool :=
  existsb (String.eqb label) index.

Definition buses_index (n : Network) : list string := map bus_name (buses n).
Definition links_index (n : Network) : list string := map link_name (links n).
Definition stores_index (n : Network) : list string :=
  map store_name (stores n).

(** [network.buses.loc[label]] on a table with unique labels; a missing
    label raises [KeyError]. *)
Definition buses_loc (n : Network) (label : string) : res Bus :=
  match find (fun b => String.eqb (bus_name b) label) (buses n) with
  | Some b => Ok b
  | None => Err KeyError
  end.

(** [network.add(class_name, name, **attrs)] appends one row to the table of
    the class.  The hook calls it only behind a test that the name is new. *)
Definition add_Carrier (name : pyval) (n : Network) : Network :=
  mkNetwork (buses n) (links n) (stores n) (carriers n ++ [name]).

Definition add_Bus (b : Bus) (n : Network) : Network :=
  mkNetwork (buses n ++ [b]) (links n) (stores n) (carriers n).

Definition add_Link (l : Link) (n : Network) : Network :=
  mkNetwork (buses n) (links n ++ [l]) (stores n) (carriers n).

Definition add_Store (s : Store) (n : Network) : Network :=
  mkNetwork (buses n) (links n) (stores n ++ [s]) (carriers n).

(** ** Computations on the network: state passing with exceptions *)

Definition M (A : Type) : Type := Network -> res A * Network.

Definition ret {A : Type} (a : A) : M A := fun n => (Ok a, n).

Definition bind {A B : Type} (m : M A) (k : A -> M B) : M B :=
  fun n =>
    match m n with
    | (Ok a, n') => k a n'
    | (Err e, n') => (Err e, n')
    end.

Definition lift {A : Type} (r : res A) : M A := fun n => (r, n).

Definition read {A : Type} (f : Network -> A) : M A := fun n => (Ok (f n), n).

Definition modify (f : Network -> Network) : M unit := fun n => (Ok tt, f n).

Declare Scope py_scope.
Delimit Scope py_scope with py.
Notation "x <- m ;; k" := (bind m (fun x => k))
  (at level 61, m at next level, right associativity) : py_scope.
Notation "m ;;; k" := (bind m (fun _ => k))
  (at level 61, right associativity) : py_scope.
Open Scope py_scope.

(** ** Names in the index of carriers

    [name in network.carriers.index] hashes [name] and looks it up with
    [==]; a list or a mapping cannot be hashed, and the test raises
    [TypeError].  Two hashable values are the same label when they are equal
    for Python: [None] with [None], a string with the same string, and two
    numbers ([bool], [int], [float]) with the same value, so that [True],
    [1] and [1.0] are one label; pandas' hash table also takes a NaN for
    any NaN.  [hkey] is the class of a hashable value under that relation:
    a number with an integral value is its integer, another finite double
    or an infinity is its binary64 decomposition. *)

Inductive hkey : Type :=
| KNone
| KInt (z : Z)
| KNaN
| KFloat (f : spec_float)
| KStr (s : string).

(** The integer [(-1)^s * m * 2^e], when it is one. *)
Definition integer_of (s : bool) (m : positive) (e : Z) : option Z :=
  let z := if s then Z.neg m else Z.pos m in
  if (0 <=? e)%Z then Some (z * 2 ^ e)%Z
  else if (Z.pos m mod 2 ^ (- e) =? 0)%Z then Some (z / 2 ^ (- e))%Z
       else None.

Definition float_key (f : float) : hkey :=
  match Prim2SF f with
  | S754_zero _ => KInt 0
  | S754_infinity s => KFloat (S754_infinity s)
  | S754_nan => KNaN
  | S754_finite s m e =>
      match integer_of s m e with
      | Some z => KInt z
      | None => KFloat (S754_finite s m e)
      end
  end.

(** [None] for a value that cannot be hashed. *)
Definition label_key (v : pyval) : option hkey :=
  match v with
  | PNone => Some KNone
  | PBool b => Some (KInt (if b then 1 else 0))
  | PInt z => Some (KInt z)
  | PFloat f => Some (float_key f)
  | PStr s => Some (KStr s)
  | PList _ | PDict _ => None
  end.

Definition spec_float_eqb (x y : spec_float) : bool :=
  match x, y with
  | S754_zero s, S754_zero s' => Bool.eqb s s'
  | S754_infinity s, S754_infinity s' => Bool.eqb s s'
  | S754_nan, S754_nan => true
  | S754_finite s m e, S754_finite s' m' e' =>
      Bool.eqb s s' && Pos.eqb m m' && Z.eqb e e'
  | _, _ => false
  end.

Definition hkey_eqb (a b : hkey) : bool :=
  match a, b with
  | KNone, KNone => true
  | KInt z, KInt z' => Z.eqb z z'
  | KNaN, KNaN => true
  | KFloat f, KFloat f' => spec_float_eqb f f'
  | KStr s, KStr s' => String.eqb s s'
  | _, _ => false
  end.

(** Two hashable values that are one label. *)
Definition same_label (a b : pyval) : bool :=
  match label_key a, label_key b with
  | Some ka, Some kb => hkey_eqb ka kb
  | _, _ => false
  end.

Definition has_label (name : pyval) (index : list pyval) : bool :=
  existsb (same_label name) index.

(** [name in index] *)
Definition index_contains (name : pyval) (index : list pyval) : res bool :=
  match label_key name with
  | Some _ => Ok (has_label name index)
  | None => Err TypeError
  end.

(** ** Real numbers as target coordinates

    [np.array([latitude, longitude], dtype=float)] converts a [float], an
    [int] or a [bool] to a double, and raises [OverflowError] on an [int]
    beyond the binary64 range.  [as_float] is that conversion; it has no
    answer ([None]) for a value that is not a real number, where the array
    numpy builds, if any, need not be a pair of doubles (a list gives a
    second dimension, a string is parsed). *)

(** [float(z)] for a Python [int]: rounded to nearest even, and
    [OverflowError] beyond the binary64 range. *)
Definition float_of_Z (z : Z) : res float :=
  let f := SF2Prim (binary_normalize prec emax z 0 false) in
  if is_infinity f then Err OverflowError else Ok f.

Definition as_float (v : pyval) : option (res float) :=
  match v with
  | PFloat f => Some (Ok f)
  | PInt z => Some (float_of_Z z)
  | PBool b => Some (Ok (if b then 1%float else 0%float))
  | _ => None
  end.

(** [v is None] *)
Definition is_None (v : pyval) : bool :=
  match v with
  | PNone => true
  | _ => false
  end.

(** ** A regular-expression engine for plain patterns

    On a pattern without metacharacter, [re.search] is substring search.
    [literal_re] is the engine at which the closed statements of this file
    are computed: it searches a plain pattern as a substring, and it rejects
    a pattern with a metacharacter.  The one such pattern this file computes
    with is the unclosed group "(", which Python rejects too
    ([re.error: missing ), unterminated subpattern]). *)

Fixpoint is_infix (p s : string) : bool :=
  if String.prefix p s then true
  else match s with
       | EmptyString => false
       | String _ s' => is_infix p s'
       end.

Definition re_metachars : list ascii := list_ascii_of_string ".^$*+?{}[]\|()".

Definition is_plain (pat : string) : bool :=
  forallb (fun c => negb (existsb (Ascii.eqb c) re_metachars))
          (list_ascii_of_string pat).

Definition literal_re (pat : string) : option (string -> bool) :=
  if is_plain pat then Some (is_infix pat) else None.

(** ** numpy on binary64 *)

(** One row of [np.linalg.norm(coords - target, axis=1)] with
    [coords = candidates[["y", "x"]]] and [target = [latitude, longitude]]:
    the square root of the sum of the squared differences. *)
Definition distance (latitude longitude : float) (b : Bus) : float :=
  let dy := (bus_y b - latitude)%float in
  let dx := (bus_x b - longitude)%float in
  sqrt (dy * dy + dx * dx)%float.

(** [ndarray.argmin] on a one-dimensional array of doubles: the scan keeps
    the current minimum [mp] and its position [mi]; an element replaces it
    when [not (element >= mp)], and the scan stops at the first NaN, which
    is taken as the minimum. *)
Fixpoint argmin_scan (mp : float) (mi i : nat) (l : list float) : nat :=
  match l with
  | [] => mi
  | v :: l' =>
      if negb (mp <=? v)%float
      then (if is_nan v then i else argmin_scan v i (S i) l')
      else argmin_scan mp mi (S i) l'
  end.

Definition argmin (l : list float) : res nat :=
  match l with
  | [] => Err (ValueError "attempt to get argmin of an empty sequence")
  | d :: l' => Ok (if is_nan d then O else argmin_scan d O 1 l')
  end.

(** [candidates.index[i]] *)
Definition index_at (candidates : list Bus) (i : nat) : res string :=
  match nth_error candidates i with
  | Some b => Ok (bus_name b)
  | None => Err IndexError
  end.

(** The rows of a table that a boolean mask selects ([table[mask]]). *)
Fixpoint rows_at {A : Type} (mask : list bool) (rows : list A) : list A :=
  match mask, rows with
  | m :: mask', r :: rows' =>
      if m then r :: rows_at mask' rows' else rows_at mask' rows'
  | _, _ => []
  end.

(** ** The libraries on values of another type than declared

    What this file does not state of pandas, numpy and Python on a value
    whose type is not the declared one: each answer is a value or an
    exception, and the properties hold whatever the answers are.

    - [eq_country countries v]: the mask [network.buses.country == v] for
      a list or a mapping [v] (pandas compares element by element, or
      refuses), given the column of countries.
    - [np_argmin candidates latitude longitude]: what lines 66 to 69 hand
      to [candidates.index[idx]] when a coordinate is not a real number (a
      string, a list, a mapping): numpy builds another array, broadcasts
      it against the coordinates of the candidates and takes the [argmin],
      or raises on the way.
    - [py_str v]: the text of [v] in an f-string, for a value that is not
      a string. *)
Record Library : Type := mkLibrary {
  eq_country : list string -> pyval -> res (list bool);
  np_argmin : list Bus -> pyval -> pyval -> res nat;
  py_str : pyval -> string
}.

(** The library at which the closed statements of this file are computed.
    They call it once, for the text of [False]. *)
Definition sample_library : Library :=
  mkLibrary
    (fun _ _ => Err (ValueError "Lengths must match to compare"))
    (fun _ _ _ => Err TypeError)
    (fun v => match v with
              | PNone => "None"
              | PBool true => "True"
              | PBool false => "False"
              | _ => ""
              end).

(** ** The hook *)

Section Hook.

(** [re.compile]: [None] when the pattern is rejected ([re.error]),
    otherwise what [search] answers on a label. *)
Variable re_compile : string -> option (string -> bool).

(** pandas, numpy and [str] on values of another type than declared. *)
Variable lib : Library.

(** The type of the time index handed to the hook. *)
Variable Snapshots : Type.

(** [if name in network.carriers.index: return]
    [network.add("Carrier", name)] *)
Definition _ensure_carrier (name : pyval) : M unit :=
  present <- (fun n => (index_contains name (carriers n), n)) ;;
  if (present : bool) then ret tt else modify (add_Carrier name).

(** [network.buses[network.buses.country == country_code]] for a country
    code that is a string. *)
Definition country_candidates (n : Network) (country_code : string)
  : list Bus :=
  filter (fun b => String.eqb (bus_country b) country_code) (buses n).

(** [network.buses[network.buses.country == country_code]] for any value:
    the countries of the buses are strings, and no string equals [None], a
    boolean or a number; a list or a mapping is compared by pandas. *)
Definition same_country (n : Network) (country_code : pyval)
  : res (list Bus) :=
  match country_code with
  | PStr c => Ok (country_candidates n c)
  | PList _ | PDict _ =>
      res_bind (eq_country lib (map bus_country (buses n)) country_code)
               (fun mask => Ok (rows_at mask (buses n)))
  | _ => Ok []
  end.

(** [f"{country_code}"] *)
Definition shown (country_code : pyval) : string :=
  match country_code with
  | PStr c => c
  | v => py_str lib v
  end.

(** Lines 58 to 61:
    [if bus_substring:]
    [    narrowed = candidates[candidates.index.str.contains(bus_substring)]]
    [    if not narrowed.empty: candidates = narrowed]
    The empty string and [None] are false for [if]; a filter that is true
    for [if] and is not a string is refused by [str.contains] with
    [TypeError]. *)
Definition narrow (candidates : list Bus) (bus_substring : pyval)
  : res (list Bus) :=
  if truthy bus_substring then
    match bus_substring with
    | PStr pat =>
        match re_compile pat with
        | None => Err ReError
        | Some search =>
            match filter (fun b => search (bus_name b)) candidates with
            | [] => Ok candidates
            | narrowed => Ok narrowed
            end
        end
    | _ => Err TypeError
    end
  else Ok candidates.

(** Lines 63 to 70: the first candidate when a coordinate is [None];
    with two real numbers, the candidate at the [argmin] of the distances;
    with another value, the candidate at the position numpy answers. *)
Definition pick (candidates : list Bus) (latitude longitude : pyval)
  : res string :=
  if is_None latitude || is_None longitude then index_at candidates 0
  else
    match as_float latitude, as_float longitude with
    | Some rlat, Some rlon =>
        res_bind rlat (fun lat =>
        res_bind rlon (fun lon =>
        res_bind (argmin (map (distance lat lon) candidates))
                 (index_at candidates)))
    | _, _ =>
        res_bind (np_argmin lib candidates latitude longitude)
                 (index_at candidates)
    end.

Definition _closest_bus (n : Network)
           (country_code latitude longitude bus_substring : pyval)
  : res string :=
  res_bind (same_country n country_code) (fun candidates =>
  match candidates with
  | [] =>
      Err (ValueError ("No buses found for country '" ++ shown country_code
                       ++ "'. Did you run add_electricity?"))
  | _ =>
      res_bind (narrow candidates bus_substring)
               (fun candidates => pick candidates latitude longitude)
  end).

Definition _add_bus (base_bus : string) (carrier : pyval) : M string :=
  base <- (fun n => (buses_loc n base_bus, n)) ;;
  let label := base_bus ++ "-NH3" in
  present <- read (fun n => in_index label (buses_index n)) ;;
  if (present : bool) then ret label
  else
    modify (add_Bus (mkBus label (bus_x base) (bus_y base)
                           (bus_country base) carrier
                           (bus_sub_network base))) ;;;
    ret label.

Definition _add_electrolyser (base_bus nh3_bus : string) (cfg : pyval)
           (carrier_name : pyval) : M unit :=
  let label := base_bus ++ "-NH3-electrolyser" in
  present <- read (fun n => in_index label (links_index n)) ;;
  if (present : bool) then ret tt
  else
    efficiency <- lift (py_get cfg "efficiency" (PFloat 0.6)) ;;
    capital_cost <- lift (py_get cfg "capital_cost" (PFloat 7.5e5)) ;;
    marginal_cost <- lift (py_get cfg "marginal_cost" (PFloat 0.5)) ;;
    lifetime <- lift (py_get cfg "lifetime" (PInt 20)) ;;
    p_nom_max <- lift (py_get cfg "p_nom_max" (PFloat infinity)) ;;
    modify (add_Link (mkLink label base_bus nh3_bus carrier_name
                             efficiency capital_cost marginal_cost
                             lifetime true p_nom_max)).

Definition _add_storage (nh3_bus : string) (cfg : pyval)
           (carrier_name : pyval) : M unit :=
  let label := nh3_bus ++ "-store" in
  present <- read (fun n => in_index label (stores_index n)) ;;
  if (present : bool) then ret tt
  else
    e_cyclic <- lift (py_get cfg "e_cyclic" (PBool true)) ;;
    standing_loss <- lift (py_get cfg "standing_loss" (PFloat 0.0)) ;;
    capital_cost <- lift (py_get cfg "capital_cost" (PFloat 1.5e5)) ;;
    e_nom_max <- lift (py_get cfg "e_nom_max" (PFloat infinity)) ;;
    modify (add_Store (mkStore label nh3_bus carrier_name e_cyclic
                               standing_loss capital_cost true e_nom_max)).

Definition _add_ccgt (base_bus nh3_bus : string) (cfg : pyval)
           (carrier_name : pyval) : M unit :=
  let label := base_bus ++ "-NH3-CCGT" in
  present <- read (fun n => in_index label (links_index n)) ;;
  if (present : bool) then ret tt
  else
    efficiency <- lift (py_get cfg "efficiency" (PFloat 0.55)) ;;
    capital_cost <- lift (py_get cfg "capital_cost" (PFloat 9e5)) ;;
    marginal_cost <- lift (py_get cfg "marginal_cost" (PFloat 2.5)) ;;
    lifetime <- lift (py_get cfg "lifetime" (PInt 25)) ;;
    p_nom_max <- lift (py_get cfg "p_nom_max" (PFloat infinity)) ;;
    modify (add_Link (mkLink label nh3_bus base_bus carrier_name
                             efficiency capital_cost marginal_cost
                             lifetime true p_nom_max)).

(** The call [_closest_bus(network, country, location.get("latitude"),]
    [location.get("longitude"), location.get("bus_substring"))]: the three
    reads of [location] come first, then the body of [_closest_bus]. *)
Definition resolve_base_bus (country location : pyval) : M string :=
  latitude <- lift (py_get location "latitude" PNone) ;;
  longitude <- lift (py_get location "longitude" PNone) ;;
  bus_substring <- lift (py_get location "bus_substring" PNone) ;;
  fun n => (_closest_bus n country latitude longitude bus_substring, n).

(** Lines 176 to 184: the base bus the configuration asks for. *)
Definition select_base_bus (ga_cfg : pyval) : M string :=
  country <- lift (py_get ga_cfg "country_code" (PStr "ES")) ;;
  location <- lift (py_get ga_cfg "location" (PDict [])) ;;
  resolve_base_bus country location.

(** Lines 186 to 197: the carriers, the NH3 bus, the two links and the
    store.  The three carrier names go to [_ensure_carrier] and to
    [network.add] as the configuration has them. *)
Definition build_chain (ga_cfg : pyval) (base_bus : string) : M unit :=
  carriers <- lift (py_get ga_cfg "carriers" (PDict [])) ;;
  carrier_store <- lift (py_get carriers "ammonia" (PStr "NH3")) ;;
  carrier_electrolyser <-
    lift (py_get carriers "to_store" (PStr "NH3-electrolyser")) ;;
  carrier_ccgt <- lift (py_get carriers "to_power" (PStr "NH3-power")) ;;
  _ensure_carrier carrier_store ;;;
  _ensure_carrier carrier_electrolyser ;;;
  _ensure_carrier carrier_ccgt ;;;
  nh3_bus <- _add_bus base_bus carrier_store ;;
  cfg_electrolyser <- lift (py_get ga_cfg "electrolyser" (PDict [])) ;;
  _add_electrolyser base_bus nh3_bus cfg_electrolyser
                    carrier_electrolyser ;;;
  cfg_storage <- lift (py_get ga_cfg "storage" (PDict [])) ;;
  _add_storage nh3_bus cfg_storage carrier_store ;;;
  cfg_ccgt <- lift (py_get ga_cfg "ccgt" (PDict [])) ;;
  _add_ccgt base_bus nh3_bus cfg_ccgt carrier_ccgt.

(** The part of the hook behind the [enable] gate. *)
Definition inject (ga_cfg : pyval) : M unit :=
  base_bus <- select_base_bus ga_cfg ;;
  build_chain ga_cfg base_bus.

(** The entry point.  [snapshots] and the extra keyword arguments [**_]
    are received and not used.  The closing [print] writes a line to the
    standard output and leaves the network as it is. *)
Definition add_green_ammonia (snapshots : Snapshots) (config : pydict)
           (kwargs : pydict) : M unit :=
  ga_cfg <- lift (_get_cfg config) ;;
  enable <- lift (py_get ga_cfg "enable" (PBool false)) ;;
  if negb (truthy enable) then ret tt
  else inject ga_cfg.

(** ** What the properties speak about *)

(** The [enable] flag as the hook reads it: the value at
    [custom.green_ammonia.enable], [False] when absent, taken for its
    truth value.  When the path does not lead to a mapping there is no
    flag to read. *)
Definition enabled (config : pydict) : bool :=
  match _get_cfg config with
  | Ok (PDict ga) => truthy (dict_get ga "enable" (PBool false))
  | _ => false
  end.

(** The links that arrive at, and leave from, a bus, and the stores
    attached to it. *)
Definition inbound_links (n : Network) (bus : string) : list Link :=
  filter (fun l => String.eqb (link_bus1 l) bus) (links n).

Definition outbound_links (n : Network) (bus : string) : list Link :=
  filter (fun l => String.eqb (link_bus0 l) bus) (links n).

Definition attached_stores (n : Network) (bus : string) : list Store :=
  filter (fun s => String.eqb (store_bus s) bus) (stores n).

(** Every link and every store of the network sits on buses of the
    network (what PyPSA's consistency check asks of a network). *)
Definition buses_defined (n : Network) : bool :=
  forallb (fun l => in_index (link_bus0 l) (buses_index n)
                    && in_index (link_bus1 l) (buses_index n)) (links n)
  && forallb (fun s => in_index (store_bus s) (buses_index n)) (stores n).

(** None of the four components the hook derives from [base_bus] is in
    the network yet. *)
Definition chain_absent (n : Network) (base_bus : string) : bool :=
  negb (in_index (base_bus ++ "-NH3") (buses_index n))
  && negb (in_index (base_bus ++ "-NH3-electrolyser") (links_index n))
  && negb (in_index (base_bus ++ "-NH3-CCGT") (links_index n))
  && negb (in_index ((base_bus ++ "-NH3") ++ "-store") (stores_index n)).

(** Candidate [b], at position [i] of [cs], is at the least computed
    distance from the target, and no candidate before it is as close. *)
Definition nearest_first (lat lon : float) (cs : list Bus) (i : nat)
           (b : Bus) : Prop :=
  nth_error cs i = Some b
  /\ (forall b', In b' cs ->
                 (distance lat lon b <=? distance lat lon b')%float = true)
  /\ (forall j b', j < i -> nth_error cs j = Some b' ->
                   (distance lat lon b' <=? distance lat lon b)%float
                   = false).

(** Candidate [b], at position [i] of [cs], is the first one whose
    computed distance is NaN. *)
Definition first_nan_distance (lat lon : float) (cs : list Bus) (i : nat)
           (b : Bus) : Prop :=
  nth_error cs i = Some b
  /\ is_nan (distance lat lon b) = true
  /\ (forall j b', j < i -> nth_error cs j = Some b' ->
                   is_nan (distance lat lon b') = false).

(** What [argmin] answers on a list of doubles: position [r] holds a
    least element and nothing before it is as small ([least_first]), or
    position [r] holds the first NaN ([first_nan]). *)
Definition least_first (l : list float) (r : nat) : Prop :=
  exists v, nth_error l r = Some v
            /\ (forall x, In x l -> (v <=? x)%float = true)
            /\ (forall j x, j < r -> nth_error l j = Some x ->
                            (x <=? v)%float = false).

Definition first_nan (l : list float) (r : nat) : Prop :=
  exists v, nth_error l r = Some v
            /\ is_nan v = true
            /\ (forall j x, j < r -> nth_error l j = Some x ->
                            is_nan x = false).

(** The state of the scan of [argmin] once the elements [pre] are read. *)
Definition min_so_far (pre : list float) (mp : float) (mi : nat) : Prop :=
  nth_error pre mi = Some mp
  /\ is_nan mp = false
  /\ (forall x, In x pre -> (mp <=? x)%float = true)
  /\ (forall j x, j < mi -> nth_error pre j = Some x ->
                  (x <=? mp)%float = false).

(** [_ensure_carrier] as a function on the network, for a name that can
    be hashed. *)
Definition ensure (name : pyval) (n : Network) : Network :=
  if has_label name (carriers n) then n else add_Carrier name n.

(** The rows the hook adds for base bus [base] and NH3 bus [nh3], with
    carriers [cs], [ce], [cc] and parameter mappings [de], [ds], [dc]. *)
Definition electrolyser_row (base nh3 : string) (de : pydict)
           (ce : pyval) : Link :=
  mkLink (base ++ "-NH3-electrolyser") base nh3 ce
         (dict_get de "efficiency" (PFloat 0.6))
         (dict_get de "capital_cost" (PFloat 7.5e5))
         (dict_get de "marginal_cost" (PFloat 0.5))
         (dict_get de "lifetime" (PInt 20))
         true
         (dict_get de "p_nom_max" (PFloat infinity)).

Definition store_row (nh3 : string) (ds : pydict) (cs : pyval) : Store :=
  mkStore (nh3 ++ "-store") nh3 cs
          (dict_get ds "e_cyclic" (PBool true))
          (dict_get ds "standing_loss" (PFloat 0.0))
          (dict_get ds "capital_cost" (PFloat 1.5e5))
          true
          (dict_get ds "e_nom_max" (PFloat infinity)).

Definition ccgt_row (base nh3 : string) (dc : pydict) (cc : pyval)
  : Link :=
  mkLink (base ++ "-NH3-CCGT") nh3 base cc
         (dict_get dc "efficiency" (PFloat 0.55))
         (dict_get dc "capital_cost" (PFloat 9e5))
         (dict_get dc "marginal_cost" (PFloat 2.5))
         (dict_get dc "lifetime" (PInt 25))
         true
         (dict_get dc "p_nom_max" (PFloat infinity)).

(** The carrier name configured under [carriers.key], [default] when
    absent, as [build_chain] reads it. *)
Definition configured_carrier (ga : pydict) (key default : string)
  : res pyval :=
  py_get (dict_get ga "carriers" (PDict [])) key (PStr default).

(** The three carriers, the base bus and the four components derived from
    it are all in the network. *)
Definition chain_present (n : Network) (base : string)
           (cs ce cc : pyval) : Prop :=
  has_label cs (carriers n) = true
  /\ has_label ce (carriers n) = true
  /\ has_label cc (carriers n) = true
  /\ (exists b, buses_loc n base = Ok b)
  /\ in_index (base ++ "-NH3") (buses_index n) = true
  /\ in_index (base ++ "-NH3-electrolyser") (links_index n) = true
  /\ in_index ((base ++ "-NH3") ++ "-store") (stores_index n) = true
  /\ in_index (base ++ "-NH3-CCGT") (links_index n) = true.

(** Network [n'] has every label of [n], and the same row under each bus
    label of [n]. *)
Definition grows (n n' : Network) : Prop :=
  (forall x, has_label x (carriers n) = true ->
             has_label x (carriers n') = true)
  /\ (forall x, in_index x (buses_index n) = true ->
                in_index x (buses_index n') = true)
  /\ (forall x, in_index x (links_index n) = true ->
                in_index x (links_index n') = true)
  /\ (forall x, in_index x (stores_index n) = true ->
                in_index x (stores_index n') = true)
  /\ (forall label b, buses_loc n label = Ok b -> buses_loc n' label = Ok b).

(** The defaults the specification enumerates, as a property of a created
    row: each parameter whose key is absent from the mapping the row was
    created from has the listed value. *)
Definition electrolyser_defaults (de : pydict) (l : Link) : Prop :=
  (assoc "efficiency" de = None -> link_efficiency l = PFloat 0.6)
  /\ (assoc "capital_cost" de = None -> link_capital_cost l = PFloat 7.5e5)
  /\ (assoc "marginal_cost" de = None -> link_marginal_cost l = PFloat 0.5)
  /\ (assoc "lifetime" de = None -> link_lifetime l = PInt 20)
  /\ (assoc "p_nom_max" de = None -> link_p_nom_max l = PFloat infinity).

Definition store_defaults (ds : pydict) (s : Store) : Prop :=
  (assoc "e_cyclic" ds = None -> store_e_cyclic s = PBool true)
  /\ (assoc "standing_loss" ds = None -> store_standing_loss s = PFloat 0.0)
  /\ (assoc "capital_cost" ds = None -> store_capital_cost s = PFloat 1.5e5)
  /\ (assoc "e_nom_max" ds = None -> store_e_nom_max s = PFloat infinity).

Definition ccgt_defaults (dc : pydict) (l : Link) : Prop :=
  (assoc "efficiency" dc = None -> link_efficiency l = PFloat 0.55)
  /\ (assoc "capital_cost" dc = None -> link_capital_cost l = PFloat 9e5)
  /\ (assoc "marginal_cost" dc = None -> link_marginal_cost l = PFloat 2.5)
  /\ (assoc "lifetime" dc = None -> link_lifetime l = PInt 25)
  /\ (assoc "p_nom_max" dc = None -> link_p_nom_max l = PFloat infinity).

(** A Hoare triple for the computations on the network: from a network
    that satisfies [P], the computation returns [a] in a network that
    satisfies [Q a], or raises [e] in a network that satisfies [E e]. *)
Definition triple {A : Type} (P : Network -> Prop) (m : M A)
           (Q : A -> Network -> Prop) (E : exc -> Network -> Prop) : Prop :=
  forall n, P n ->
            match m n with
            | (Ok a, n') => Q a n'
            | (Err e, n') => E e n'
            end.

(** The labels of the carriers, as the index compares them. *)
Definition carriers_index (n : Network) : list (option hkey) :=
  map label_key (carriers n).

(** No label occurs twice in a table. *)
Definition labels_unique (n : Network) : Prop :=
  NoDup (buses_index n) /\ NoDup (links_index n)
  /\ NoDup (stores_index n) /\ NoDup (carriers_index n).

(** Network [n'] is network [n] with at most [kb] buses, [kl] links, [ks]
    stores and [kc] carriers appended to its tables. *)
Definition extends_by (n n' : Network) (kb kl ks kc : nat) : Prop :=
  exists eb el es ec,
    buses n' = (buses n ++ eb)%list
    /\ links n' = (links n ++ el)%list
    /\ stores n' = (stores n ++ es)%list
    /\ carriers n' = (carriers n ++ ec)%list
    /\ length eb <= kb /\ length el <= kl
    /\ length es <= ks /\ length ec <= kc.

(** One guarded insert: the network as it was, or one row appended under a
    label that was not in its table. *)
Definition guarded_insert (n n' : Network) : Prop :=
  n' = n
  \/ (exists name, index_contains name (carriers n) = Ok false
                   /\ n' = add_Carrier name n)
  \/ (exists b, in_index (bus_name b) (buses_index n) = false
                /\ n' = add_Bus b n)
  \/ (exists l, in_index (link_name l) (links_index n) = false
                /\ n' = add_Link l n)
  \/ (exists s, in_index (store_name s) (stores_index n) = false
                /\ n' = add_Store s n).

(** Relative to the network [n0] a call started from: when every link and
    every store of [n0] sits on buses [n0] defines, the same holds of
    [n]. *)
Definition still_defined (n0 n : Network) : Prop :=
  buses_defined n0 = true -> buses_defined n = true.

(** The exceptional exits the hook allows itself: the exception is not of
    the [LookupError] class, and the network is [still_defined]. *)
Definition no_lookup_exit (n0 : Network) (e : exc) (n : Network) : Prop :=
  is_LookupError e = false /\ still_defined n0 n.

(** A coordinate that is a real number ([float], [int] or [bool]). *)
Definition is_real (v : pyval) : bool :=
  match as_float v with
  | Some _ => true
  | None => false
  end.

(** The target as the declared types have it ([Optional[float]]): a
    coordinate is [None], or both are real numbers. *)
Definition real_target (latitude longitude : pyval) : bool :=
  is_None latitude || is_None longitude
  || (is_real latitude && is_real longitude).

(** A value that is neither a list nor a mapping. *)
Definition is_scalar (v : pyval) : bool :=
  match v with
  | PList _ | PDict _ => false
  | _ => true
  end.

(** The country code and the target of the configuration are of those
    kinds: the code is not a list or a mapping, and the coordinates under
    [location], when it is a mapping, are [None] or real numbers. *)
Definition typed_location (config : pydict) : bool :=
  match _get_cfg config with
  | Ok (PDict ga) =>
      is_scalar (dict_get ga "country_code" (PStr "ES"))
      && match dict_get ga "location" (PDict []) with
         | PDict loc => real_target (dict_get loc "latitude" PNone)
                                    (dict_get loc "longitude" PNone)
         | _ => true
         end
  | _ => true
  end.

(** ** Sample data *)

Definition sample_bus (name : string) (x y : float) : Bus :=
  mkBus name x y "ES" (PStr "AC") "".

(** Three buses of country "ES" at (0,0), (1,1) and (5,5). *)
Definition sample_network : Network :=
  mkNetwork [sample_bus "ES0" 0 0; sample_bus "ES1" 1 1;
             sample_bus "ES2" 5 5] [] [] [PStr "AC"].

(** [custom: {green_ammonia: ga}] *)
Definition config_of (ga : pydict) : pydict :=
  [("custom", PDict [("green_ammonia", PDict ga)])].

(** Nothing but [enable: true]. *)
Definition config_enable_only : pydict :=
  config_of [("enable", PBool true)].

Definition config_target : pydict :=
  config_of [("enable", PBool true);
             ("location", PDict [("latitude", PFloat 0.9);
                                 ("longitude", PFloat 0.9)])].

(** [bus_substring: NH3], which no bus of [sample_network] contains. *)
Definition config_substring_NH3 : pydict :=
  config_of [("enable", PBool true);
             ("location", PDict [("bus_substring", PStr "NH3")])].

(** [location:] left empty in the YAML file, which loads as [None]. *)
Definition config_location_none : pydict :=
  config_of [("enable", PBool true); ("location", PNone)].

(** Two buses of country "ES", the second without a latitude (NaN). *)
Definition network_with_nan : Network :=
  mkNetwork [sample_bus "ES0" 0 0; sample_bus "ES1" 0 nan] [] []
            [PStr "AC"].

(** [bus_substring: "("], an unclosed group for the [re] engine. *)
Definition config_substring_paren : pydict :=
  config_of [("enable", PBool true);
             ("location", PDict [("bus_substring", PStr "(")])].

(** [enable: false] *)
Definition config_disabled : pydict := config_of [("enable", PBool false)].

(** [sample_network] with one more link, from "ES0" to a bus "ES1-NH3" that
    the network does not define. *)
Definition network_with_dangling_link : Network :=
  mkNetwork (buses sample_network)
            [mkLink "feeder" "ES0" "ES1-NH3" (PStr "AC") (PFloat 1)
                    (PFloat 0) (PFloat 0) (PFloat infinity) false
                    (PFloat 0)]
            [] [PStr "AC"].

(** [ccgt:] left empty in the YAML file, which loads as [None]. *)
Definition config_ccgt_none : pydict :=
  config_of [("enable", PBool true); ("ccgt", PNone)].

(** An electrolyser efficiency other than the default, and [storage:] left
    empty. *)
Definition config_new_parameters : pydict :=
  config_of [("enable", PBool true);
             ("electrolyser", PDict [("efficiency", PFloat 0.7)]);
             ("storage", PNone)].

(** A country code that no bus of [sample_network] has. *)
Definition config_country_ZZ : pydict :=
  config_of [("enable", PBool true); ("country_code", PStr "ZZ")].

(** [country_code: NO], which YAML loads as [False]. *)
Definition config_country_no : pydict :=
  config_of [("enable", PBool true); ("country_code", PBool false)].

Definition empty_network : Network := mkNetwork [] [] [] [].

(** *** A target given as two lists

    With [latitude: [a0, a1]] and [longitude: [b0, b1]] the array
    [target] of line 67 has two rows, [[a0, a1]] and [[b0, b1]].  numpy
    broadcasts [coords - target] when there are one or two candidates, row
    [r] of the difference being candidate [r] (the only candidate, when
    there is one) minus row [r] of [target], and line 68 gives the two
    norms; with three candidates or more the shapes do not match and the
    subtraction raises [ValueError].  [list_target_library] is
    [sample_library] with that answer of numpy; on another ill-typed
    target it answers as [sample_library] does. *)

Definition pair_of_reals (v : pyval) : option (float * float) :=
  match v with
  | PList [a; b] =>
      match as_float a, as_float b with
      | Some (Ok x), Some (Ok y) => Some (x, y)
      | _, _ => None
      end
  | _ => None
  end.

Definition np_argmin_rows (candidates : list Bus)
           (latitude longitude : pyval) : res nat :=
  match pair_of_reals latitude, pair_of_reals longitude with
  | Some (a0, a1), Some (b0, b1) =>
      match candidates with
      | [c] => argmin [distance a0 a1 c; distance b0 b1 c]
      | [c0; c1] => argmin [distance a0 a1 c0; distance b0 b1 c1]
      | _ => Err (ValueError "operands could not be broadcast together")
      end
  | _, _ => np_argmin sample_library candidates latitude longitude
  end.

Definition list_target_library : Library :=
  mkLibrary (eq_country sample_library) np_argmin_rows
            (py_str sample_library).

Definition config_list_target (a0 a1 b0 b1 : Z) : pydict :=
  config_of [("enable", PBool true);
             ("location", PDict [("latitude", PList [PInt a0; PInt a1]);
                                 ("longitude", PList [PInt b0; PInt b1])])].

Definition one_bus_network : Network :=
  mkNetwork [sample_bus "ES0" 0 0] [] [] [PStr "AC"].

Definition two_bus_network : Network :=
  mkNetwork [sample_bus "ES0" 0 0; sample_bus "ES1" 1 1] [] [] [PStr "AC"].

(** ** Properties *)

(** *** The configuration resolver *)

(** C8, as amended: the resolver returns the empty mapping when [custom]
    is absent, the [green_ammonia] entry of [custom] (the empty mapping
    when absent) when [custom] is a mapping, and fails with
    [AttributeError] when [custom] is present and is not a mapping. *)
Theorem get_cfg_resolves (config : pydict) :
  _get_cfg config =
  match assoc "custom" config with
  | None => Ok (PDict [])
  | Some (PDict custom) =>
      Ok (match assoc "green_ammonia" custom with
          | Some v => v
          | None => PDict []
          end)
  | Some _ => Err AttributeError
  end.
Proof.
  unfold _get_cfg, dict_get.
  destruct (assoc "custom" config) as [[| | | | | |custom]|]; reflexivity.
Qed.

(** *** The gate and the unused arguments *)

Lemma py_get_error (o : pyval) (k : string) (d : pyval) (e : exc) :
  py_get o k d = Err e -> e = AttributeError.
Proof. destruct o; simpl; congruence. Qed.

Lemma enabled_false_cases (config : pydict) :
  enabled config = false ->
  (exists e, _get_cfg config = Err e)
  \/ (exists v, _get_cfg config = Ok v /\ py_get v "enable" (PBool false)
                                        = Err AttributeError)
  \/ (exists ga, _get_cfg config = Ok (PDict ga)
                 /\ truthy (dict_get ga "enable" (PBool false)) = false).
Proof.
  unfold enabled. intros H.
  destruct (_get_cfg config) as [v|e]; [|left; eauto].
  right. destruct v; try (left; eexists; split; reflexivity).
  right. eauto.
Qed.

(** C4, as amended: when the [enable] flag is false or absent the call
    leaves the network as it was.  It returns when [custom] and
    [custom.green_ammonia] are mappings (or absent); when one of them is
    present and is not a mapping, there is no flag to read and the call
    raises [AttributeError]. *)
Theorem disabled_is_noop (snapshots : Snapshots) (config kwargs : pydict)
        (n : Network) :
  enabled config = false ->
  snd (add_green_ammonia snapshots config kwargs n) = n
  /\ (forall ga, _get_cfg config = Ok (PDict ga) ->
                 add_green_ammonia snapshots config kwargs n = (Ok tt, n))
  /\ ((forall ga, _get_cfg config <> Ok (PDict ga)) ->
      add_green_ammonia snapshots config kwargs n = (Err AttributeError, n)).
Proof.
  intros H. unfold add_green_ammonia, bind, lift.
  destruct (enabled_false_cases config H)
    as [[e He]|[[v [Hv Hg]]|[ga [Hga Hf]]]].
  - rewrite He. split; [reflexivity|]. split.
    + intros ga Hga. discriminate.
    + intros _. unfold _get_cfg in He. apply py_get_error in He.
      now subst.
  - rewrite Hv, Hg. split; [reflexivity|]. split.
    + intros ga Hga. injection Hga as ->. discriminate.
    + intros _. reflexivity.
  - rewrite Hga. simpl. rewrite Hf. simpl. split; [reflexivity|]. split.
    + intros ga' _. reflexivity.
    + intros Hno. exfalso. exact (Hno ga eq_refl).
Qed.

(** C9: the result of the hook is the same whatever the time index and
    the extra keyword arguments. *)
Theorem snapshots_and_kwargs_unused (snapshots1 snapshots2 : Snapshots)
        (kwargs1 kwargs2 config : pydict) (n : Network) :
  add_green_ammonia snapshots1 config kwargs1 n
  = add_green_ammonia snapshots2 config kwargs2 n.
Proof. reflexivity. Qed.

(** *** The nearest-bus resolver *)

Lemma argmin_scan_bound (l : list float) :
  forall mp mi i, mi < i -> argmin_scan mp mi i l < i + length l.
Proof.
  induction l as [|v l IH]; intros mp mi i Hlt; simpl.
  - lia.
  - destruct (negb (mp <=? v)%float).
    + destruct (is_nan v); [lia|].
      specialize (IH v i (S i)). lia.
    + specialize (IH mp mi (S i)). lia.
Qed.

Lemma argmin_bound (l : list float) (r : nat) :
  argmin l = Ok r -> r < length l.
Proof.
  destruct l as [|d l]; simpl; [discriminate|].
  intros H. injection H as <-.
  destruct (is_nan d); [lia|].
  pose proof (argmin_scan_bound l d 0 1). lia.
Qed.

Lemma argmin_defined (l : list float) :
  l <> [] -> exists r, argmin l = Ok r.
Proof. destruct l; [congruence|]. intros _. simpl. eauto. Qed.

Lemma as_float_not_None (v : pyval) (f : float) :
  as_float v = Some (Ok f) -> is_None v = false.
Proof. destruct v; simpl; congruence. Qed.

Lemma as_float_Some_not_None (v : pyval) (r : res float) :
  as_float v = Some r -> is_None v = false.
Proof. destruct v; simpl; congruence. Qed.

Lemma pick_first (cs : list Bus) (latitude longitude : pyval) :
  is_None latitude = true \/ is_None longitude = true ->
  pick cs latitude longitude = index_at cs 0.
Proof.
  intros H. unfold pick.
  destruct H as [-> | ->]; [reflexivity|].
  rewrite orb_true_r. reflexivity.
Qed.

Lemma pick_target (cs : list Bus) (latitude longitude : pyval)
      (lat lon : float) :
  as_float latitude = Some (Ok lat) ->
  as_float longitude = Some (Ok lon) ->
  pick cs latitude longitude
  = res_bind (argmin (map (distance lat lon) cs)) (index_at cs).
Proof.
  intros Hlat Hlon. unfold pick.
  rewrite (as_float_not_None _ _ Hlat), (as_float_not_None _ _ Hlon).
  simpl. rewrite Hlat, Hlon. reflexivity.
Qed.

Lemma pick_returns (cs : list Bus) (latitude longitude : pyval) :
  cs <> [] ->
  is_None latitude = true \/ is_None longitude = true
  \/ (exists lat lon, as_float latitude = Some (Ok lat)
                      /\ as_float longitude = Some (Ok lon)) ->
  exists i b, nth_error cs i = Some b
              /\ pick cs latitude longitude = Ok (bus_name b).
Proof.
  intros Hne Hcoord.
  assert (Hhead : exists b, nth_error cs 0 = Some b
                            /\ index_at cs 0 = Ok (bus_name b)).
  { destruct cs as [|b cs]; [congruence|]. exists b. split; reflexivity. }
  destruct Hcoord as [H|[H|(lat & lon & Hlat & Hlon)]].
  - rewrite pick_first by auto.
    destruct Hhead as [b [H0 H1]]. exists 0, b. split; assumption.
  - rewrite pick_first by auto.
    destruct Hhead as [b [H0 H1]]. exists 0, b. split; assumption.
  - rewrite (pick_target _ _ _ _ _ Hlat Hlon).
    destruct (argmin_defined (map (distance lat lon) cs)) as [r Hr].
    { destruct cs; [congruence|discriminate]. }
    rewrite Hr. simpl.
    pose proof (argmin_bound _ _ Hr) as Hb. rewrite length_map in Hb.
    apply nth_error_Some in Hb. unfold index_at.
    destruct (nth_error cs r) as [b|] eqn:E; [|congruence].
    exists r, b. split; [assumption|reflexivity].
Qed.

Lemma narrow_nonempty (cs cs' : list Bus) (sub : pyval) :
  narrow cs sub = Ok cs' -> cs <> [] -> cs' <> [].
Proof.
  unfold narrow. destruct (truthy sub); [|congruence].
  destruct sub as [| | | |pat| |]; try discriminate.
  destruct (re_compile pat) as [search|]; [|discriminate].
  destruct (filter _ cs) as [|b l]; intros H; injection H as <-;
    [auto|discriminate].
Qed.

Lemma truthy_PStr (pat : string) : pat <> "" -> truthy (PStr pat) = true.
Proof.
  intros H. simpl. apply String.eqb_neq in H. rewrite H. reflexivity.
Qed.

Lemma closest_bus_unfold (n : Network) (c : string)
      (lat lon sub : pyval) :
  country_candidates n c <> [] ->
  _closest_bus n (PStr c) lat lon sub
  = res_bind (narrow (country_candidates n c) sub)
             (fun cs => pick cs lat lon).
Proof.
  unfold _closest_bus. simpl.
  destruct (country_candidates n c); [congruence|]. reflexivity.
Qed.

(** C10: with the latitude or the longitude absent ([None]), the
    resolver returns the first candidate of the filtered set, and its
    answer is the one it gives with no coordinate at all: no distance
    enters it. *)
Theorem closest_bus_missing_coordinate (n : Network) (c : string)
        (latitude longitude sub : pyval) (cs : list Bus) :
  latitude = PNone \/ longitude = PNone ->
  country_candidates n c <> [] ->
  narrow (country_candidates n c) sub = Ok cs ->
  (exists b rest, cs = b :: rest
                  /\ _closest_bus n (PStr c) latitude longitude sub
                     = Ok (bus_name b))
  /\ _closest_bus n (PStr c) latitude longitude sub
     = _closest_bus n (PStr c) PNone PNone sub.
Proof.
  intros Hmiss Hne Hcs.
  rewrite !closest_bus_unfold by assumption. rewrite Hcs. simpl.
  assert (Hpick : pick cs latitude longitude = index_at cs 0).
  { apply pick_first. destruct Hmiss as [-> | ->]; auto. }
  rewrite Hpick. split; [|reflexivity].
  pose proof (narrow_nonempty _ _ _ Hcs Hne) as Hne'.
  destruct cs as [|b rest]; [congruence|].
  exists b, rest. split; reflexivity.
Qed.

(** C5, as amended: the filter is searched in the labels as a regular
    expression.  A non-empty filter that the engine accepts is applied
    when some candidate matches it; when none does, the resolver keeps the
    whole country-filtered set, answers as it does without filter, and
    raises nothing. *)
Theorem substring_filter_fallback (n : Network) (c : string)
        (latitude longitude : pyval) (pat : string)
        (search : string -> bool) :
  pat <> "" ->
  re_compile pat = Some search ->
  country_candidates n c <> [] ->
  let cs := country_candidates n c in
  let narrowed := filter (fun b => search (bus_name b)) cs in
  (narrowed <> [] ->
   narrow cs (PStr pat) = Ok narrowed
   /\ _closest_bus n (PStr c) latitude longitude (PStr pat)
      = pick narrowed latitude longitude)
  /\ (narrowed = [] ->
      narrow cs (PStr pat) = Ok cs
      /\ _closest_bus n (PStr c) latitude longitude (PStr pat)
         = _closest_bus n (PStr c) latitude longitude PNone)
  /\ (is_None latitude = true \/ is_None longitude = true
      \/ (exists lat lon, as_float latitude = Some (Ok lat)
                          /\ as_float longitude = Some (Ok lon)) ->
      exists label,
        _closest_bus n (PStr c) latitude longitude (PStr pat) = Ok label).
Proof.
  intros Hpat Hre Hne cs narrowed.
  rewrite !closest_bus_unfold by assumption.
  unfold narrow. rewrite (truthy_PStr pat Hpat), Hre.
  fold cs. fold narrowed. simpl truthy. cbv iota.
  split; [|split].
  - intros Hn. destruct narrowed; [congruence|]. split; reflexivity.
  - intros Hn. rewrite Hn. split; reflexivity.
  - intros Hcoord. destruct narrowed as [|b l] eqn:E; simpl.
    + destruct (pick_returns cs latitude longitude Hne Hcoord)
        as [i [b [_ Hp]]]. eauto.
    + destruct (pick_returns (b :: l) latitude longitude)
        as [i [b' [_ Hp]]]; [discriminate|assumption|eauto].
Qed.

(** *** Order on binary64, from the specification of the primitives *)

Lemma SFleb_trans (x y z : spec_float) :
  SFleb x y = true -> SFleb y z = true -> SFleb x z = true.
Proof.
  unfold SFleb, SFcompare.
  destruct x as [sx|sx| |sx mx ex], y as [sy|sy| |sy my ey],
           z as [sz|sz| |sz mz ez];
    try destruct sx; try destruct sy; try destruct sz;
    simpl; try congruence;
    fold (Pos.compare mx my); fold (Pos.compare my mz);
    fold (Pos.compare mx mz);
    destruct (Z.compare_spec ex ey), (Z.compare_spec ey ez),
             (Z.compare_spec ex ez); try lia; try congruence;
    destruct (Pos.compare_spec mx my), (Pos.compare_spec my mz),
             (Pos.compare_spec mx mz); simpl; try lia; congruence.
Qed.

Lemma SFleb_total (x y : spec_float) :
  x <> S754_nan -> y <> S754_nan -> SFleb x y = false -> SFleb y x = true.
Proof.
  unfold SFleb, SFcompare.
  destruct x as [sx|sx| |sx mx ex], y as [sy|sy| |sy my ey];
    try destruct sx; try destruct sy; simpl; try congruence;
    fold (Pos.compare mx my); fold (Pos.compare my mx);
    destruct (Z.compare_spec ex ey), (Z.compare_spec ey ex);
    try lia; try congruence;
    destruct (Pos.compare_spec mx my), (Pos.compare_spec my mx);
    simpl; try lia; congruence.
Qed.

Lemma SFleb_defined (x y : spec_float) :
  SFleb x y = true -> x <> S754_nan /\ y <> S754_nan.
Proof.
  unfold SFleb, SFcompare.
  destruct x, y; simpl; try congruence; split; congruence.
Qed.

Lemma is_nan_spec (x : float) : is_nan x = true <-> Prim2SF x = S754_nan.
Proof.
  unfold is_nan. rewrite eqb_spec. unfold SFeqb, SFcompare.
  destruct (Prim2SF x) as [s|s| |s m e]; try destruct s; simpl;
    try (split; congruence).
  all: rewrite Z.compare_refl; fold (Pos.compare m m);
    rewrite Pos.compare_refl; simpl; split; congruence.
Qed.

Lemma not_nan_spec (x : float) :
  is_nan x = false <-> Prim2SF x <> S754_nan.
Proof.
  rewrite <- is_nan_spec. destruct (is_nan x); split; congruence.
Qed.

Lemma float_leb_trans (x y z : float) :
  (x <=? y)%float = true -> (y <=? z)%float = true ->
  (x <=? z)%float = true.
Proof. rewrite !leb_spec. apply SFleb_trans. Qed.

Lemma float_leb_total (x y : float) :
  is_nan x = false -> is_nan y = false ->
  (x <=? y)%float = false -> (y <=? x)%float = true.
Proof. rewrite !leb_spec, !not_nan_spec. apply SFleb_total. Qed.

Lemma float_leb_defined (x y : float) :
  (x <=? y)%float = true -> is_nan x = false /\ is_nan y = false.
Proof. rewrite leb_spec, !not_nan_spec. apply SFleb_defined. Qed.

Lemma float_leb_refl (x : float) : is_nan x = false -> (x <=? x)%float = true.
Proof.
  intros H. destruct (x <=? x)%float eqn:E; [reflexivity|].
  rewrite <- E. now apply float_leb_total.
Qed.

(** *** [argmin] *)

Lemma min_so_far_keep (pre : list float) (mp v : float) (mi : nat) :
  min_so_far pre mp mi -> (mp <=? v)%float = true ->
  min_so_far (pre ++ [v]) mp mi.
Proof.
  intros (Hnth & Hnan & Hle & Hbefore) Hv.
  assert (Hmi : mi < length pre) by (apply nth_error_Some; congruence).
  repeat split.
  - rewrite nth_error_app1; assumption.
  - assumption.
  - intros x Hx. apply in_app_or in Hx. destruct Hx as [Hx|[<-|[]]]; auto.
  - intros j x Hj Hx. rewrite nth_error_app1 in Hx by lia. eauto.
Qed.

Lemma min_so_far_replace (pre : list float) (mp v : float) (mi : nat) :
  min_so_far pre mp mi -> (mp <=? v)%float = false -> is_nan v = false ->
  min_so_far (pre ++ [v]) v (length pre).
Proof.
  intros (Hnth & Hnan & Hle & Hbefore) Hv Hvn.
  assert (Hvm : (v <=? mp)%float = true) by now apply float_leb_total.
  repeat split.
  - rewrite nth_error_app2 by lia. rewrite Nat.sub_diag. reflexivity.
  - assumption.
  - intros x Hx. apply in_app_or in Hx. destruct Hx as [Hx|[<-|[]]].
    + apply float_leb_trans with mp; auto.
    + now apply float_leb_refl.
  - intros j x Hj Hx. rewrite nth_error_app1 in Hx by lia.
    apply nth_error_In in Hx.
    destruct (x <=? v)%float eqn:E; [|reflexivity].
    assert ((mp <=? v)%float = true) by (apply float_leb_trans with x; auto).
    congruence.
Qed.

Lemma argmin_scan_spec (l : list float) :
  forall pre mp mi,
    min_so_far pre mp mi ->
    least_first (pre ++ l) (argmin_scan mp mi (length pre) l)
    \/ first_nan (pre ++ l) (argmin_scan mp mi (length pre) l).
Proof.
  induction l as [|v l IH]; intros pre mp mi Hinv; simpl.
  - left. rewrite app_nil_r. destruct Hinv as (Hnth & _ & Hle & Hbefore).
    exists mp. auto.
  - replace (pre ++ v :: l)%list with ((pre ++ [v]) ++ l)%list
      by (rewrite <- app_assoc; reflexivity).
    destruct (mp <=? v)%float eqn:Hv; simpl.
    + replace (S (length pre)) with (length (pre ++ [v])%list)
        by (rewrite length_app; simpl; lia).
      apply IH. now apply min_so_far_keep.
    + destruct (is_nan v) eqn:Hvn.
      * right. exists v. repeat split.
        -- rewrite nth_error_app1 by (rewrite length_app; simpl; lia).
           rewrite nth_error_app2 by lia. rewrite Nat.sub_diag.
           reflexivity.
        -- assumption.
        -- intros j x Hj Hx.
           rewrite nth_error_app1 in Hx by (rewrite length_app; simpl; lia).
           rewrite nth_error_app1 in Hx by lia.
           apply nth_error_In in Hx.
           destruct Hinv as (_ & _ & Hle & _).
           apply (float_leb_defined mp x). auto.
      * replace (S (length pre)) with (length (pre ++ [v])%list)
          by (rewrite length_app; simpl; lia).
        apply IH. now apply min_so_far_replace with mp mi.
Qed.

Lemma argmin_spec (l : list float) (r : nat) :
  argmin l = Ok r -> least_first l r \/ first_nan l r.
Proof.
  destruct l as [|d l]; simpl; [discriminate|].
  intros H. injection H as <-.
  destruct (is_nan d) eqn:Hd.
  - right. exists d. repeat split; [assumption|]. intros j x Hj. lia.
  - apply (argmin_scan_spec l [d] d 0).
    repeat split; [assumption| |intros j x Hj; lia].
    intros x [<-|[]]. now apply float_leb_refl.
Qed.

Lemma least_first_buses (lat lon : float) (cs : list Bus) (r : nat) :
  least_first (map (distance lat lon) cs) r ->
  exists b, nearest_first lat lon cs r b.
Proof.
  intros (v & Hnth & Hle & Hbefore).
  rewrite nth_error_map in Hnth.
  destruct (nth_error cs r) as [b|] eqn:Hb; [|discriminate].
  injection Hnth as <-. exists b. repeat split.
  - assumption.
  - intros b' Hb'. apply Hle. now apply in_map.
  - intros j b' Hj Hb'. apply (Hbefore j); [assumption|].
    rewrite nth_error_map, Hb'. reflexivity.
Qed.

Lemma first_nan_buses (lat lon : float) (cs : list Bus) (r : nat) :
  first_nan (map (distance lat lon) cs) r ->
  exists b, first_nan_distance lat lon cs r b.
Proof.
  intros (v & Hnth & Hnan & Hbefore).
  rewrite nth_error_map in Hnth.
  destruct (nth_error cs r) as [b|] eqn:Hb; [|discriminate].
  injection Hnth as <-. exists b. repeat split.
  - assumption.
  - assumption.
  - intros j b' Hj Hb'. apply (Hbefore j); [assumption|].
    rewrite nth_error_map, Hb'. reflexivity.
Qed.

Lemma pick_nearest (cs : list Bus) (latitude longitude : pyval)
      (lat lon : float) :
  as_float latitude = Some (Ok lat) ->
  as_float longitude = Some (Ok lon) ->
  cs <> [] ->
  exists i b,
    pick cs latitude longitude = Ok (bus_name b)
    /\ (nearest_first lat lon cs i b \/ first_nan_distance lat lon cs i b).
Proof.
  intros Hlat Hlon Hne. rewrite (pick_target _ _ _ _ _ Hlat Hlon).
  destruct (argmin_defined (map (distance lat lon) cs)) as [r Hr].
  { destruct cs; [congruence|discriminate]. }
  rewrite Hr. simpl. unfold index_at.
  destruct (argmin_spec _ _ Hr) as [H|H].
  - destruct (least_first_buses _ _ _ _ H) as [b Hb]. exists r, b.
    destruct Hb as (Hnth & Hrest). rewrite Hnth.
    split; [reflexivity|]. left. split; assumption.
  - destruct (first_nan_buses _ _ _ _ H) as [b Hb]. exists r, b.
    destruct Hb as (Hnth & Hrest). rewrite Hnth.
    split; [reflexivity|]. right. split; assumption.
Qed.

(** C2, as amended: with both coordinates supplied and a non-empty
    candidate set, the resolver returns a candidate; when no computed
    distance is NaN it is one at the least computed distance
    [sqrt((y - latitude)^2 + (x - longitude)^2)], the first of them in the
    order of the set; when some computed distance is NaN it is the first
    candidate whose distance is NaN.  In particular, with the candidates
    of country "ES" at (0,0), (1,1) and (5,5) and the target (0.9,0.9),
    the answer is the bus at (1,1). *)
Theorem closest_bus_nearest :
  (forall (n : Network) (c : string) (latitude longitude sub : pyval)
          (lat lon : float) (cs : list Bus),
      as_float latitude = Some (Ok lat) ->
      as_float longitude = Some (Ok lon) ->
      country_candidates n c <> [] ->
      narrow (country_candidates n c) sub = Ok cs ->
      exists i b,
        _closest_bus n (PStr c) latitude longitude sub = Ok (bus_name b)
        /\ ((forall b', In b' cs -> is_nan (distance lat lon b') = false) ->
            nearest_first lat lon cs i b)
        /\ ((exists b', In b' cs /\ is_nan (distance lat lon b') = true) ->
            first_nan_distance lat lon cs i b))
  /\ (forall (n : Network) (b0 b1 b2 : Bus),
         country_candidates n "ES" = [b0; b1; b2] ->
         bus_y b0 = 0%float -> bus_x b0 = 0%float ->
         bus_y b1 = 1%float -> bus_x b1 = 1%float ->
         bus_y b2 = 5%float -> bus_x b2 = 5%float ->
         _closest_bus n (PStr "ES") (PFloat 0.9) (PFloat 0.9) PNone
         = Ok (bus_name b1)).
Proof.
  split.
  - intros n c latitude longitude sub lat lon cs Hlat Hlon Hne Hcs.
    rewrite closest_bus_unfold by assumption. rewrite Hcs. simpl.
    pose proof (narrow_nonempty _ _ _ Hcs Hne) as Hne'.
    destruct (pick_nearest cs _ _ lat lon Hlat Hlon Hne')
      as (i & b & Hp & Hcase).
    exists i, b. split; [assumption|].
    destruct Hcase as [Hmin|Hnan]; split.
    + intros _. assumption.
    + intros (b' & Hin & Hb'). destruct Hmin as (_ & Hle & _).
      apply Hle in Hin. apply float_leb_defined in Hin.
      destruct Hin. congruence.
    + intros Hall. destruct Hnan as (Hnth & Hn & _).
      apply nth_error_In in Hnth. apply Hall in Hnth. congruence.
    + intros _. assumption.
  - intros n b0 b1 b2 Hcs Hy0 Hx0 Hy1 Hx1 Hy2 Hx2.
    unfold _closest_bus. cbv [same_country res_bind]. rewrite Hcs.
    cbv [narrow truthy res_bind pick is_None orb as_float map distance].
    rewrite Hy0, Hx0, Hy1, Hx1, Hy2, Hx2. reflexivity.
Qed.

(** *** The guarded inserts, one by one *)

Lemma spec_float_eqb_refl (f : spec_float) : spec_float_eqb f f = true.
Proof.
  destruct f as [s|s| |s m e]; simpl; try reflexivity;
    try (now destruct s).
  rewrite Bool.eqb_reflx, Pos.eqb_refl, Z.eqb_refl. reflexivity.
Qed.

Lemma hkey_eqb_refl (k : hkey) : hkey_eqb k k = true.
Proof.
  destruct k; simpl; try reflexivity.
  - apply Z.eqb_refl.
  - apply spec_float_eqb_refl.
  - apply String.eqb_refl.
Qed.

Lemma same_label_refl (v : pyval) (k : hkey) :
  label_key v = Some k -> same_label v v = true.
Proof. unfold same_label. intros ->. apply hkey_eqb_refl. Qed.

Lemma has_label_hashable (x : pyval) (l : list pyval) :
  has_label x l = true -> exists k, label_key x = Some k.
Proof.
  unfold has_label. intros H. apply existsb_exists in H.
  destruct H as (y & _ & H). unfold same_label in H.
  destruct (label_key x) as [k|]; [eauto|discriminate].
Qed.

Lemma has_label_app (x : pyval) (l1 l2 : list pyval) :
  has_label x (l1 ++ l2) = has_label x l1 || has_label x l2.
Proof. unfold has_label. apply existsb_app. Qed.

Lemma has_label_grow (x : pyval) (l1 l2 : list pyval) :
  has_label x l1 = true -> has_label x (l1 ++ l2) = true.
Proof. intros H. now rewrite has_label_app, H. Qed.

Lemma has_label_last (x : pyval) (k : hkey) (l : list pyval) :
  label_key x = Some k -> has_label x (l ++ [x]) = true.
Proof.
  intros H. rewrite has_label_app. simpl.
  rewrite (same_label_refl x k H). now rewrite orb_true_r.
Qed.

Lemma ensure_carrier_run (name : pyval) (n : Network) :
  _ensure_carrier name n
  = match label_key name with
    | Some _ => (Ok tt, ensure name n)
    | None => (Err TypeError, n)
    end.
Proof.
  unfold _ensure_carrier, index_contains, ensure, bind, ret, modify.
  destruct (label_key name); [|reflexivity].
  destruct (has_label name (carriers n)); reflexivity.
Qed.

Lemma buses_loc_name (n : Network) (label : string) (b : Bus) :
  buses_loc n label = Ok b -> bus_name b = label /\ In b (buses n).
Proof.
  unfold buses_loc.
  destruct (find _ (buses n)) as [b'|] eqn:E; [|discriminate].
  intros H. injection H as <-. apply find_some in E.
  destruct E as [Hin Heq]. apply String.eqb_eq in Heq. auto.
Qed.

Lemma add_bus_run (base : string) (cs : pyval) (n : Network) :
  _add_bus base cs n =
  match buses_loc n base with
  | Err e => (Err e, n)
  | Ok b =>
      (Ok (base ++ "-NH3"),
       if in_index (base ++ "-NH3") (buses_index n) then n
       else add_Bus (mkBus (base ++ "-NH3") (bus_x b) (bus_y b)
                           (bus_country b) cs (bus_sub_network b)) n)
  end.
Proof.
  unfold _add_bus, bind, read, ret, modify.
  destruct (buses_loc n base) as [b|e]; [|reflexivity].
  destruct (in_index (base ++ "-NH3") (buses_index n)); reflexivity.
Qed.

Lemma add_electrolyser_run (base nh3 : string) (ce : pyval) (cfg : pyval)
      (n : Network) :
  _add_electrolyser base nh3 cfg ce n =
  if in_index (base ++ "-NH3-electrolyser") (links_index n) then (Ok tt, n)
  else match cfg with
       | PDict de => (Ok tt, add_Link (electrolyser_row base nh3 de ce) n)
       | _ => (Err AttributeError, n)
       end.
Proof.
  unfold _add_electrolyser, bind, read, ret, modify, lift.
  destruct (in_index _ (links_index n)); [reflexivity|].
  destruct cfg; reflexivity.
Qed.

Lemma add_storage_run (nh3 : string) (cs : pyval) (cfg : pyval) (n : Network) :
  _add_storage nh3 cfg cs n =
  if in_index (nh3 ++ "-store") (stores_index n) then (Ok tt, n)
  else match cfg with
       | PDict ds => (Ok tt, add_Store (store_row nh3 ds cs) n)
       | _ => (Err AttributeError, n)
       end.
Proof.
  unfold _add_storage, bind, read, ret, modify, lift.
  destruct (in_index _ (stores_index n)); [reflexivity|].
  destruct cfg; reflexivity.
Qed.

Lemma add_ccgt_run (base nh3 : string) (cc cfg : pyval) (n : Network) :
  _add_ccgt base nh3 cfg cc n =
  if in_index (base ++ "-NH3-CCGT") (links_index n) then (Ok tt, n)
  else match cfg with
       | PDict dc => (Ok tt, add_Link (ccgt_row base nh3 dc cc) n)
       | _ => (Err AttributeError, n)
       end.
Proof.
  unfold _add_ccgt, bind, read, ret, modify, lift.
  destruct (in_index _ (links_index n)); [reflexivity|].
  destruct cfg; reflexivity.
Qed.

Lemma dict_get_absent (d : pydict) (k : string) (default : pyval) :
  assoc k d = None -> dict_get d k default = default.
Proof. unfold dict_get. intros ->. reflexivity. Qed.

(** *** Strings *)

Lemma length_append (s1 s2 : string) :
  String.length (s1 ++ s2) = String.length s1 + String.length s2.
Proof. induction s1 as [|a s1 IH]; simpl; [reflexivity|]. now rewrite IH. Qed.

Lemma append_inj_l (s s1 s2 : string) : s ++ s1 = s ++ s2 -> s1 = s2.
Proof.
  induction s as [|a s IH]; simpl; intros H; [assumption|].
  injection H as H. auto.
Qed.

Lemma append_suffix_neq (s suffix : string) :
  suffix <> "" -> s ++ suffix <> s.
Proof.
  intros Hne H. apply (f_equal String.length) in H.
  rewrite length_append in H.
  destruct suffix as [|a suffix]; [congruence|]. simpl in H. lia.
Qed.

Lemma in_index_app (label : string) (l1 l2 : list string) :
  in_index label (l1 ++ l2) = in_index label l1 || in_index label l2.
Proof. unfold in_index. apply existsb_app. Qed.

(** *** The chain as a whole *)

Lemma lift_bind {A B : Type} (r : res A) (k : A -> M B) (n : Network) :
  bind (lift r) k n = match r with Ok a => k a n | Err e => (Err e, n) end.
Proof. unfold bind, lift. destruct r; reflexivity. Qed.

Lemma ensure_buses (name : pyval) (n : Network) :
  buses (ensure name n) = buses n /\ links (ensure name n) = links n
  /\ stores (ensure name n) = stores n.
Proof. unfold ensure. destruct (has_label name (carriers n)); auto. Qed.

Lemma select_base_bus_state (ga_cfg : pyval) (n : Network) :
  snd (select_base_bus ga_cfg n) = n.
Proof.
  unfold select_base_bus, resolve_base_bus.
  repeat (rewrite lift_bind;
          match goal with
          | |- snd (match ?r with Ok _ => _ | Err _ => _ end) = _ =>
              destruct r; [|reflexivity]
          end).
  reflexivity.
Qed.

Lemma bind_run {A B : Type} (m : M A) (k : A -> M B) (n : Network) :
  bind m k n = match m n with
               | (Ok a, n') => k a n'
               | (Err e, n') => (Err e, n')
               end.
Proof. reflexivity. Qed.

Lemma buses_index_ensure (name : pyval) (n : Network) :
  buses_index (ensure name n) = buses_index n.
Proof. unfold buses_index. now rewrite (proj1 (ensure_buses name n)). Qed.

Lemma links_index_ensure (name : pyval) (n : Network) :
  links_index (ensure name n) = links_index n.
Proof.
  unfold links_index. now rewrite (proj1 (proj2 (ensure_buses name n))).
Qed.

Lemma stores_index_ensure (name : pyval) (n : Network) :
  stores_index (ensure name n) = stores_index n.
Proof.
  unfold stores_index. now rewrite (proj2 (proj2 (ensure_buses name n))).
Qed.

Lemma buses_loc_ensure (name : pyval) (label : string) (n : Network) :
  buses_loc (ensure name n) label = buses_loc n label.
Proof. unfold buses_loc. now rewrite (proj1 (ensure_buses name n)). Qed.

Lemma chain_absent_cases (n : Network) (base : string) :
  chain_absent n base = true ->
  in_index (base ++ "-NH3") (buses_index n) = false
  /\ in_index (base ++ "-NH3-electrolyser") (links_index n) = false
  /\ in_index (base ++ "-NH3-CCGT") (links_index n) = false
  /\ in_index ((base ++ "-NH3") ++ "-store") (stores_index n) = false.
Proof.
  unfold chain_absent. rewrite !andb_true_iff, !negb_true_iff. tauto.
Qed.

Lemma ccgt_label_fresh (base : string) (l : Link) (index : list string) :
  in_index (base ++ "-NH3-CCGT") index = false ->
  link_name l = base ++ "-NH3-electrolyser" ->
  in_index (base ++ "-NH3-CCGT") (index ++ [link_name l]) = false.
Proof.
  intros Hidx Hl. rewrite in_index_app, Hidx, Hl. simpl.
  rewrite orb_false_r. apply String.eqb_neq. intros H.
  apply append_inj_l in H. discriminate.
Qed.

Lemma links_index_add_Bus (b : Bus) (n : Network) :
  links_index (add_Bus b n) = links_index n.
Proof. reflexivity. Qed.

Lemma stores_index_add_Bus (b : Bus) (n : Network) :
  stores_index (add_Bus b n) = stores_index n.
Proof. reflexivity. Qed.

Lemma links_index_add_Link (l : Link) (n : Network) :
  links_index (add_Link l n) = (links_index n ++ [link_name l])%list.
Proof. unfold links_index. simpl. now rewrite map_app. Qed.

Lemma stores_index_add_Link (l : Link) (n : Network) :
  stores_index (add_Link l n) = stores_index n.
Proof. reflexivity. Qed.

Lemma links_index_add_Store (s : Store) (n : Network) :
  links_index (add_Store s n) = links_index n.
Proof. reflexivity. Qed.

Ltac run_lift H :=
  rewrite lift_bind in H;
  match type of H with
  | match ?r with Ok _ => _ | Err _ => _ end = _ =>
      let E := fresh "E" in destruct r eqn:E; [|discriminate H]
  end.

Ltac run_ensure H :=
  rewrite bind_run, ensure_carrier_run in H;
  match type of H with
  | context [label_key ?v] =>
      let K := fresh "K" in
      destruct (label_key v) eqn:K; [|discriminate H]
  end.

Lemma build_chain_ok (ga : pydict) (base : string) (n n' : Network) :
  chain_absent n base = true ->
  build_chain (PDict ga) base n = (Ok tt, n') ->
  exists cs ce cc b de ds dc,
    bus_name b = base /\ In b (buses n)
    /\ dict_get ga "electrolyser" (PDict []) = PDict de
    /\ dict_get ga "storage" (PDict []) = PDict ds
    /\ dict_get ga "ccgt" (PDict []) = PDict dc
    /\ n' = add_Link (ccgt_row base (base ++ "-NH3") dc cc)
              (add_Store (store_row (base ++ "-NH3") ds cs)
                 (add_Link (electrolyser_row base (base ++ "-NH3") de ce)
                    (add_Bus (mkBus (base ++ "-NH3") (bus_x b) (bus_y b)
                                    (bus_country b) cs (bus_sub_network b))
                       (ensure cc (ensure ce (ensure cs n)))))).
Proof.
  intros Habs H.
  destruct (chain_absent_cases n base Habs) as (Hb & He & Hc & Hs).
  unfold build_chain in H.
  rewrite lift_bind in H. simpl py_get in H. cbv iota in H.
  run_lift H. rename a into cs.
  run_lift H. rename a into ce.
  run_lift H. rename a into cc.
  run_ensure H. run_ensure H. run_ensure H.
  rewrite bind_run, add_bus_run in H.
  rewrite !buses_loc_ensure, !buses_index_ensure, Hb in H.
  destruct (buses_loc n base) as [b|e] eqn:Eb; [|discriminate H].
  destruct (buses_loc_name _ _ _ Eb) as [Hname Hin].
  rewrite lift_bind in H. simpl py_get in H. cbv iota in H.
  rewrite bind_run, add_electrolyser_run in H.
  rewrite links_index_add_Bus, !links_index_ensure, He in H.
  destruct (dict_get ga "electrolyser" (PDict [])) as [| | | | | |de] eqn:Ede;
    try discriminate H.
  rewrite lift_bind in H. simpl py_get in H. cbv iota in H.
  rewrite bind_run, add_storage_run in H.
  rewrite stores_index_add_Link, stores_index_add_Bus, !stores_index_ensure,
    Hs in H.
  destruct (dict_get ga "storage" (PDict [])) as [| | | | | |ds] eqn:Eds;
    try discriminate H.
  rewrite lift_bind in H. simpl py_get in H. cbv iota in H.
  rewrite add_ccgt_run in H.
  rewrite links_index_add_Store, links_index_add_Link, links_index_add_Bus,
    !links_index_ensure in H.
  rewrite (ccgt_label_fresh base (electrolyser_row base (base ++ "-NH3")
                                                   de ce)
                            (links_index n) Hc eq_refl) in H.
  destruct (dict_get ga "ccgt" (PDict [])) as [| | | | | |dc] eqn:Edc;
    try discriminate H.
  injection H as <-.
  exists cs, ce, cc, b, de, ds, dc. repeat split; assumption.
Qed.
(** *** The hook behind its gate *)

Lemma enabled_true (config : pydict) :
  enabled config = true ->
  exists ga, _get_cfg config = Ok (PDict ga)
             /\ truthy (dict_get ga "enable" (PBool false)) = true.
Proof.
  unfold enabled. destruct (_get_cfg config) as [[| | | | | |ga]|];
    try discriminate. eauto.
Qed.

Lemma hook_enabled_run (snapshots : Snapshots) (config kwargs ga : pydict)
      (n : Network) :
  _get_cfg config = Ok (PDict ga) ->
  enabled config = true ->
  add_green_ammonia snapshots config kwargs n = inject (PDict ga) n.
Proof.
  intros Hga Hen. unfold enabled in Hen. rewrite Hga in Hen.
  unfold add_green_ammonia. rewrite lift_bind, Hga, lift_bind. simpl.
  rewrite Hen. reflexivity.
Qed.

Lemma inject_run (ga_cfg : pyval) (n : Network) :
  inject ga_cfg n =
  match fst (select_base_bus ga_cfg n) with
  | Ok base => build_chain ga_cfg base n
  | Err e => (Err e, n)
  end.
Proof.
  unfold inject. rewrite bind_run.
  pose proof (select_base_bus_state ga_cfg n) as Hst.
  destruct (select_base_bus ga_cfg n) as [[base|e] n0]; simpl in *;
    subst; reflexivity.
Qed.

Lemma no_link_on_undefined_bus (n : Network) (bus : string) :
  buses_defined n = true ->
  in_index bus (buses_index n) = false ->
  inbound_links n bus = [] /\ outbound_links n bus = []
  /\ attached_stores n bus = [].
Proof.
  unfold buses_defined, inbound_links, outbound_links, attached_stores.
  rewrite andb_true_iff, !forallb_forall. intros [Hl Hs] Hbus.
  assert (Hneq : forall x, in_index x (buses_index n) = true ->
                           String.eqb x bus = false).
  { intros x Hx. apply String.eqb_neq. intros ->. congruence. }
  repeat split.
  - induction (links n) as [|l ls IH]; simpl; [reflexivity|].
    assert (H := Hl l (or_introl eq_refl)). apply andb_true_iff in H.
    rewrite (Hneq _ (proj2 H)). apply IH. intros x Hx. apply Hl. now right.
  - induction (links n) as [|l ls IH]; simpl; [reflexivity|].
    assert (H := Hl l (or_introl eq_refl)). apply andb_true_iff in H.
    rewrite (Hneq _ (proj1 H)). apply IH. intros x Hx. apply Hl. now right.
  - induction (stores n) as [|s ss IH]; simpl; [reflexivity|].
    rewrite (Hneq _ (Hs s (or_introl eq_refl))). apply IH.
    intros x Hx. apply Hs. now right.
Qed.

(** C7, as amended: after a successful enabled call on a network where
    every link and store sits on a defined bus and none of the four injected
    components is present yet, the new NH3 bus has one inbound link, the
    electrolyser from the base bus, one outbound link, the CCGT to the base
    bus, and one store. *)
Theorem injected_chain_consistent (snapshots : Snapshots)
        (config kwargs ga : pydict) (n n' : Network) (base : string) :
  _get_cfg config = Ok (PDict ga) ->
  enabled config = true ->
  fst (select_base_bus (PDict ga) n) = Ok base ->
  add_green_ammonia snapshots config kwargs n = (Ok tt, n') ->
  buses_defined n = true ->
  chain_absent n base = true ->
  in_index (base ++ "-NH3") (buses_index n) = false
  /\ in_index (base ++ "-NH3") (buses_index n') = true
  /\ (exists e, inbound_links n' (base ++ "-NH3") = [e]
                /\ link_name e = base ++ "-NH3-electrolyser"
                /\ link_bus0 e = base)
  /\ (exists g, outbound_links n' (base ++ "-NH3") = [g]
                /\ link_name g = base ++ "-NH3-CCGT"
                /\ link_bus1 g = base)
  /\ (exists s, attached_stores n' (base ++ "-NH3") = [s]
                /\ store_name s = (base ++ "-NH3") ++ "-store").
Proof.
  intros Hga Hen Hbase Hrun Hdef Habs.
  rewrite (hook_enabled_run _ _ _ _ _ Hga Hen), inject_run, Hbase in Hrun.
  destruct (build_chain_ok _ _ _ _ Habs Hrun)
    as (cs & ce & cc & b & de & ds & dc & Hname & Hin & _ & _ & _ & ->).
  destruct (chain_absent_cases n base Habs) as (Hb & _).
  destruct (no_link_on_undefined_bus n _ Hdef Hb) as (Hi & Ho & Hs).
  assert (Hneq : String.eqb base (base ++ "-NH3") = false).
  { apply String.eqb_neq. intros H. symmetry in H. revert H.
    apply append_suffix_neq. discriminate. }
  split; [assumption|]. split.
  { unfold buses_index. simpl. rewrite map_app.
    fold (in_index (base ++ "-NH3")).
    rewrite in_index_app. simpl. rewrite String.eqb_refl.
    now rewrite orb_true_r. }
  unfold inbound_links, outbound_links, attached_stores in *. simpl.
  rewrite (proj1 (proj2 (ensure_buses _ _))),
          (proj1 (proj2 (ensure_buses _ _))),
    (proj1 (proj2 (ensure_buses _ _))).
  rewrite (proj2 (proj2 (ensure_buses _ _))),
          (proj2 (proj2 (ensure_buses _ _))),
    (proj2 (proj2 (ensure_buses _ _))).
  rewrite !filter_app, Hi, Ho, Hs. simpl.
  rewrite String.eqb_refl, Hneq. simpl.
  repeat split; eexists; repeat split; reflexivity.
Qed.

Lemma same_country_scalar (n : Network) (v : pyval) :
  match v with
  | PNone | PBool _ | PInt _ | PFloat _ => same_country n v = Ok []
  | PStr c => same_country n v = Ok (country_candidates n c)
  | PList _ | PDict _ => True
  end.
Proof. destruct v; simpl; auto. Qed.

(** For a code that is not a list or a mapping, the comparison selects no
    bus exactly when no bus of the network has the code as its country. *)
Lemma same_country_none (n : Network) (v : pyval) :
  is_scalar v = true ->
  same_country n v = Ok []
  <-> (forall b, In b (buses n) -> PStr (bus_country b) <> v).
Proof.
  intros Hv.
  destruct v as [| | | |c| |]; try discriminate Hv; simpl;
    try (split; [intros _ ? _; discriminate|reflexivity]).
  unfold country_candidates. split.
  - intros H b Hin Heq. injection Heq as Heq.
    assert (Hb : In b (filter (fun b => String.eqb (bus_country b) c)
                              (buses n))).
    { apply filter_In. split; [exact Hin|]. now apply String.eqb_eq. }
    injection H as H. rewrite H in Hb. exact Hb.
  - intros H. f_equal.
    induction (buses n) as [|b l IH]; [reflexivity|]. simpl.
    destruct (String.eqb (bus_country b) c) eqn:E.
    + apply String.eqb_eq in E. exfalso.
      apply (H b); [now left|now rewrite E].
    + apply IH. intros b' Hin. apply H. now right.
Qed.

(** C3, as amended: when the comparison of the country column with the
    requested code selects no bus (for a string, [None], a boolean or a
    number: when no bus has that value as its country, see
    [same_country_none]), an enabled call whose [location] entry is a
    mapping (or absent) raises [ValueError], which is not of the
    [LookupError] class, and leaves the network as it was. *)
Theorem no_bus_in_country_raises (snapshots : Snapshots)
        (config kwargs ga loc : pydict) (n : Network) :
  _get_cfg config = Ok (PDict ga) ->
  enabled config = true ->
  dict_get ga "location" (PDict []) = PDict loc ->
  same_country n (dict_get ga "country_code" (PStr "ES")) = Ok [] ->
  exists msg,
    add_green_ammonia snapshots config kwargs n = (Err (ValueError msg), n)
    /\ is_ValueError (ValueError msg) = true
    /\ is_LookupError (ValueError msg) = false.
Proof.
  intros Hga Hen Hloc Hnone.
  rewrite (hook_enabled_run _ _ _ _ _ Hga Hen), inject_run.
  unfold select_base_bus, resolve_base_bus.
  rewrite !lift_bind. simpl py_get. cbv iota. rewrite Hloc.
  rewrite !lift_bind. simpl. unfold _closest_bus. rewrite Hnone. simpl.
  eexists. repeat split.
Qed.

(** *** Defaults *)

Lemma buses_loc_defined (n : Network) (b : Bus) :
  In b (buses n) -> exists b', buses_loc n (bus_name b) = Ok b'.
Proof.
  intros Hin. unfold buses_loc.
  destruct (find _ (buses n)) as [b'|] eqn:E; [eauto|].
  apply (find_none _ _ E) in Hin. rewrite String.eqb_refl in Hin.
  discriminate.
Qed.

Lemma enable_only_run (snapshots : Snapshots) (kwargs : pydict)
      (n : Network) (b : Bus) (rest : list Bus) :
  country_candidates n "ES" = b :: rest ->
  in_index (bus_name b ++ "-NH3-electrolyser") (links_index n) = false ->
  exists n',
    add_green_ammonia snapshots config_enable_only kwargs n = (Ok tt, n')
    /\ In (electrolyser_row (bus_name b) (bus_name b ++ "-NH3") []
                            (PStr "NH3-electrolyser")) (links n').
Proof.
  intros Hcs He.
  assert (Hin : In b (buses n)).
  { assert (H : In b (country_candidates n "ES")) by (rewrite Hcs; now left).
    apply filter_In in H. tauto. }
  destruct (buses_loc_defined n b Hin) as [b' Hb'].
  rewrite (hook_enabled_run _ _ _ [("enable", PBool true)]);
    [|reflexivity|reflexivity].
  rewrite inject_run.
  assert (Hbase : fst (select_base_bus (PDict [("enable", PBool true)]) n)
                  = Ok (bus_name b)).
  { unfold select_base_bus, resolve_base_bus. rewrite !lift_bind. simpl.
    unfold _closest_bus, dict_get. simpl. rewrite Hcs. reflexivity. }
  rewrite Hbase. unfold build_chain.
  repeat (rewrite lift_bind; simpl py_get; simpl res_bind; cbv beta iota).
  change (dict_get [] "ammonia" (PStr "NH3")) with (PStr "NH3").
  change (dict_get [] "to_store" (PStr "NH3-electrolyser"))
    with (PStr "NH3-electrolyser").
  change (dict_get [] "to_power" (PStr "NH3-power")) with (PStr "NH3-power").
  rewrite bind_run, ensure_carrier_run. simpl label_key. cbv beta iota.
  rewrite bind_run, ensure_carrier_run. simpl label_key. cbv beta iota.
  rewrite bind_run, ensure_carrier_run. simpl label_key. cbv beta iota.
  rewrite bind_run, add_bus_run, !buses_loc_ensure, Hb'.
  set (n1 := ensure (PStr "NH3-power")
               (ensure (PStr "NH3-electrolyser") (ensure (PStr "NH3") n))).
  assert (Hl1 : links_index n1 = links_index n)
    by (unfold n1; now rewrite !links_index_ensure).
  match goal with
  | |- context [if ?g then n1 else ?m] =>
      set (n2 := if g then n1 else m);
      assert (Hl2 : links_index n2 = links_index n)
        by (unfold n2; destruct g; [|rewrite links_index_add_Bus]; exact Hl1)
  end.
  rewrite lift_bind. cbv beta iota.
  rewrite bind_run, add_electrolyser_run, Hl2, He.
  unfold dict_get at 1. simpl assoc. cbv iota.
  set (el := electrolyser_row (bus_name b) (bus_name b ++ "-NH3") []
                              (PStr "NH3-electrolyser")).
  rewrite lift_bind. cbv beta iota. rewrite bind_run, add_storage_run.
  unfold dict_get at 1. simpl assoc. cbv iota.
  match goal with
  | |- context [if ?g then (Ok tt, ?m1) else (Ok tt, ?m2)] =>
      replace (if g then (Ok tt, m1) else (Ok tt, m2))
        with (Ok tt, if g then m1 else m2) by (destruct g; reflexivity);
      set (n4 := if g then m1 else m2);
      assert (Hl4 : In el (links n4))
        by (unfold n4; destruct g; simpl; apply in_or_app; right; now left)
  end.
  rewrite lift_bind. cbv beta iota. rewrite add_ccgt_run.
  unfold dict_get at 1. simpl assoc. cbv iota.
  match goal with
  | |- context [if ?g then _ else _] => destruct g
  end.
  - exists n4. split; [reflexivity|assumption].
  - eexists. split; [reflexivity|]. simpl. apply in_or_app. now left.
Qed.

Lemma electrolyser_row_defaults (base nh3 : string) (ce : pyval) (de : pydict) :
  electrolyser_defaults de (electrolyser_row base nh3 de ce).
Proof. repeat split; simpl; apply dict_get_absent. Qed.

Lemma store_row_defaults (nh3 : string) (cs : pyval) (ds : pydict) :
  store_defaults ds (store_row nh3 ds cs).
Proof. repeat split; simpl; apply dict_get_absent. Qed.

Lemma ccgt_row_defaults (base nh3 : string) (cc : pyval) (dc : pydict) :
  ccgt_defaults dc (ccgt_row base nh3 dc cc).
Proof. repeat split; simpl; apply dict_get_absent. Qed.

(** C6: a parameter key absent from its mapping takes the default of the
    enumeration: electrolyser link efficiency 0.6, capital cost 7.5e5,
    marginal cost 0.5, lifetime 20, [p_nom_max] infinity; store [e_cyclic]
    true, standing loss 0.0, capital cost 1.5e5, [e_nom_max] infinity; CCGT
    link efficiency 0.55, capital cost 9e5, marginal cost 2.5, lifetime 25,
    [p_nom_max] infinity.  This holds of each of the three inserts, and of
    the three components a successful call of the hook creates.  In
    particular, with nothing but [enable: true] configured, the hook creates
    an electrolyser link of efficiency 0.6 and capital cost 7.5e5. *)
Theorem defaults_when_absent :
  (forall (base nh3 : string) (ce : pyval) (de : pydict) (n : Network),
      in_index (base ++ "-NH3-electrolyser") (links_index n) = false ->
      exists l,
        _add_electrolyser base nh3 (PDict de) ce n = (Ok tt, add_Link l n)
        /\ link_name l = base ++ "-NH3-electrolyser"
        /\ electrolyser_defaults de l)
  /\ (forall (nh3 : string) (cs : pyval) (ds : pydict) (n : Network),
         in_index (nh3 ++ "-store") (stores_index n) = false ->
         exists s,
           _add_storage nh3 (PDict ds) cs n = (Ok tt, add_Store s n)
           /\ store_name s = nh3 ++ "-store"
           /\ store_defaults ds s)
  /\ (forall (base nh3 : string) (cc : pyval) (dc : pydict) (n : Network),
         in_index (base ++ "-NH3-CCGT") (links_index n) = false ->
         exists l,
           _add_ccgt base nh3 (PDict dc) cc n = (Ok tt, add_Link l n)
           /\ link_name l = base ++ "-NH3-CCGT"
           /\ ccgt_defaults dc l)
  /\ (forall (snapshots : Snapshots) (config kwargs ga : pydict)
             (base : string) (n n' : Network),
         _get_cfg config = Ok (PDict ga) ->
         enabled config = true ->
         fst (select_base_bus (PDict ga) n) = Ok base ->
         chain_absent n base = true ->
         add_green_ammonia snapshots config kwargs n = (Ok tt, n') ->
         exists de ds dc el st cg,
           dict_get ga "electrolyser" (PDict []) = PDict de
           /\ dict_get ga "storage" (PDict []) = PDict ds
           /\ dict_get ga "ccgt" (PDict []) = PDict dc
           /\ links n' = (links n ++ [el; cg])%list
           /\ stores n' = (stores n ++ [st])%list
           /\ link_name el = base ++ "-NH3-electrolyser"
           /\ store_name st = (base ++ "-NH3") ++ "-store"
           /\ link_name cg = base ++ "-NH3-CCGT"
           /\ electrolyser_defaults de el
           /\ store_defaults ds st
           /\ ccgt_defaults dc cg)
  /\ (forall (snapshots : Snapshots) (kwargs : pydict) (n : Network)
             (b : Bus) (rest : list Bus),
         country_candidates n "ES" = b :: rest ->
         in_index (bus_name b ++ "-NH3-electrolyser") (links_index n)
         = false ->
         exists n' l,
           add_green_ammonia snapshots config_enable_only kwargs n
           = (Ok tt, n')
           /\ In l (links n')
           /\ link_name l = bus_name b ++ "-NH3-electrolyser"
           /\ link_efficiency l = PFloat 0.6
           /\ link_capital_cost l = PFloat 7.5e5).
Proof.
  split; [|split; [|split; [|split]]].
  - intros base nh3 ce de n Hfresh.
    exists (electrolyser_row base nh3 de ce).
    rewrite add_electrolyser_run, Hfresh.
    split; [reflexivity|]. split; [reflexivity|].
    apply electrolyser_row_defaults.
  - intros nh3 cs ds n Hfresh.
    exists (store_row nh3 ds cs).
    rewrite add_storage_run, Hfresh.
    split; [reflexivity|]. split; [reflexivity|].
    apply store_row_defaults.
  - intros base nh3 cc dc n Hfresh.
    exists (ccgt_row base nh3 dc cc).
    rewrite add_ccgt_run, Hfresh.
    split; [reflexivity|]. split; [reflexivity|].
    apply ccgt_row_defaults.
  - intros snapshots config kwargs ga base n n' Hga Hen Hbase Habs Hrun.
    rewrite (hook_enabled_run _ _ _ _ _ Hga Hen), inject_run, Hbase in Hrun.
    destruct (build_chain_ok _ _ _ _ Habs Hrun)
      as (cs & ce & cc & b & de & ds & dc & _ & _ & Hde & Hds & Hdc & ->).
    exists de, ds, dc, (electrolyser_row base (base ++ "-NH3") de ce),
      (store_row (base ++ "-NH3") ds cs),
      (ccgt_row base (base ++ "-NH3") dc cc).
    split; [assumption|]. split; [assumption|]. split; [assumption|].
    split.
    { simpl. rewrite !(proj1 (proj2 (ensure_buses _ _))).
      now rewrite <- app_assoc. }
    split.
    { simpl. now rewrite !(proj2 (proj2 (ensure_buses _ _))). }
    split; [reflexivity|]. split; [reflexivity|]. split; [reflexivity|].
    split; [apply electrolyser_row_defaults|].
    split; [apply store_row_defaults|apply ccgt_row_defaults].
  - intros snapshots kwargs n b rest Hcs Hfresh.
    destruct (enable_only_run snapshots kwargs n b rest Hcs Hfresh)
      as (n' & Hrun & Hin).
    exists n', (electrolyser_row (bus_name b) (bus_name b ++ "-NH3") []
                                 (PStr "NH3-electrolyser")).
    repeat split; assumption.
Qed.

(** *** Each insert is idempotent, and so is the chain on a fixed base bus *)

Lemma bind_ok {A B : Type} (m : M A) (k : A -> M B) (n n' : Network)
      (b : B) :
  bind m k n = (Ok b, n') ->
  exists a n1, m n = (Ok a, n1) /\ k a n1 = (Ok b, n').
Proof.
  unfold bind. destruct (m n) as [[a|e] n1]; [eauto|discriminate].
Qed.

Lemma grows_refl (n : Network) : grows n n.
Proof. repeat split; auto. Qed.

Lemma grows_trans (n1 n2 n3 : Network) :
  grows n1 n2 -> grows n2 n3 -> grows n1 n3.
Proof.
  intros (Ha & Hb & Hc & Hd & He) (Ha' & Hb' & Hc' & Hd' & He').
  repeat split; auto.
Qed.

Lemma grows_carriers (n n' : Network) (x : pyval) :
  grows n n' -> has_label x (carriers n) = true ->
  has_label x (carriers n') = true.
Proof. intros (H & _). apply H. Qed.

Lemma grows_buses (n n' : Network) (x : string) :
  grows n n' -> in_index x (buses_index n) = true ->
  in_index x (buses_index n') = true.
Proof. intros (_ & H & _). apply H. Qed.

Lemma grows_links (n n' : Network) (x : string) :
  grows n n' -> in_index x (links_index n) = true ->
  in_index x (links_index n') = true.
Proof. intros (_ & _ & H & _). apply H. Qed.

Lemma grows_stores (n n' : Network) (x : string) :
  grows n n' -> in_index x (stores_index n) = true ->
  in_index x (stores_index n') = true.
Proof. intros (_ & _ & _ & H & _). apply H. Qed.

Lemma grows_loc (n n' : Network) (label : string) (b : Bus) :
  grows n n' -> buses_loc n label = Ok b -> buses_loc n' label = Ok b.
Proof. intros (_ & _ & _ & _ & H). apply H. Qed.

Lemma in_index_grow (x : string) (l1 l2 : list string) :
  in_index x l1 = true -> in_index x (l1 ++ l2) = true.
Proof. intros H. now rewrite in_index_app, H. Qed.

Lemma in_index_last (x : string) (l : list string) :
  in_index x (l ++ [x]) = true.
Proof.
  rewrite in_index_app. simpl. rewrite String.eqb_refl.
  now rewrite orb_true_r.
Qed.

Lemma find_grow {A : Type} (f : A -> bool) (l1 l2 : list A) (a : A) :
  find f l1 = Some a -> find f (l1 ++ l2) = Some a.
Proof.
  induction l1 as [|x l1 IH]; simpl; [discriminate|].
  destruct (f x); auto.
Qed.

Lemma ensure_grows (name : pyval) (k : hkey) (n : Network) :
  label_key name = Some k ->
  grows n (ensure name n) /\ has_label name (carriers (ensure name n)) = true.
Proof.
  intros K. unfold ensure. destruct (has_label name (carriers n)) eqn:E.
  - split; [apply grows_refl|assumption].
  - split; [|simpl; now apply has_label_last with k].
    repeat split; auto. intros x Hx. simpl. now apply has_label_grow.
Qed.

Lemma add_bus_grows (base label : string) (cs : pyval) (n n' : Network) :
  _add_bus base cs n = (Ok label, n') ->
  label = base ++ "-NH3"
  /\ grows n n'
  /\ in_index label (buses_index n') = true
  /\ exists b, buses_loc n base = Ok b.
Proof.
  rewrite add_bus_run. destruct (buses_loc n base) as [b|e] eqn:Eb;
    [|discriminate].
  intros H. injection H as <- <-. split; [reflexivity|].
  destruct (in_index (base ++ "-NH3") (buses_index n)) eqn:E.
  - split; [apply grows_refl|]. split; [assumption|eauto].
  - split; [|split; [|eauto]].
    + repeat split; auto.
      * intros x Hx. unfold buses_index. simpl. rewrite map_app.
        now apply in_index_grow.
      * intros label b0. unfold buses_loc. simpl.
        destruct (find _ (buses n)) as [b1|] eqn:Ef; [|discriminate].
        intros H. rewrite (find_grow _ _ _ _ Ef). assumption.
    + unfold buses_index. simpl. rewrite map_app. simpl.
      apply in_index_last.
Qed.

Lemma add_Link_grows (l : Link) (n : Network) :
  grows n (add_Link l n)
  /\ in_index (link_name l) (links_index (add_Link l n)) = true.
Proof.
  split; [|rewrite links_index_add_Link; apply in_index_last].
  repeat split; auto.
  intros x Hx. rewrite links_index_add_Link. now apply in_index_grow.
Qed.

Lemma add_Store_grows (s : Store) (n : Network) :
  grows n (add_Store s n)
  /\ in_index (store_name s) (stores_index (add_Store s n)) = true.
Proof.
  split.
  - repeat split; auto.
    intros x Hx. unfold stores_index. simpl. rewrite map_app.
    now apply in_index_grow.
  - unfold stores_index. simpl. rewrite map_app. simpl.
    apply in_index_last.
Qed.

Lemma add_electrolyser_grows (base nh3 : string) (ce : pyval) (cfg : pyval)
      (n n' : Network) :
  _add_electrolyser base nh3 cfg ce n = (Ok tt, n') ->
  grows n n'
  /\ in_index (base ++ "-NH3-electrolyser") (links_index n') = true.
Proof.
  rewrite add_electrolyser_run.
  destruct (in_index _ (links_index n)) eqn:E.
  - intros H. injection H as <-. split; [apply grows_refl|assumption].
  - destruct cfg; try discriminate. intros H. injection H as <-.
    apply (add_Link_grows (electrolyser_row base nh3 d ce) n).
Qed.

Lemma add_storage_grows (nh3 : string) (cs cfg : pyval) (n n' : Network) :
  _add_storage nh3 cfg cs n = (Ok tt, n') ->
  grows n n' /\ in_index (nh3 ++ "-store") (stores_index n') = true.
Proof.
  rewrite add_storage_run.
  destruct (in_index _ (stores_index n)) eqn:E.
  - intros H. injection H as <-. split; [apply grows_refl|assumption].
  - destruct cfg; try discriminate. intros H. injection H as <-.
    apply (add_Store_grows (store_row nh3 d cs) n).
Qed.

Lemma add_ccgt_grows (base nh3 : string) (cc cfg : pyval) (n n' : Network) :
  _add_ccgt base nh3 cfg cc n = (Ok tt, n') ->
  grows n n' /\ in_index (base ++ "-NH3-CCGT") (links_index n') = true.
Proof.
  rewrite add_ccgt_run.
  destruct (in_index _ (links_index n)) eqn:E.
  - intros H. injection H as <-. split; [apply grows_refl|assumption].
  - destruct cfg; try discriminate. intros H. injection H as <-.
    apply (add_Link_grows (ccgt_row base nh3 d cc) n).
Qed.

Lemma build_chain_present (ga : pydict) (base : string) (n n' : Network) :
  build_chain (PDict ga) base n = (Ok tt, n') ->
  exists cs ce cc,
    configured_carrier ga "ammonia" "NH3" = Ok cs
    /\ configured_carrier ga "to_store" "NH3-electrolyser" = Ok ce
    /\ configured_carrier ga "to_power" "NH3-power" = Ok cc
    /\ grows n n'
    /\ chain_present n' base cs ce cc.
Proof.
  intros H. unfold build_chain in H.
  rewrite lift_bind in H. simpl py_get in H. cbv iota in H.
  run_lift H. rename a into cs, E into Ecs.
  run_lift H. rename a into ce, E into Ece.
  run_lift H. rename a into cc, E into Ecc.
  run_ensure H. run_ensure H. run_ensure H.
  destruct (ensure_grows cs _ n K) as [G1 P1].
  destruct (ensure_grows ce _ (ensure cs n) K0) as [G2 P2].
  destruct (ensure_grows cc _ (ensure ce (ensure cs n)) K1) as [G3 P3].
  set (n3 := ensure cc (ensure ce (ensure cs n))) in *.
  apply bind_ok in H. destruct H as (label & n4 & Hbus & H).
  destruct (add_bus_grows _ _ _ _ _ Hbus) as (-> & G4 & P4 & b & Hb).
  rewrite lift_bind in H. simpl py_get in H. cbv iota in H.
  apply bind_ok in H. destruct H as ([] & n5 & Hel & H).
  destruct (add_electrolyser_grows _ _ _ _ _ _ Hel) as (G5 & P5).
  rewrite lift_bind in H. simpl py_get in H. cbv iota in H.
  apply bind_ok in H. destruct H as ([] & n6 & Hst & H).
  destruct (add_storage_grows _ _ _ _ _ Hst) as (G6 & P6).
  rewrite lift_bind in H. simpl py_get in H. cbv iota in H.
  destruct (add_ccgt_grows _ _ _ _ _ _ H) as (G7 & P7).
  assert (G37 : grows n3 n').
  { eapply grows_trans; [exact G4|]. eapply grows_trans; [exact G5|].
    eapply grows_trans; [exact G6|exact G7]. }
  assert (G57 : grows n5 n') by (eapply grows_trans; eassumption).
  exists cs, ce, cc.
  split; [assumption|]. split; [assumption|]. split; [assumption|].
  split.
  { eapply grows_trans; [exact G1|]. eapply grows_trans; [exact G2|].
    eapply grows_trans; [exact G3|exact G37]. }
  unfold chain_present. split; [|split; [|split; [|split; [|split;
    [|split; [|split]]]]]].
  - apply (grows_carriers _ _ _ G37), (grows_carriers _ _ _ G3),
      (grows_carriers _ _ _ G2). exact P1.
  - apply (grows_carriers _ _ _ G37), (grows_carriers _ _ _ G3). exact P2.
  - apply (grows_carriers _ _ _ G37). exact P3.
  - exists b. apply (grows_loc _ _ _ _ G37). exact Hb.
  - apply (grows_buses _ _ _ G57), (grows_buses _ _ _ G5). exact P4.
  - apply (grows_links _ _ _ G57). exact P5.
  - apply (grows_stores _ _ _ G7). exact P6.
  - exact P7.
Qed.

Lemma ensure_present (name : pyval) (n : Network) :
  has_label name (carriers n) = true -> ensure name n = n.
Proof. unfold ensure. intros ->. reflexivity. Qed.

Lemma ensure_carrier_present (name : pyval) (n : Network) :
  has_label name (carriers n) = true -> _ensure_carrier name n = (Ok tt, n).
Proof.
  intros H. rewrite ensure_carrier_run, (ensure_present _ _ H).
  destruct (has_label_hashable _ _ H) as [k ->]. reflexivity.
Qed.

Lemma build_chain_noop (ga : pydict) (base : string) (cs ce cc : pyval)
      (n : Network) :
  configured_carrier ga "ammonia" "NH3" = Ok cs ->
  configured_carrier ga "to_store" "NH3-electrolyser" = Ok ce ->
  configured_carrier ga "to_power" "NH3-power" = Ok cc ->
  chain_present n base cs ce cc ->
  build_chain (PDict ga) base n = (Ok tt, n).
Proof.
  unfold configured_carrier.
  intros Ecs Ece Ecc (P1 & P2 & P3 & (b & Hb) & P4 & P5 & P6 & P7).
  unfold build_chain.
  rewrite lift_bind. simpl py_get. cbv iota.
  rewrite lift_bind, Ecs. rewrite lift_bind, Ece. rewrite lift_bind, Ecc.
  rewrite bind_run, (ensure_carrier_present _ _ P1).
  rewrite bind_run, (ensure_carrier_present _ _ P2).
  rewrite bind_run, (ensure_carrier_present _ _ P3).
  rewrite bind_run, add_bus_run, Hb, P4.
  rewrite lift_bind. simpl py_get. cbv iota.
  rewrite bind_run, add_electrolyser_run, P5.
  rewrite lift_bind. simpl py_get. cbv iota.
  rewrite bind_run, add_storage_run, P6.
  rewrite lift_bind. simpl py_get. cbv iota.
  rewrite add_ccgt_run, P7. reflexivity.
Qed.

(** The hook called again on its own result is a no-op as soon as it
    resolves the same base bus again. *)
Lemma second_call_noop_on_same_base (snapshots : Snapshots)
      (config kwargs ga : pydict) (n n' : Network) :
  _get_cfg config = Ok (PDict ga) ->
  enabled config = true ->
  add_green_ammonia snapshots config kwargs n = (Ok tt, n') ->
  fst (select_base_bus (PDict ga) n') = fst (select_base_bus (PDict ga) n) ->
  add_green_ammonia snapshots config kwargs n' = (Ok tt, n').
Proof.
  intros Hga Hen Hrun Hsame.
  rewrite (hook_enabled_run _ _ _ _ _ Hga Hen), inject_run in Hrun.
  rewrite (hook_enabled_run _ _ _ _ _ Hga Hen), inject_run, Hsame.
  destruct (fst (select_base_bus (PDict ga) n)) as [base|e];
    [|discriminate Hrun].
  destruct (build_chain_present _ _ _ _ Hrun)
    as (cs & ce & cc & Ecs & Ece & Ecc & _ & Hp).
  now apply build_chain_noop with cs ce cc.
Qed.

(** *** The base bus on the second call, without filter *)

Lemma argmin_answer_unique (l : list float) (r1 r2 : nat) :
  least_first l r1 \/ first_nan l r1 ->
  least_first l r2 \/ first_nan l r2 ->
  r1 = r2.
Proof.
  assert (Hmin : forall a b, least_first l a -> least_first l b -> ~ a < b).
  { intros a b (va & Ha & Hla & _) (vb & Hb & _ & Hbb) Hlt.
    assert (H := Hbb a va Hlt Ha).
    rewrite (Hla vb (nth_error_In _ _ Hb)) in H. discriminate. }
  assert (Hnan : forall a b, first_nan l a -> first_nan l b -> ~ a < b).
  { intros a b (va & Ha & Hna & _) (vb & Hb & _ & Hbb) Hlt.
    rewrite (Hbb a va Hlt Ha) in Hna. discriminate. }
  assert (Hmix : forall a b, least_first l a -> first_nan l b -> False).
  { intros a b (va & Ha & Hla & _) (vb & Hb & Hnb & _).
    destruct (float_leb_defined _ _ (Hla vb (nth_error_In _ _ Hb))).
    congruence. }
  intros [H1|H1] [H2|H2].
  - pose proof (Hmin _ _ H1 H2). pose proof (Hmin _ _ H2 H1). lia.
  - exfalso. eauto.
  - exfalso. eauto.
  - pose proof (Hnan _ _ H1 H2). pose proof (Hnan _ _ H2 H1). lia.
Qed.

Lemma argmin_app_same (l : list float) (r : nat) (d : float) :
  argmin l = Ok r -> nth_error l r = Some d -> argmin (l ++ [d]) = Ok r.
Proof.
  intros Hr Hd.
  destruct (argmin_defined (l ++ [d])) as [r' Hr'].
  { destruct l; discriminate. }
  rewrite Hr'. f_equal.
  apply (argmin_answer_unique (l ++ [d])); [now apply argmin_spec|].
  assert (Hlt : r < length l) by (apply nth_error_Some; congruence).
  destruct (argmin_spec _ _ Hr) as [(v & Hv & Hle & Hbefore)|
                                    (v & Hv & Hn & Hbefore)].
  - left. exists v. split; [|split].
    + rewrite nth_error_app1; assumption.
    + intros x Hx. apply in_app_or in Hx. destruct Hx as [Hx|[<-|[]]];
        [auto|]. apply Hle. apply nth_error_In with r. assumption.
    + intros j x Hj Hx. rewrite nth_error_app1 in Hx by lia. eauto.
  - right. exists v. split; [|split].
    + rewrite nth_error_app1; assumption.
    + assumption.
    + intros j x Hj Hx. rewrite nth_error_app1 in Hx by lia. eauto.
Qed.

Lemma index_at_app (cs extra : list Bus) (r : nat) (label : string) :
  index_at cs r = Ok label -> index_at (cs ++ extra) r = Ok label.
Proof.
  unfold index_at. destruct (nth_error cs r) as [b|] eqn:E; [|discriminate].
  rewrite nth_error_app1 by (apply nth_error_Some; congruence).
  now rewrite E.
Qed.

Lemma pick_app_same (cs : list Bus) (latitude longitude : pyval)
      (b nb : Bus) :
  real_target latitude longitude = true ->
  In b cs ->
  pick cs latitude longitude = Ok (bus_name b) ->
  (forall b', In b' cs -> bus_name b' = bus_name b -> b' = b) ->
  bus_x nb = bus_x b -> bus_y nb = bus_y b ->
  pick (cs ++ [nb]) latitude longitude = Ok (bus_name b).
Proof.
  intros Hreal Hin Hpick Huniq Hx Hy. unfold pick, real_target, is_real in *.
  destruct (is_None latitude || is_None longitude).
  - now apply index_at_app.
  - simpl in Hreal.
    destruct (as_float latitude) as [[lat|]|],
             (as_float longitude) as [[lon|]|]; simpl in *;
      try discriminate.
    destruct (argmin (map (distance lat lon) cs)) as [r|] eqn:Er;
      [|discriminate].
    simpl in Hpick. rewrite map_app. simpl map.
    assert (Hb : nth_error cs r = Some b).
    { unfold index_at in Hpick.
      destruct (nth_error cs r) as [b'|] eqn:E; [|discriminate].
      injection Hpick as Hname. f_equal. apply Huniq; [|assumption].
      now apply nth_error_In with r. }
    assert (Hd : distance lat lon nb = distance lat lon b)
      by (unfold distance; now rewrite Hx, Hy).
    rewrite Hd, (argmin_app_same _ r); [|assumption|].
    + simpl. now apply index_at_app.
    + rewrite nth_error_map, Hb. reflexivity.
Qed.

Lemma unique_label (bs : list Bus) (b1 b2 : Bus) :
  NoDup (map bus_name bs) -> In b1 bs -> In b2 bs ->
  bus_name b1 = bus_name b2 -> b1 = b2.
Proof.
  induction bs as [|b bs IH]; simpl; [tauto|].
  rewrite NoDup_cons_iff. intros [Hnotin Hnd] [->|H1] [->|H2] Hname.
  - reflexivity.
  - exfalso. apply Hnotin. rewrite Hname. now apply in_map.
  - exfalso. apply Hnotin. rewrite <- Hname. now apply in_map.
  - auto.
Qed.

Lemma add_electrolyser_buses (base nh3 : string) (ce : pyval) (cfg : pyval)
      (n n' : Network) :
  _add_electrolyser base nh3 cfg ce n = (Ok tt, n') -> buses n' = buses n.
Proof.
  rewrite add_electrolyser_run. destruct (in_index _ (links_index n));
    [|destruct cfg; try discriminate]; intros H; injection H as <-;
    reflexivity.
Qed.

Lemma add_storage_buses (nh3 : string) (cs cfg : pyval) (n n' : Network) :
  _add_storage nh3 cfg cs n = (Ok tt, n') -> buses n' = buses n.
Proof.
  rewrite add_storage_run. destruct (in_index _ (stores_index n));
    [|destruct cfg; try discriminate]; intros H; injection H as <-;
    reflexivity.
Qed.

Lemma add_ccgt_buses (base nh3 : string) (cc cfg : pyval) (n n' : Network) :
  _add_ccgt base nh3 cfg cc n = (Ok tt, n') -> buses n' = buses n.
Proof.
  rewrite add_ccgt_run. destruct (in_index _ (links_index n));
    [|destruct cfg; try discriminate]; intros H; injection H as <-;
    reflexivity.
Qed.

Lemma build_chain_buses (ga : pydict) (base : string) (n n' : Network) :
  build_chain (PDict ga) base n = (Ok tt, n') ->
  exists b,
    buses_loc n base = Ok b
    /\ (buses n' = buses n
        \/ exists cs,
            buses n' = (buses n
                        ++ [mkBus (base ++ "-NH3") (bus_x b) (bus_y b)
                                  (bus_country b) cs
                                  (bus_sub_network b)])%list).
Proof.
  intros H. unfold build_chain in H.
  rewrite lift_bind in H. simpl py_get in H. cbv iota in H.
  run_lift H. rename a into cs.
  run_lift H. rename a into ce.
  run_lift H. rename a into cc.
  run_ensure H. run_ensure H. run_ensure H.
  set (n3 := ensure cc (ensure ce (ensure cs n))) in *.
  assert (Hb3 : buses n3 = buses n).
  { unfold n3. now rewrite !(proj1 (ensure_buses _ _)). }
  apply bind_ok in H. destruct H as (label & n4 & Hbus & H).
  rewrite add_bus_run in Hbus. unfold n3 in Hbus.
  rewrite !buses_loc_ensure, !buses_index_ensure in Hbus.
  destruct (buses_loc n base) as [b|e] eqn:Eb; [|discriminate Hbus].
  injection Hbus as <- Hn4.
  rewrite lift_bind in H. simpl py_get in H. cbv iota in H.
  apply bind_ok in H. destruct H as ([] & n5 & Hel & H).
  rewrite lift_bind in H. simpl py_get in H. cbv iota in H.
  apply bind_ok in H. destruct H as ([] & n6 & Hst & H).
  rewrite lift_bind in H. simpl py_get in H. cbv iota in H.
  apply add_ccgt_buses in H. apply add_storage_buses in Hst.
  apply add_electrolyser_buses in Hel.
  exists b. split; [reflexivity|].
  rewrite H, Hst, Hel, <- Hn4.
  destruct (in_index (base ++ "-NH3") (buses_index n)).
  - left. exact Hb3.
  - right. exists cs. simpl. fold n3. now rewrite Hb3.
Qed.

Lemma select_base_bus_run (ga loc : pydict) (n : Network) :
  dict_get ga "location" (PDict []) = PDict loc ->
  fst (select_base_bus (PDict ga) n)
  = _closest_bus n (dict_get ga "country_code" (PStr "ES"))
                 (dict_get loc "latitude" PNone)
                 (dict_get loc "longitude" PNone)
                 (dict_get loc "bus_substring" PNone).
Proof.
  intros Hloc. unfold select_base_bus, resolve_base_bus.
  rewrite !lift_bind. simpl py_get. cbv iota. rewrite Hloc.
  rewrite !lift_bind. simpl py_get. cbv iota. reflexivity.
Qed.

Lemma pick_member (cs : list Bus) (latitude longitude : pyval)
      (label : string) :
  pick cs latitude longitude = Ok label ->
  exists b, In b cs /\ bus_name b = label.
Proof.
  assert (Hidx : forall r, index_at cs r = Ok label ->
                           exists b, In b cs /\ bus_name b = label).
  { intros r. unfold index_at.
    destruct (nth_error cs r) as [b|] eqn:E; [|discriminate].
    intros H. injection H as <-. exists b.
    split; [now apply nth_error_In with r|reflexivity]. }
  unfold pick. destruct (is_None latitude || is_None longitude); [eauto|].
  destruct (as_float latitude) as [[lat|]|],
           (as_float longitude) as [[lon|]|]; simpl; try discriminate;
    match goal with
    | |- context [res_bind ?r _] => destruct r; [|discriminate]
    end; simpl; eauto.
Qed.

Lemma closest_bus_without_filter (n : Network) (c : string)
      (latitude longitude sub : pyval) :
  truthy sub = false ->
  country_candidates n c <> [] ->
  _closest_bus n (PStr c) latitude longitude sub
  = pick (country_candidates n c) latitude longitude.
Proof.
  intros Hsub Hne. rewrite closest_bus_unfold by assumption.
  unfold narrow. rewrite Hsub. reflexivity.
Qed.

(** Without filter, and the bus labels being unique, the call on the
    result of a first call resolves the same base bus. *)
Lemma same_base_without_filter (ga loc : pydict) (base : string)
      (n n' : Network) :
  dict_get ga "location" (PDict []) = PDict loc ->
  truthy (dict_get loc "bus_substring" PNone) = false ->
  is_scalar (dict_get ga "country_code" (PStr "ES")) = true ->
  real_target (dict_get loc "latitude" PNone)
              (dict_get loc "longitude" PNone) = true ->
  NoDup (buses_index n) ->
  fst (select_base_bus (PDict ga) n) = Ok base ->
  build_chain (PDict ga) base n = (Ok tt, n') ->
  fst (select_base_bus (PDict ga) n') = Ok base.
Proof.
  intros Hloc Hsub Hcode Hreal Hnd Hbase Hrun.
  rewrite (select_base_bus_run _ _ _ Hloc) in Hbase.
  rewrite (select_base_bus_run _ _ _ Hloc).
  destruct (dict_get ga "country_code" (PStr "ES")) as [| | | |c| |];
    try discriminate Hbase; try discriminate Hcode.
  set (lat := dict_get loc "latitude" PNone) in *.
  set (lon := dict_get loc "longitude" PNone) in *.
  assert (Hne : country_candidates n c <> []).
  { intros E. unfold _closest_bus in Hbase. simpl in Hbase.
    rewrite E in Hbase. discriminate. }
  rewrite closest_bus_without_filter in Hbase by assumption.
  destruct (pick_member _ _ _ _ Hbase) as (bsel & Hsel & Hname).
  destruct (build_chain_buses _ _ _ _ Hrun) as (b & Hb & Hbuses).
  destruct (buses_loc_name _ _ _ Hb) as [Hbname Hbin].
  assert (Hselin : In bsel (buses n)).
  { unfold country_candidates in Hsel. apply filter_In in Hsel. tauto. }
  assert (Heq : b = bsel).
  { apply (unique_label (buses n)); try assumption. congruence. }
  subst b.
  destruct Hbuses as [Hsame|(cs & Hadd)].
  - assert (Hc : country_candidates n' c = country_candidates n c)
      by (unfold country_candidates; now rewrite Hsame).
    rewrite closest_bus_without_filter;
      [rewrite Hc; assumption|assumption|rewrite Hc; assumption].
  - unfold country_candidates in Hsel. apply filter_In in Hsel.
    destruct Hsel as [_ Hcountry].
    assert (Hc : country_candidates n' c
                 = (country_candidates n c
                    ++ [mkBus (base ++ "-NH3") (bus_x bsel) (bus_y bsel)
                              (bus_country bsel) cs
                              (bus_sub_network bsel)])%list).
    { unfold country_candidates. rewrite Hadd, filter_app. simpl.
      rewrite Hcountry. reflexivity. }
    rewrite closest_bus_without_filter;
      [rewrite Hc|assumption
       |rewrite Hc; intros E; apply app_eq_nil in E; destruct E;
        discriminate].
    rewrite <- Hname. apply pick_app_same; try reflexivity.
    + assumption.
    + unfold country_candidates. apply filter_In. auto.
    + now rewrite Hname.
    + intros b' Hb' Hn'. apply (unique_label (buses n)); try assumption.
      unfold country_candidates in Hb'. apply filter_In in Hb'. tauto.
Qed.

(** X13: the hook is idempotent when no filter is configured, the target
    coordinates are real numbers (or absent) and the country code is not a
    list or a mapping: on a network with unique bus labels, the call on the
    result of a successful call changes nothing.  (With a list as a
    coordinate numpy broadcasts the candidates against it, and the bus a
    first call adds changes the outcome of the second.) *)
Lemma hook_idempotent_without_filter (snapshots : Snapshots)
      (config kwargs ga loc : pydict) (n n' : Network) :
  _get_cfg config = Ok (PDict ga) ->
  enabled config = true ->
  dict_get ga "location" (PDict []) = PDict loc ->
  truthy (dict_get loc "bus_substring" PNone) = false ->
  is_scalar (dict_get ga "country_code" (PStr "ES")) = true ->
  real_target (dict_get loc "latitude" PNone)
              (dict_get loc "longitude" PNone) = true ->
  NoDup (buses_index n) ->
  add_green_ammonia snapshots config kwargs n = (Ok tt, n') ->
  add_green_ammonia snapshots config kwargs n' = (Ok tt, n').
Proof.
  intros Hga Hen Hloc Hsub Hcode Hreal Hnd Hrun.
  apply (second_call_noop_on_same_base snapshots config kwargs ga n n'
                                       Hga Hen Hrun).
  rewrite (hook_enabled_run _ _ _ _ _ Hga Hen), inject_run in Hrun.
  destruct (fst (select_base_bus (PDict ga) n)) as [base|e] eqn:Hbase;
    [|discriminate Hrun].
  exact (same_base_without_filter ga loc base n n' Hloc Hsub Hcode Hreal
                                  Hnd Hbase Hrun).
Qed.

(** *** What a call does to the tables, whatever its outcome *)

Lemma in_index_false (x : string) (l : list string) :
  in_index x l = false <-> ~ In x l.
Proof.
  unfold in_index. split.
  - intros H Hin. assert (existsb (String.eqb x) l = true); [|congruence].
    apply existsb_exists. exists x. split; [assumption|apply String.eqb_refl].
  - intros H. destruct (existsb (String.eqb x) l) eqn:E; [|reflexivity].
    exfalso. apply H. apply existsb_exists in E. destruct E as (y & Hy & Heq).
    apply String.eqb_eq in Heq. congruence.
Qed.

Lemma NoDup_snoc {A : Type} (x : A) (l : list A) :
  NoDup l -> ~ In x l -> NoDup (l ++ [x]).
Proof.
  intros Hnd Hx.
  apply NoDup_app; [assumption|repeat constructor; auto|].
  intros a Ha [<-|[]]. auto.
Qed.

Lemma NoDup_append_fresh (x : string) (l : list string) :
  NoDup l -> in_index x l = false -> NoDup (l ++ [x]).
Proof.
  intros Hnd Hx. apply in_index_false in Hx. now apply NoDup_snoc.
Qed.

Lemma index_contains_false (name : pyval) (l : list pyval) :
  index_contains name l = Ok false ->
  exists k, label_key name = Some k
            /\ has_label name l = false
            /\ ~ In (Some k) (map label_key l).
Proof.
  unfold index_contains. destruct (label_key name) as [k|] eqn:K;
    [|discriminate].
  intros H. injection H as H. exists k. repeat split; [assumption|].
  intros Hin. apply in_map_iff in Hin. destruct Hin as (u & Hu & Hin).
  assert (Hhas : has_label name l = true); [|congruence].
  unfold has_label. apply existsb_exists. exists u. split; [assumption|].
  unfold same_label. rewrite K, Hu. apply hkey_eqb_refl.
Qed.

Lemma ensure_guarded (name : pyval) (n : Network) :
  guarded_insert n (snd (_ensure_carrier name n)).
Proof.
  rewrite ensure_carrier_run.
  destruct (label_key name) as [k|] eqn:K; [|left; reflexivity].
  unfold ensure. simpl. destruct (has_label name (carriers n)) eqn:E;
    [left; reflexivity|right; left].
  exists name. split; [|reflexivity].
  unfold index_contains. now rewrite K, E.
Qed.

Lemma add_bus_guarded (base : string) (cs : pyval) (n : Network) :
  guarded_insert n (snd (_add_bus base cs n)).
Proof.
  rewrite add_bus_run. destruct (buses_loc n base) as [b|e];
    [|left; reflexivity]. simpl.
  destruct (in_index (base ++ "-NH3") (buses_index n)) eqn:E;
    [left; reflexivity|].
  right; right; left. eexists. split; [|reflexivity]. exact E.
Qed.

Lemma add_electrolyser_guarded (base nh3 : string) (ce : pyval) (cfg : pyval)
      (n : Network) :
  guarded_insert n (snd (_add_electrolyser base nh3 cfg ce n)).
Proof.
  rewrite add_electrolyser_run.
  destruct (in_index _ (links_index n)) eqn:E; [left; reflexivity|].
  destruct cfg; try (left; reflexivity).
  right; right; right; left. eexists. split; [|reflexivity]. exact E.
Qed.

Lemma add_storage_guarded (nh3 : string) (cs cfg : pyval) (n : Network) :
  guarded_insert n (snd (_add_storage nh3 cfg cs n)).
Proof.
  rewrite add_storage_run.
  destruct (in_index _ (stores_index n)) eqn:E; [left; reflexivity|].
  destruct cfg; try (left; reflexivity).
  right; right; right; right. eexists. split; [|reflexivity]. exact E.
Qed.

Lemma add_ccgt_guarded (base nh3 : string) (cc cfg : pyval) (n : Network) :
  guarded_insert n (snd (_add_ccgt base nh3 cfg cc n)).
Proof.
  rewrite add_ccgt_run.
  destruct (in_index _ (links_index n)) eqn:E; [left; reflexivity|].
  destruct cfg; try (left; reflexivity).
  right; right; right; left. eexists. split; [|reflexivity]. exact E.
Qed.

Section Invariant.

(** A property of networks that every guarded insert keeps. *)
Variable Inv : Network -> Prop.
Hypothesis Inv_insert : forall n n', Inv n -> guarded_insert n n' -> Inv n'.

Lemma keeps_bind {A B : Type} (m : M A) (k : A -> M B) :
  (forall n, Inv n -> Inv (snd (m n))) ->
  (forall a n, Inv n -> Inv (snd (k a n))) ->
  forall n, Inv n -> Inv (snd (bind m k n)).
Proof.
  intros Hm Hk n Hn. unfold bind. specialize (Hm n Hn).
  destruct (m n) as [[a|e] n1]; simpl in *; auto.
Qed.

Lemma keeps_lift {A : Type} (r : res A) :
  forall n, Inv n -> Inv (snd (lift r n)).
Proof. intros n Hn. exact Hn. Qed.

Lemma keeps_ensure_carrier (name : pyval) :
  forall n, Inv n -> Inv (snd (_ensure_carrier name n)).
Proof.
  intros n Hn. apply (Inv_insert n); [assumption|apply ensure_guarded].
Qed.

Lemma keeps_build_chain (ga_cfg : pyval) (base : string) :
  forall n, Inv n -> Inv (snd (build_chain ga_cfg base n)).
Proof.
  unfold build_chain.
  repeat (apply keeps_bind; [apply keeps_lift|intros ?]).
  repeat (apply keeps_bind; [apply keeps_ensure_carrier|intros ?]).
  apply keeps_bind.
  { intros n Hn. apply (Inv_insert n); [assumption|apply add_bus_guarded]. }
  intros nh3.
  apply keeps_bind; [apply keeps_lift|intros ?].
  apply keeps_bind.
  { intros n Hn. apply (Inv_insert n); [assumption|].
    apply add_electrolyser_guarded. }
  intros _.
  apply keeps_bind; [apply keeps_lift|intros ?].
  apply keeps_bind.
  { intros n Hn. apply (Inv_insert n); [assumption|].
    apply add_storage_guarded. }
  intros _.
  apply keeps_bind; [apply keeps_lift|intros ?].
  intros n Hn. apply (Inv_insert n); [assumption|apply add_ccgt_guarded].
Qed.

Lemma keeps_hook (snapshots : Snapshots) (config kwargs : pydict) :
  forall n, Inv n -> Inv (snd (add_green_ammonia snapshots config kwargs n)).
Proof.
  unfold add_green_ammonia.
  apply keeps_bind; [apply keeps_lift|intros ga_cfg].
  apply keeps_bind; [apply keeps_lift|intros enable].
  destruct (negb (truthy enable)); [intros n Hn; exact Hn|].
  unfold inject. apply keeps_bind.
  - intros n Hn. now rewrite select_base_bus_state.
  - intros base. apply keeps_build_chain.
Qed.

End Invariant.

Lemma labels_unique_insert (n n' : Network) :
  labels_unique n -> guarded_insert n n' -> labels_unique n'.
Proof.
  intros (Hb & Hl & Hs & Hc)
         [->|[(name & Hf & ->)|[(b & Hf & ->)|[(l & Hf & ->)|(s & Hf & ->)]]]].
  - repeat split; assumption.
  - repeat split; try assumption. unfold carriers_index. simpl.
    destruct (index_contains_false _ _ Hf) as (k & K & _ & Hnew).
    rewrite map_app. simpl. rewrite K. now apply NoDup_snoc.
  - repeat split; try assumption. unfold buses_index. simpl.
    rewrite map_app. now apply NoDup_append_fresh.
  - repeat split; try assumption. rewrite links_index_add_Link.
    now apply NoDup_append_fresh.
  - repeat split; try assumption. unfold stores_index. simpl.
    rewrite map_app. now apply NoDup_append_fresh.
Qed.

(** X1: unique labels stay unique.  When no label occurs twice in a table
    of the network, none does after a call of the hook, whether the call
    returns or raises. *)
Theorem hook_keeps_labels_unique (snapshots : Snapshots)
        (config kwargs : pydict) (n : Network) :
  labels_unique n ->
  labels_unique (snd (add_green_ammonia snapshots config kwargs n)).
Proof.
  apply keeps_hook. exact labels_unique_insert.
Qed.

Lemma extends_refl (n : Network) (kb kl ks kc : nat) :
  extends_by n n kb kl ks kc.
Proof.
  exists [], [], [], []. rewrite !app_nil_r. simpl.
  repeat split; lia.
Qed.

Lemma extends_trans (n n1 n2 : Network) (a b c d a' b' c' d' A B C D : nat) :
  extends_by n n1 a b c d -> extends_by n1 n2 a' b' c' d' ->
  a + a' <= A -> b + b' <= B -> c + c' <= C -> d + d' <= D ->
  extends_by n n2 A B C D.
Proof.
  intros (eb & el & es & ec & Hb & Hl & Hs & Hc & L1 & L2 & L3 & L4)
         (eb' & el' & es' & ec' & Hb' & Hl' & Hs' & Hc' & L1' & L2' & L3' & L4')
         HA HB HC HD.
  exists (eb ++ eb')%list, (el ++ el')%list, (es ++ es')%list,
         (ec ++ ec')%list.
  rewrite Hb', Hl', Hs', Hc', Hb, Hl, Hs, Hc, <- !app_assoc, !length_app.
  repeat split; lia.
Qed.

Lemma extends_bind {A B : Type} (m : M A) (k : A -> M B)
      (a b c d a' b' c' d' : nat) :
  (forall n, extends_by n (snd (m n)) a b c d) ->
  (forall x n, extends_by n (snd (k x n)) a' b' c' d') ->
  forall n, extends_by n (snd (bind m k n)) (a + a') (b + b') (c + c') (d + d').
Proof.
  intros Hm Hk n. unfold bind. specialize (Hm n).
  destruct (m n) as [[x|e] n1]; simpl in *.
  - apply (extends_trans n n1 _ a b c d a' b' c' d'); auto.
  - apply (extends_trans n n1 _ a b c d 0 0 0 0); auto using extends_refl; lia.
Qed.

Lemma extends_lift {A : Type} (r : res A) (n : Network) :
  extends_by n (snd (lift r n)) 0 0 0 0.
Proof. apply extends_refl. Qed.

Ltac extends_one :=
  first
    [ apply extends_refl
    | eexists [], [], [], [_]; simpl; rewrite !app_nil_r;
      repeat split; simpl; lia
    | eexists [_], [], [], []; simpl; rewrite !app_nil_r;
      repeat split; simpl; lia
    | eexists [], [_], [], []; simpl; rewrite !app_nil_r;
      repeat split; simpl; lia
    | eexists [], [], [_], []; simpl; rewrite !app_nil_r;
      repeat split; simpl; lia ].

Lemma extends_ensure_carrier (name : pyval) (n : Network) :
  extends_by n (snd (_ensure_carrier name n)) 0 0 0 1.
Proof.
  rewrite ensure_carrier_run. unfold ensure.
  destruct (label_key name); simpl;
    [destruct (has_label name (carriers n))|]; extends_one.
Qed.

Lemma extends_add_bus (base : string) (cs : pyval) (n : Network) :
  extends_by n (snd (_add_bus base cs n)) 1 0 0 0.
Proof.
  rewrite add_bus_run. destruct (buses_loc n base); simpl;
    [destruct (in_index _ (buses_index n))|]; extends_one.
Qed.

Lemma extends_add_electrolyser (base nh3 : string) (ce : pyval) (cfg : pyval)
      (n : Network) :
  extends_by n (snd (_add_electrolyser base nh3 cfg ce n)) 0 1 0 0.
Proof.
  rewrite add_electrolyser_run.
  destruct (in_index _ (links_index n)); [|destruct cfg]; simpl; extends_one.
Qed.

Lemma extends_add_storage (nh3 : string) (cs cfg : pyval) (n : Network) :
  extends_by n (snd (_add_storage nh3 cfg cs n)) 0 0 1 0.
Proof.
  rewrite add_storage_run.
  destruct (in_index _ (stores_index n)); [|destruct cfg]; simpl; extends_one.
Qed.

Lemma extends_add_ccgt (base nh3 : string) (cc cfg : pyval) (n : Network) :
  extends_by n (snd (_add_ccgt base nh3 cfg cc n)) 0 1 0 0.
Proof.
  rewrite add_ccgt_run.
  destruct (in_index _ (links_index n)); [|destruct cfg]; simpl; extends_one.
Qed.

Lemma extends_build_chain (ga_cfg : pyval) (base : string) (n : Network) :
  extends_by n (snd (build_chain ga_cfg base n)) 1 2 1 3.
Proof.
  assert (H : exists a b c d,
             (forall n, extends_by n (snd (build_chain ga_cfg base n)) a b c d)
             /\ a <= 1 /\ b <= 2 /\ c <= 1 /\ d <= 3).
  { do 4 eexists. split.
    - unfold build_chain.
      repeat (apply extends_bind; [apply extends_lift|intros ?]).
      repeat (apply extends_bind; [apply extends_ensure_carrier|intros ?]).
      apply extends_bind; [apply extends_add_bus|intros nh3].
      apply extends_bind; [apply extends_lift|intros ?].
      apply extends_bind; [apply extends_add_electrolyser|intros ?].
      apply extends_bind; [apply extends_lift|intros ?].
      apply extends_bind; [apply extends_add_storage|intros ?].
      apply extends_bind; [apply extends_lift|intros ?].
      apply extends_add_ccgt.
    - simpl. lia. }
  destruct H as (a & b & c & d & H & La & Lb & Lc & Ld).
  apply (extends_trans n _ _ a b c d 0 0 0 0 1 2 1 3 (H n));
    [apply extends_refl|lia..].
Qed.

(** X2: the hook only appends.  Whether a call returns or raises, every
    table of the network afterwards is the table before followed by new
    rows: at most one bus, two links, one store and three carriers.  No
    existing row is removed, moved or changed. *)
Theorem hook_only_appends (snapshots : Snapshots) (config kwargs : pydict)
        (n : Network) :
  extends_by n (snd (add_green_ammonia snapshots config kwargs n)) 1 2 1 3.
Proof.
  unfold add_green_ammonia, bind, lift.
  destruct (_get_cfg config) as [ga_cfg|e]; [|apply extends_refl].
  destruct (py_get ga_cfg "enable" (PBool false)) as [enable|e];
    [|apply extends_refl].
  destruct (negb (truthy enable)); [apply extends_refl|].
  rewrite inject_run.
  destruct (fst (select_base_bus ga_cfg n)); [|apply extends_refl].
  apply extends_build_chain.
Qed.

(** *** The bus the resolver returns *)

Lemma narrow_sub (cs cs' : list Bus) (sub : pyval) :
  narrow cs sub = Ok cs' ->
  (forall b, In b cs' -> In b cs)
  /\ (forall pat search,
         sub = PStr pat -> pat <> "" -> re_compile pat = Some search ->
         (exists b, In b cs /\ search (bus_name b) = true) ->
         forall b, In b cs' -> search (bus_name b) = true).
Proof.
  unfold narrow. destruct (truthy sub) eqn:Ht.
  - destruct sub; try discriminate.
    destruct (re_compile s) as [search|] eqn:Hre; [|discriminate].
    destruct (filter (fun b => search (bus_name b)) cs) as [|b0 l] eqn:Hf;
      intros H; injection H as <-.
    + split; [auto|]. intros pat search' Hp _ Hre' (b & Hb & Hs) b' Hb'.
      injection Hp as <-. rewrite Hre in Hre'. injection Hre' as <-.
      assert (Hin : In b (filter (fun b => search (bus_name b)) cs))
        by (apply filter_In; auto).
      rewrite Hf in Hin. destruct Hin.
    + split.
      * intros b Hb. rewrite <- Hf in Hb. apply filter_In in Hb. tauto.
      * intros pat search' Hp _ Hre' _ b Hb.
        injection Hp as <-. rewrite Hre in Hre'. injection Hre' as <-.
        rewrite <- Hf in Hb. apply filter_In in Hb. tauto.
  - intros H; injection H as <-. split; [auto|].
    intros pat search -> Hne. rewrite truthy_PStr in Ht by assumption.
    discriminate.
Qed.

(** X3: what [_closest_bus] returns.  When the resolver returns a label, it
    is the label of a bus of the network whose country is the requested
    code; and when the filter is a non-empty pattern the engine accepts and
    some bus of the country matches it, the returned label matches it. *)
Theorem closest_bus_returns_country_bus (n : Network) (country_code : string)
        (latitude longitude bus_substring : pyval) (label : string) :
  _closest_bus n (PStr country_code) latitude longitude bus_substring
  = Ok label ->
  (exists b, In b (buses n) /\ bus_name b = label
             /\ bus_country b = country_code)
  /\ (forall pat search,
         bus_substring = PStr pat -> pat <> "" ->
         re_compile pat = Some search ->
         (exists b, In b (buses n) /\ bus_country b = country_code
                    /\ search (bus_name b) = true) ->
         search label = true).
Proof.
  intros H.
  assert (Hne : country_candidates n country_code <> []).
  { intros E. unfold _closest_bus in H. simpl in H. rewrite E in H.
    discriminate. }
  rewrite closest_bus_unfold in H by assumption.
  destruct (narrow (country_candidates n country_code) bus_substring)
    as [cs|e] eqn:Hn; [|discriminate].
  simpl in H. apply pick_member in H. destruct H as (b & Hb & <-).
  destruct (narrow_sub _ _ _ Hn) as [Hsub Hmatch].
  split.
  - exists b. pose proof (Hsub b Hb) as Hin.
    apply filter_In in Hin. destruct Hin as [Hin Hc].
    apply String.eqb_eq in Hc. auto.
  - intros pat search Hp Hpne Hre (b' & Hb' & Hc' & Hs').
    apply (Hmatch pat search Hp Hpne Hre); [|assumption].
    exists b'. split; [|assumption].
    apply filter_In. split; [assumption|].
    now apply String.eqb_eq.
Qed.

(** *** Exceptions of the hook *)

Lemma triple_bind {A B : Type} (P : Network -> Prop) (m : M A)
      (R : A -> Network -> Prop) (k : A -> M B)
      (Q : B -> Network -> Prop) (E : exc -> Network -> Prop) :
  triple P m R E -> (forall a, triple (R a) (k a) Q E) ->
  triple P (bind m k) Q E.
Proof.
  intros Hm Hk n Hn. unfold bind. specialize (Hm n Hn).
  destruct (m n) as [[a|e] n1]; [apply (Hk a n1 Hm)|exact Hm].
Qed.

Lemma triple_lift {A : Type} (P : Network -> Prop) (r : res A)
      (E : exc -> Network -> Prop) :
  (forall e n, r = Err e -> P n -> E e n) ->
  triple P (lift r) (fun _ n => P n) E.
Proof.
  intros H n Hn. unfold lift. destruct r as [a|e]; [exact Hn|].
  apply H; [reflexivity|exact Hn].
Qed.

Lemma float_of_Z_error (z : Z) (e : exc) :
  float_of_Z z = Err e -> e = OverflowError.
Proof. unfold float_of_Z. destruct (is_infinity _); congruence. Qed.

Lemma as_float_error (v : pyval) (e : exc) :
  as_float v = Some (Err e) -> is_LookupError e = false.
Proof.
  destruct v; simpl; intros H; try discriminate.
  injection H as H. apply float_of_Z_error in H. now subst.
Qed.

Lemma pick_error (cs : list Bus) (latitude longitude : pyval) (e : exc) :
  real_target latitude longitude = true ->
  cs <> [] -> pick cs latitude longitude = Err e -> is_LookupError e = false.
Proof.
  intros Hreal Hne. unfold pick, real_target, is_real in *.
  destruct (is_None latitude || is_None longitude).
  - destruct cs; [congruence|discriminate].
  - simpl in Hreal.
    destruct (as_float latitude) as [[lat|e1]|] eqn:H1,
             (as_float longitude) as [[lon|e2]|] eqn:H2;
      simpl in *; try discriminate;
      try (intros H; injection H as <-; now apply as_float_error in H1);
      try (intros H; injection H as <-; now apply as_float_error in H2).
    destruct (argmin_defined (map (distance lat lon) cs)) as [r Hr].
    { destruct cs; [congruence|discriminate]. }
    rewrite Hr. simpl. apply argmin_bound in Hr. rewrite length_map in Hr.
    unfold index_at. destruct (nth_error cs r) eqn:Hnth; [discriminate|].
    apply nth_error_None in Hnth. lia.
Qed.

Lemma narrow_error (cs : list Bus) (sub : pyval) (e : exc) :
  narrow cs sub = Err e -> is_LookupError e = false.
Proof.
  unfold narrow. destruct (truthy sub); [|discriminate].
  destruct sub; try (intros H; injection H as <-; reflexivity).
  destruct (re_compile s); [|intros H; injection H as <-; reflexivity].
  destruct (filter _ cs); discriminate.
Qed.

Lemma closest_bus_error (n : Network)
      (country_code latitude longitude sub : pyval) (e : exc) :
  is_scalar country_code = true ->
  real_target latitude longitude = true ->
  _closest_bus n country_code latitude longitude sub = Err e ->
  is_LookupError e = false.
Proof.
  intros Hcode Hreal. unfold _closest_bus.
  destruct (same_country n country_code) as [[|b0 l]|e0] eqn:Hc; simpl.
  - intros H. injection H as <-. reflexivity.
  - destruct (narrow (b0 :: l) sub) as [cs|e'] eqn:Hn; simpl.
    + apply pick_error; [assumption|].
      apply (narrow_nonempty _ _ _ Hn). discriminate.
    + intros H. injection H as <-. now apply narrow_error in Hn.
  - destruct country_code; simpl in Hc; discriminate.
Qed.

Lemma rows_at_In {A : Type} (mask : list bool) (rows : list A) (a : A) :
  In a (rows_at mask rows) -> In a rows.
Proof.
  revert rows. induction mask as [|m mask IH]; intros [|r rows]; simpl;
    try tauto.
  destruct m; simpl; intros H; [destruct H|]; auto.
Qed.

Lemma same_country_sub (n : Network) (country_code : pyval)
      (cs : list Bus) (b : Bus) :
  same_country n country_code = Ok cs -> In b cs -> In b (buses n).
Proof.
  destruct country_code; simpl; intros H; try (injection H as <-);
    try (intros []).
  - intros Hin. apply filter_In in Hin. tauto.
  - destruct (eq_country lib _ _); [|discriminate]. injection H as <-.
    apply rows_at_In.
  - destruct (eq_country lib _ _); [|discriminate]. injection H as <-.
    apply rows_at_In.
Qed.

Lemma closest_bus_in_network (n : Network)
      (country_code latitude longitude sub : pyval) (label : string) :
  _closest_bus n country_code latitude longitude sub = Ok label ->
  exists b, In b (buses n) /\ bus_name b = label.
Proof.
  unfold _closest_bus.
  destruct (same_country n country_code) as [[|b0 l]|e0] eqn:Hc; simpl;
    try discriminate.
  destruct (narrow (b0 :: l) sub) as [cs|e] eqn:Hn; [|discriminate].
  simpl. intros H. apply pick_member in H. destruct H as (b & Hb & <-).
  exists b. split; [|reflexivity].
  apply (same_country_sub n country_code (b0 :: l)); [assumption|].
  now apply (proj1 (narrow_sub _ _ _ Hn)).
Qed.

Lemma closest_bus_member (n : Network) (c : string)
      (latitude longitude sub : pyval) (label : string) :
  _closest_bus n (PStr c) latitude longitude sub = Ok label ->
  exists cs b, narrow (country_candidates n c) sub = Ok cs
               /\ In b cs /\ In b (country_candidates n c)
               /\ bus_name b = label.
Proof.
  intros H.
  assert (Hne : country_candidates n c <> []).
  { intros E. unfold _closest_bus in H. simpl in H. rewrite E in H.
    discriminate. }
  rewrite closest_bus_unfold in H by assumption.
  destruct (narrow (country_candidates n c) sub) as [cs|e] eqn:Hn;
    [|discriminate].
  simpl in H. apply pick_member in H. destruct H as (b & Hb & <-).
  exists cs, b. repeat split; auto.
  now apply (proj1 (narrow_sub _ _ _ Hn)).
Qed.

Lemma in_index_In_map {A : Type} (f : A -> string) (a : A) (l : list A) :
  In a l -> in_index (f a) (map f l) = true.
Proof.
  intros H. unfold in_index. apply existsb_exists. exists (f a).
  split; [now apply in_map|apply String.eqb_refl].
Qed.

Lemma select_base_bus_steps (ga_cfg : pyval) (n : Network) :
  fst (select_base_bus ga_cfg n) = Err AttributeError
  \/ exists country latitude longitude sub,
      py_get ga_cfg "country_code" (PStr "ES") = Ok country
      /\ (exists location,
             py_get ga_cfg "location" (PDict []) = Ok location
             /\ py_get location "latitude" PNone = Ok latitude
             /\ py_get location "longitude" PNone = Ok longitude)
      /\ fst (select_base_bus ga_cfg n)
         = _closest_bus n country latitude longitude sub.
Proof.
  unfold select_base_bus, resolve_base_bus.
  rewrite lift_bind.
  destruct (py_get ga_cfg "country_code" (PStr "ES")) as [country|e] eqn:H0;
    [|left; apply py_get_error in H0; now subst].
  rewrite lift_bind.
  destruct (py_get ga_cfg "location" (PDict [])) as [location|e] eqn:H1;
    [|left; apply py_get_error in H1; now subst].
  rewrite lift_bind.
  destruct (py_get location "latitude" PNone) as [latitude|e] eqn:H2;
    [|left; apply py_get_error in H2; now subst].
  rewrite lift_bind.
  destruct (py_get location "longitude" PNone) as [longitude|e] eqn:H3;
    [|left; apply py_get_error in H3; now subst].
  rewrite lift_bind.
  destruct (py_get location "bus_substring" PNone) as [sub|e] eqn:H4;
    [|left; apply py_get_error in H4; now subst].
  right. exists country, latitude, longitude, sub.
  split; [reflexivity|]. split; [|reflexivity].
  exists location. auto.
Qed.

Lemma select_base_bus_member (ga_cfg : pyval) (n : Network)
      (base : string) :
  fst (select_base_bus ga_cfg n) = Ok base ->
  in_index base (buses_index n) = true.
Proof.
  intros H.
  destruct (select_base_bus_steps ga_cfg n)
    as [E|(country & latitude & longitude & sub & _ & _ & E)];
    rewrite E in H; [discriminate|].
  apply closest_bus_in_network in H. destruct H as (b & Hb & <-).
  now apply in_index_In_map.
Qed.

Lemma select_base_bus_error (config ga : pydict) (n : Network) (e : exc) :
  _get_cfg config = Ok (PDict ga) ->
  typed_location config = true ->
  fst (select_base_bus (PDict ga) n) = Err e ->
  is_LookupError e = false.
Proof.
  intros Hga Htyped H. unfold typed_location in Htyped.
  rewrite Hga in Htyped. apply andb_true_iff in Htyped.
  destruct Htyped as [Hcode Hloc].
  destruct (select_base_bus_steps (PDict ga) n)
    as [E|(country & latitude & longitude & sub & Hc & Hl & E)];
    rewrite E in H; [injection H as <-; reflexivity|].
  simpl in Hc. injection Hc as <-.
  destruct Hl as (location & Hl & Hlat & Hlon). simpl in Hl.
  injection Hl as <-.
  destruct (dict_get ga "location" (PDict [])) as [| | | | | |loc];
    try discriminate.
  simpl in Hlat, Hlon. injection Hlat as <-. injection Hlon as <-.
  now apply closest_bus_error in H.
Qed.

Lemma buses_defined_ensure (name : pyval) (n : Network) :
  buses_defined (ensure name n) = buses_defined n.
Proof. unfold ensure. destruct (has_label name (carriers n)); reflexivity. Qed.

Lemma forallb_weaken {A : Type} (f g : A -> bool) (l : list A) :
  (forall a, f a = true -> g a = true) ->
  forallb f l = true -> forallb g l = true.
Proof.
  intros H. rewrite !forallb_forall. auto.
Qed.

Lemma buses_defined_add_Bus (b : Bus) (n : Network) :
  buses_defined n = true -> buses_defined (add_Bus b n) = true.
Proof.
  unfold buses_defined, buses_index. simpl. rewrite map_app.
  intros H. apply andb_true_iff in H. destruct H as [Hl Hs].
  apply andb_true_iff. split.
  - revert Hl. apply forallb_weaken. intros l Hl.
    apply andb_true_iff in Hl. destruct Hl.
    apply andb_true_iff. split; now apply in_index_grow.
  - revert Hs. apply forallb_weaken. intros s. apply in_index_grow.
Qed.

Lemma buses_defined_add_Link (l : Link) (n : Network) :
  in_index (link_bus0 l) (buses_index n) = true ->
  in_index (link_bus1 l) (buses_index n) = true ->
  buses_defined n = true -> buses_defined (add_Link l n) = true.
Proof.
  unfold buses_defined, buses_index. simpl. intros H0 H1 H.
  apply andb_true_iff in H. destruct H as [Hl Hs].
  rewrite forallb_app, Hl, Hs. simpl. now rewrite H0, H1.
Qed.

Lemma buses_defined_add_Store (s : Store) (n : Network) :
  in_index (store_bus s) (buses_index n) = true ->
  buses_defined n = true -> buses_defined (add_Store s n) = true.
Proof.
  unfold buses_defined, buses_index. simpl. intros H0 H.
  apply andb_true_iff in H. destruct H as [Hl Hs].
  rewrite forallb_app, Hl, Hs. simpl. now rewrite H0.
Qed.

Lemma in_index_buses_loc (n : Network) (label : string) :
  in_index label (buses_index n) = true ->
  exists b, buses_loc n label = Ok b.
Proof.
  unfold in_index, buses_index, buses_loc. intros H.
  apply existsb_exists in H. destruct H as (x & Hin & Heq).
  apply in_map_iff in Hin. destruct Hin as (b & <- & Hb).
  destruct (find (fun b0 => String.eqb (bus_name b0) label) (buses n))
    eqn:Hf; [eauto|].
  apply (find_none _ _ Hf) in Hb. rewrite String.eqb_sym in Hb. congruence.
Qed.

Section Chain.

Variable n0 : Network.
Variable base : string.

Lemma triple_read_error {A : Type} (P : Network -> Prop) (r : res A) :
  (forall n, P n -> still_defined n0 n) ->
  (forall e, r = Err e -> is_LookupError e = false) ->
  triple P (lift r) (fun _ n => P n) (no_lookup_exit n0).
Proof.
  intros HP Hr. apply triple_lift. intros e n He Hn. split; auto.
Qed.

Lemma triple_ensure_carrier (name : pyval) :
  triple (fun n => in_index base (buses_index n) = true
                   /\ still_defined n0 n)
         (_ensure_carrier name)
         (fun _ n => in_index base (buses_index n) = true
                     /\ still_defined n0 n)
         (no_lookup_exit n0).
Proof.
  intros n [Hb Hd]. rewrite ensure_carrier_run.
  destruct (label_key name); [|split; [reflexivity|assumption]].
  rewrite buses_index_ensure. split; [assumption|].
  intros H. rewrite buses_defined_ensure. auto.
Qed.

Lemma triple_add_bus (cs : pyval) :
  triple (fun n => in_index base (buses_index n) = true
                   /\ still_defined n0 n)
         (_add_bus base cs)
         (fun nh3 n => in_index base (buses_index n) = true
                       /\ in_index nh3 (buses_index n) = true
                       /\ still_defined n0 n)
         (no_lookup_exit n0).
Proof.
  intros n [Hb Hd]. rewrite add_bus_run.
  destruct (in_index_buses_loc n base Hb) as [b ->].
  destruct (in_index (base ++ "-NH3") (buses_index n)) eqn:E.
  - auto.
  - unfold buses_index. simpl. rewrite map_app. repeat split.
    + now apply in_index_grow.
    + apply in_index_last.
    + intros H. apply buses_defined_add_Bus. auto.
Qed.

Lemma triple_add_electrolyser (nh3 : string) (ce : pyval) (cfg : pyval) :
  triple (fun n => in_index base (buses_index n) = true
                   /\ in_index nh3 (buses_index n) = true
                   /\ still_defined n0 n)
         (_add_electrolyser base nh3 cfg ce)
         (fun _ n => in_index base (buses_index n) = true
                     /\ in_index nh3 (buses_index n) = true
                     /\ still_defined n0 n)
         (no_lookup_exit n0).
Proof.
  intros n (Hb & Hn & Hd). rewrite add_electrolyser_run.
  destruct (in_index _ (links_index n)); [auto|].
  destruct cfg; try (split; [reflexivity|assumption]).
  repeat split; try assumption.
  intros H. apply buses_defined_add_Link; auto.
Qed.

Lemma triple_add_storage (nh3 : string) (cs : pyval) (cfg : pyval) :
  triple (fun n => in_index base (buses_index n) = true
                   /\ in_index nh3 (buses_index n) = true
                   /\ still_defined n0 n)
         (_add_storage nh3 cfg cs)
         (fun _ n => in_index base (buses_index n) = true
                     /\ in_index nh3 (buses_index n) = true
                     /\ still_defined n0 n)
         (no_lookup_exit n0).
Proof.
  intros n (Hb & Hn & Hd). rewrite add_storage_run.
  destruct (in_index _ (stores_index n)); [auto|].
  destruct cfg; try (split; [reflexivity|assumption]).
  repeat split; try assumption.
  intros H. apply buses_defined_add_Store; auto.
Qed.

Lemma triple_add_ccgt (nh3 : string) (cc : pyval) (cfg : pyval) :
  triple (fun n => in_index base (buses_index n) = true
                   /\ in_index nh3 (buses_index n) = true
                   /\ still_defined n0 n)
         (_add_ccgt base nh3 cfg cc)
         (fun _ n => still_defined n0 n)
         (no_lookup_exit n0).
Proof.
  intros n (Hb & Hn & Hd). rewrite add_ccgt_run.
  destruct (in_index _ (links_index n)); [auto|].
  destruct cfg; try (split; [reflexivity|assumption]).
  intros H. apply buses_defined_add_Link; auto.
Qed.

Lemma triple_build_chain (ga_cfg : pyval) :
  triple (fun n => in_index base (buses_index n) = true
                   /\ still_defined n0 n)
         (build_chain ga_cfg base)
         (fun _ n => still_defined n0 n)
         (no_lookup_exit n0).
Proof.
  unfold build_chain.
  do 4 (eapply triple_bind;
        [apply triple_read_error;
         [tauto|intros e H; apply py_get_error in H; now subst]
        |intros ?; cbv beta]).
  do 3 (eapply triple_bind; [apply triple_ensure_carrier|intros ?; cbv beta]).
  eapply triple_bind; [apply triple_add_bus|intros nh3; cbv beta].
  eapply triple_bind.
  { apply triple_read_error; [tauto|].
    intros e H. apply py_get_error in H. now subst. }
  intros cfg_electrolyser. cbv beta.
  eapply triple_bind; [apply triple_add_electrolyser|intros ?; cbv beta].
  eapply triple_bind.
  { apply triple_read_error; [tauto|].
    intros e H. apply py_get_error in H. now subst. }
  intros cfg_storage. cbv beta.
  eapply triple_bind; [apply triple_add_storage|intros ?; cbv beta].
  eapply triple_bind.
  { apply triple_read_error; [tauto|].
    intros e H. apply py_get_error in H. now subst. }
  intros cfg_ccgt. cbv beta.
  apply triple_add_ccgt.
Qed.

End Chain.

Lemma triple_hook (snapshots : Snapshots) (config kwargs : pydict)
      (n0 : Network) :
  triple (fun n => n = n0)
         (add_green_ammonia snapshots config kwargs)
         (fun _ n => still_defined n0 n)
         (fun e n => (typed_location config = true ->
                      is_LookupError e = false)
                     /\ still_defined n0 n).
Proof.
  intros n ->. unfold add_green_ammonia. rewrite lift_bind.
  destruct (_get_cfg config) as [ga_cfg|e] eqn:Hga.
  2:{ unfold _get_cfg in Hga. apply py_get_error in Hga. subst.
      split; [reflexivity|intros H; exact H]. }
  rewrite lift_bind.
  destruct (py_get ga_cfg "enable" (PBool false)) as [enable|e] eqn:Hen.
  2:{ apply py_get_error in Hen. subst.
      split; [reflexivity|intros H; exact H]. }
  destruct (negb (truthy enable)); [intros H; exact H|].
  rewrite inject_run.
  destruct (fst (select_base_bus ga_cfg n0)) as [base|e] eqn:Hsel.
  - pose proof (triple_build_chain n0 base ga_cfg n0) as T.
    destruct (build_chain ga_cfg base n0) as [[[]|e] n1].
    + apply T. split; [|intros H; exact H].
      now apply select_base_bus_member with ga_cfg.
    + destruct T as [T1 T2]; [|split; auto].
      split; [|intros H; exact H].
      now apply select_base_bus_member with ga_cfg.
  - split; [|intros H; exact H].
    intros Htyped. destruct ga_cfg; try discriminate Hen.
    exact (select_base_bus_error config d n0 e Hga Htyped Hsel).
Qed.


(** X5: no component on an undefined bus.  When every link and every store
    of the network sits on buses the network defines, the same holds after
    a call of the hook, whether it returns or raises: each link and the
    store the hook adds refer to the base bus and to the NH3 bus, both in
    the bus table by then. *)
Theorem hook_keeps_buses_defined (snapshots : Snapshots)
        (config kwargs : pydict) (n : Network) :
  buses_defined n = true ->
  buses_defined (snd (add_green_ammonia snapshots config kwargs n)) = true.
Proof.
  intros Hd.
  pose proof (triple_hook snapshots config kwargs n n eq_refl) as T.
  destruct (add_green_ammonia snapshots config kwargs n) as [[[]|e] n'];
    simpl; [exact (T Hd)|exact (proj2 T Hd)].
Qed.

(** *** A failure part of the way *)

(** X6: an exception does not undo what the call has added.  On a network
    without the chain, with the entries [electrolyser] and [storage]
    mappings and the entry [ccgt] present and not a mapping (for instance
    left empty), the enabled call raises [AttributeError] when it reads the
    first CCGT parameter, and the network then holds the carriers, the NH3
    bus, the electrolyser link and the store, and no CCGT link. *)
Theorem failure_leaves_partial_chain (snapshots : Snapshots)
        (config kwargs ga de ds : pydict) (base cs ce cc : string)
        (n : Network) :
  _get_cfg config = Ok (PDict ga) ->
  enabled config = true ->
  fst (select_base_bus (PDict ga) n) = Ok base ->
  chain_absent n base = true ->
  configured_carrier ga "ammonia" "NH3" = Ok (PStr cs) ->
  configured_carrier ga "to_store" "NH3-electrolyser" = Ok (PStr ce) ->
  configured_carrier ga "to_power" "NH3-power" = Ok (PStr cc) ->
  dict_get ga "electrolyser" (PDict []) = PDict de ->
  dict_get ga "storage" (PDict []) = PDict ds ->
  (forall dc, dict_get ga "ccgt" (PDict []) <> PDict dc) ->
  exists b,
    buses_loc n base = Ok b
    /\ add_green_ammonia snapshots config kwargs n
       = (Err AttributeError,
          add_Store (store_row (base ++ "-NH3") ds (PStr cs))
            (add_Link (electrolyser_row base (base ++ "-NH3") de (PStr ce))
               (add_Bus (mkBus (base ++ "-NH3") (bus_x b) (bus_y b)
                               (bus_country b) (PStr cs)
                               (bus_sub_network b))
                  (ensure (PStr cc)
                     (ensure (PStr ce) (ensure (PStr cs) n)))))).
Proof.
  intros Hga Hen Hbase Habs Hcs Hce Hcc Hde Hds Hdc.
  destruct (chain_absent_cases n base Habs) as (Hb & He & Hc & Hs).
  pose proof (select_base_bus_member (PDict ga) n base Hbase) as Hin.
  destruct (in_index_buses_loc n base Hin) as [b Eb].
  exists b. split; [assumption|].
  rewrite (hook_enabled_run snapshots config kwargs ga n Hga Hen).
  rewrite inject_run, Hbase.
  unfold configured_carrier in Hcs, Hce, Hcc. simpl py_get in Hcs, Hce, Hcc.
  unfold build_chain.
  rewrite lift_bind. simpl py_get. cbv iota.
  rewrite lift_bind, Hcs. rewrite lift_bind, Hce. rewrite lift_bind, Hcc.
  rewrite bind_run, ensure_carrier_run. simpl label_key. cbv beta iota.
  rewrite bind_run, ensure_carrier_run. simpl label_key. cbv beta iota.
  rewrite bind_run, ensure_carrier_run. simpl label_key. cbv beta iota.
  rewrite bind_run, add_bus_run.
  rewrite !buses_loc_ensure, !buses_index_ensure, Hb, Eb.
  rewrite lift_bind. simpl py_get. cbv iota.
  rewrite bind_run, add_electrolyser_run.
  rewrite links_index_add_Bus, !links_index_ensure, He, Hde.
  rewrite lift_bind. simpl py_get. cbv iota.
  rewrite bind_run, add_storage_run.
  rewrite stores_index_add_Link, stores_index_add_Bus, !stores_index_ensure,
    Hs, Hds.
  rewrite lift_bind. simpl py_get. cbv iota.
  rewrite add_ccgt_run.
  rewrite links_index_add_Store, links_index_add_Link, links_index_add_Bus,
    !links_index_ensure.
  rewrite (ccgt_label_fresh base (electrolyser_row base (base ++ "-NH3")
                                                   de (PStr ce))
                            (links_index n) Hc eq_refl).
  destruct (dict_get ga "ccgt" (PDict [])) as [| | | | | |dc] eqn:Edc;
    try reflexivity.
  exfalso. exact (Hdc dc eq_refl).
Qed.

(** *** The helpers on their own *)

Lemma spec_float_eqb_eq (x y : spec_float) :
  spec_float_eqb x y = true -> x = y.
Proof.
  destruct x as [s|s| |s m e], y as [s'|s'| |s' m' e']; simpl;
    try discriminate; try reflexivity.
  - intros H. apply Bool.eqb_prop in H. now subst.
  - intros H. apply Bool.eqb_prop in H. now subst.
  - intros H. apply andb_true_iff in H. destruct H as [H He].
    apply andb_true_iff in H. destruct H as [Hs Hm].
    apply Bool.eqb_prop in Hs. apply Pos.eqb_eq in Hm.
    apply Z.eqb_eq in He. now subst.
Qed.

Lemma hkey_eqb_eq (a b : hkey) : hkey_eqb a b = true -> a = b.
Proof.
  destruct a, b; simpl; try discriminate; try reflexivity; intros H.
  - apply Z.eqb_eq in H. now subst.
  - apply spec_float_eqb_eq in H. now subst.
  - apply String.eqb_eq in H. now subst.
Qed.

Lemma same_label_key (x y : pyval) :
  same_label x y = true <->
  exists k, label_key x = Some k /\ label_key y = Some k.
Proof.
  unfold same_label. split.
  - destruct (label_key x) as [kx|], (label_key y) as [ky|];
      try discriminate.
    intros H. apply hkey_eqb_eq in H. subst. eauto.
  - intros (k & -> & ->). apply hkey_eqb_refl.
Qed.

Lemma has_label_same (x y : pyval) (l : list pyval) :
  same_label x y = true -> has_label x l = has_label y l.
Proof.
  intros H. apply same_label_key in H. destruct H as (k & Hx & Hy).
  unfold has_label, same_label. rewrite Hx, Hy. reflexivity.
Qed.

(** X7: [_ensure_carrier] registers a name once.  On a name that cannot
    be hashed (a list, a mapping) the test of the index raises [TypeError]
    and the network is unchanged.  On any other name the call returns;
    afterwards the carriers are those before and [name]; buses, links and
    stores are untouched; a carrier already registered leaves the network
    as it is, so a second call changes nothing. *)
Theorem ensure_carrier_registers_once (name : pyval) (n : Network) :
  match label_key name with
  | None => _ensure_carrier name n = (Err TypeError, n)
  | Some _ =>
      exists n',
        _ensure_carrier name n = (Ok tt, n')
        /\ (forall x, has_label x (carriers n')
                      = has_label x (carriers n) || same_label x name)
        /\ buses n' = buses n /\ links n' = links n /\ stores n' = stores n
        /\ (has_label name (carriers n) = true -> n' = n)
        /\ _ensure_carrier name n' = (Ok tt, n')
  end.
Proof.
  rewrite ensure_carrier_run.
  destruct (label_key name) as [k|] eqn:K; [|reflexivity].
  exists (ensure name n). rewrite ensure_carrier_run, K.
  destruct (ensure_buses name n) as (Hb & Hl & Hs).
  repeat split; try assumption.
  - intros x. unfold ensure.
    destruct (has_label name (carriers n)) eqn:E; simpl.
    + destruct (same_label x name) eqn:Ex;
        [|now rewrite orb_false_r].
      now rewrite (has_label_same _ _ _ Ex), E.
    + now rewrite has_label_app; simpl; rewrite orb_false_r.
  - intros H. unfold ensure. now rewrite H.
  - f_equal. unfold ensure at 1.
    destruct (has_label name (carriers (ensure name n))) eqn:E;
      [reflexivity|].
    exfalso. unfold ensure in E.
    destruct (has_label name (carriers n)) eqn:E'; [congruence|].
    simpl in E. rewrite (has_label_last _ _ _ K) in E. discriminate.
Qed.

Lemma find_app_single {A : Type} (f : A -> bool) (l : list A) (a : A) :
  find f (l ++ [a]) = match find f l with
                       | Some x => Some x
                       | None => if f a then Some a else None
                       end.
Proof.
  induction l as [|x l IH]; simpl; [reflexivity|].
  destruct (f x); [reflexivity|exact IH].
Qed.

Lemma buses_loc_missing (n : Network) (label : string) :
  in_index label (buses_index n) = false -> buses_loc n label = Err KeyError.
Proof.
  intros H. unfold buses_loc.
  destruct (find (fun b => String.eqb (bus_name b) label) (buses n))
    as [b|] eqn:Hf; [|reflexivity].
  apply find_some in Hf. destruct Hf as [Hin Heq].
  apply String.eqb_eq in Heq. subst. unfold buses_index in H.
  rewrite (in_index_In_map bus_name b (buses n) Hin) in H. discriminate.
Qed.

(** X8: when [_add_bus] fails.  The call raises exactly when the base
    label is not in the bus table: the exception is then [KeyError] and the
    network is unchanged, also when a bus named after the base with the
    suffix -NH3 exists. *)
Theorem add_bus_fails_iff_base_missing (base_bus : string) (carrier : pyval)
        (n n' : Network) (e : exc) :
  _add_bus base_bus carrier n = (Err e, n')
  <-> in_index base_bus (buses_index n) = false /\ e = KeyError /\ n' = n.
Proof.
  rewrite add_bus_run. split.
  - destruct (in_index base_bus (buses_index n)) eqn:E.
    + destruct (in_index_buses_loc n base_bus E) as [b ->]. discriminate.
    + rewrite (buses_loc_missing n base_bus E). intros H.
      injection H as <- <-. auto.
  - intros (E & -> & ->). now rewrite (buses_loc_missing n base_bus E).
Qed.

(** X9: insert and lookup of the NH3 bus.  On a bus table with unique
    labels ([.loc] then gives one row), with the base label in the table
    and no bus named after it with the suffix -NH3, [_add_bus]
    returns that name, and looking the name up afterwards gives a row with
    the coordinates, the country and the sub-network of the base row and
    the requested carrier; every other label is looked up as before. *)
Theorem add_bus_then_lookup (base_bus : string) (carrier : pyval)
      (n : Network) :
  NoDup (buses_index n) ->
  in_index base_bus (buses_index n) = true ->
  in_index (base_bus ++ "-NH3") (buses_index n) = false ->
  exists base n',
    buses_loc n base_bus = Ok base
    /\ _add_bus base_bus carrier n = (Ok (base_bus ++ "-NH3"), n')
    /\ buses_loc n' (base_bus ++ "-NH3")
       = Ok (mkBus (base_bus ++ "-NH3") (bus_x base) (bus_y base)
                   (bus_country base) carrier (bus_sub_network base))
    /\ (forall label, label <> base_bus ++ "-NH3" ->
                      buses_loc n' label = buses_loc n label).
Proof.
  intros _ Hbase Hnew.
  destruct (in_index_buses_loc n base_bus Hbase) as [b Hb].
  exists b. eexists. split; [assumption|].
  rewrite add_bus_run, Hb, Hnew. split; [reflexivity|].
  unfold buses_loc. simpl. split.
  - rewrite find_app_single.
    pose proof (buses_loc_missing n _ Hnew) as Hm. unfold buses_loc in Hm.
    destruct (find _ (buses n)); [discriminate|].
    simpl. now rewrite String.eqb_refl.
  - intros label Hneq. rewrite find_app_single.
    destruct (find _ (buses n)); [reflexivity|].
    simpl. rewrite String.eqb_sym.
    apply String.eqb_neq in Hneq. now rewrite Hneq.
Qed.

(** X10: a component is inserted once and never updated.  After a
    successful call of [_add_electrolyser], [_add_storage] or [_add_ccgt],
    a further call for the same base bus (for the store: the same NH3 bus)
    returns without changing the network, whatever parameters, carrier and
    other bus it is given, even a parameter entry that is not a mapping. *)
Theorem component_inserted_once (base nh3 : string) (carrier cfg : pyval)
        (n n' : Network) :
  (_add_electrolyser base nh3 cfg carrier n = (Ok tt, n') ->
   forall nh3' cfg' carrier',
     _add_electrolyser base nh3' cfg' carrier' n' = (Ok tt, n'))
  /\ (_add_storage nh3 cfg carrier n = (Ok tt, n') ->
      forall cfg' carrier', _add_storage nh3 cfg' carrier' n' = (Ok tt, n'))
  /\ (_add_ccgt base nh3 cfg carrier n = (Ok tt, n') ->
      forall nh3' cfg' carrier',
        _add_ccgt base nh3' cfg' carrier' n' = (Ok tt, n')).
Proof.
  repeat split.
  - rewrite add_electrolyser_run. intros H nh3' cfg' carrier'.
    rewrite add_electrolyser_run.
    destruct (in_index _ (links_index n)) eqn:E.
    + injection H as <-. now rewrite E.
    + destruct cfg; try discriminate. injection H as <-.
      rewrite links_index_add_Link. simpl link_name.
      now rewrite in_index_last.
  - rewrite add_storage_run. intros H cfg' carrier'.
    rewrite add_storage_run.
    destruct (in_index _ (stores_index n)) eqn:E.
    + injection H as <-. now rewrite E.
    + destruct cfg; try discriminate. injection H as <-.
      unfold stores_index. simpl. rewrite map_app. simpl.
      now rewrite in_index_last.
  - rewrite add_ccgt_run. intros H nh3' cfg' carrier'.
    rewrite add_ccgt_run.
    destruct (in_index _ (links_index n)) eqn:E.
    + injection H as <-. now rewrite E.
    + destruct cfg; try discriminate. injection H as <-.
      rewrite links_index_add_Link. simpl link_name.
      now rewrite in_index_last.
Qed.

(** *** A call on a network that holds the chain *)

(** X11: a successful call leaves the whole chain.  After an enabled call
    that returns, whatever part of the chain the network held before, the
    three configured carriers are registered and the bus table holds the
    resolved base bus and its NH3 bus, the link table the electrolyser and
    the CCGT link, the store table the store; every label the network had
    is still there, and every bus label is looked up as before. *)
Theorem successful_call_leaves_chain (snapshots : Snapshots)
        (config kwargs ga : pydict) (n n' : Network) :
  _get_cfg config = Ok (PDict ga) ->
  enabled config = true ->
  add_green_ammonia snapshots config kwargs n = (Ok tt, n') ->
  exists base cs ce cc,
    fst (select_base_bus (PDict ga) n) = Ok base
    /\ configured_carrier ga "ammonia" "NH3" = Ok cs
    /\ configured_carrier ga "to_store" "NH3-electrolyser" = Ok ce
    /\ configured_carrier ga "to_power" "NH3-power" = Ok cc
    /\ chain_present n' base cs ce cc
    /\ grows n n'.
Proof.
  intros Hga Hen Hrun.
  rewrite (hook_enabled_run _ _ _ _ _ Hga Hen), inject_run in Hrun.
  destruct (fst (select_base_bus (PDict ga) n)) as [base|e];
    [|discriminate Hrun].
  destruct (build_chain_present _ _ _ _ Hrun)
    as (cs & ce & cc & Ecs & Ece & Ecc & Hg & Hp).
  exists base, cs, ce, cc.
  exact (conj eq_refl (conj Ecs (conj Ece (conj Ecc (conj Hp Hg))))).
Qed.

(** X12: parameters of an existing chain are not updated.  After a
    successful enabled call, a call with another configuration that is
    enabled, has the same [carriers] entry and resolves the same base bus
    returns without changing the network: its [electrolyser], [storage]
    and [ccgt] entries are not applied, and not even required to be
    mappings. *)
Theorem rerun_ignores_new_parameters (snapshots : Snapshots)
        (config config' kwargs kwargs' ga ga' : pydict) (n n' : Network) :
  _get_cfg config = Ok (PDict ga) ->
  enabled config = true ->
  _get_cfg config' = Ok (PDict ga') ->
  enabled config' = true ->
  dict_get ga' "carriers" (PDict []) = dict_get ga "carriers" (PDict []) ->
  add_green_ammonia snapshots config kwargs n = (Ok tt, n') ->
  fst (select_base_bus (PDict ga') n') = fst (select_base_bus (PDict ga) n) ->
  add_green_ammonia snapshots config' kwargs' n' = (Ok tt, n').
Proof.
  intros Hga Hen Hga' Hen' Hcar Hrun Hsame.
  rewrite (hook_enabled_run _ _ _ _ _ Hga Hen), inject_run in Hrun.
  rewrite (hook_enabled_run _ _ _ _ _ Hga' Hen'), inject_run, Hsame.
  destruct (fst (select_base_bus (PDict ga) n)) as [base|e];
    [|discriminate Hrun].
  destruct (build_chain_present _ _ _ _ Hrun)
    as (cs & ce & cc & Ecs & Ece & Ecc & _ & Hp).
  apply build_chain_noop with cs ce cc; try assumption;
    unfold configured_carrier in *; now rewrite Hcar.
Qed.

(** X14: the NH3 bus is a bus of the country.  After a successful enabled
    call on a network with unique bus labels that did not hold the NH3 bus
    of the resolved base bus, the bus table is the one before followed by
    the NH3 bus, which has the coordinates of the base bus and the
    requested country: it is the last candidate of any later resolution
    for that country. *)
Theorem injected_bus_joins_country (snapshots : Snapshots)
        (config kwargs ga loc : pydict) (country_code base : string)
        (n n' : Network) :
  _get_cfg config = Ok (PDict ga) ->
  enabled config = true ->
  dict_get ga "location" (PDict []) = PDict loc ->
  dict_get ga "country_code" (PStr "ES") = PStr country_code ->
  NoDup (buses_index n) ->
  fst (select_base_bus (PDict ga) n) = Ok base ->
  in_index (base ++ "-NH3") (buses_index n) = false ->
  add_green_ammonia snapshots config kwargs n = (Ok tt, n') ->
  exists b nb,
    buses_loc n base = Ok b
    /\ bus_country b = country_code
    /\ buses n' = (buses n ++ [nb])%list
    /\ bus_name nb = base ++ "-NH3"
    /\ bus_x nb = bus_x b /\ bus_y nb = bus_y b
    /\ country_candidates n' country_code
       = (country_candidates n country_code ++ [nb])%list.
Proof.
  intros Hga Hen Hloc Hc Hnd Hbase Habs Hrun.
  rewrite (hook_enabled_run _ _ _ _ _ Hga Hen), inject_run, Hbase in Hrun.
  destruct (build_chain_buses _ _ _ _ Hrun) as (b & Hb & Hbuses).
  destruct (build_chain_present _ _ _ _ Hrun)
    as (cs0 & ce & cc & _ & _ & _ & _ & Hp).
  destruct Hp as (_ & _ & _ & _ & Hlabel & _).
  destruct (buses_loc_name _ _ _ Hb) as [Hbname Hbin].
  assert (Hcountry : bus_country b = country_code).
  { rewrite (select_base_bus_run _ _ _ Hloc), Hc in Hbase.
    apply closest_bus_member in Hbase.
    destruct Hbase as (cs & b' & _ & _ & Hin' & Hname').
    apply filter_In in Hin'. destruct Hin' as [Hin' Hc'].
    apply String.eqb_eq in Hc'.
    assert (b' = b) by (apply (unique_label (buses n)); auto; congruence).
    congruence. }
  destruct Hbuses as [Hsame|(cs & Hadd)].
  - unfold buses_index in Hlabel, Habs. rewrite Hsame in Hlabel. congruence.
  - exists b. eexists. split; [assumption|]. split; [assumption|].
    split; [exact Hadd|]. simpl. repeat split.
    unfold country_candidates. rewrite Hadd, filter_app. simpl.
    apply String.eqb_eq in Hcountry. now rewrite Hcountry.
Qed.

End Hook.

(** ** The properties on the sample data

    The closed statements below are computed with [literal_re] as the
    regular-expression engine, [sample_library] for the libraries and
    [unit] as the type of the time index. *)

(** C8, the claim as stated fails: with [custom:] left empty in the YAML
    file (loaded as [None]) the resolver raises [AttributeError]. *)
Lemma get_cfg_fails_on_custom_none :
  _get_cfg [("custom", PNone)] = Err AttributeError.
Proof. reflexivity. Qed.

(** C4, the claim as stated fails: with [custom:] or
    [custom.green_ammonia:] left empty in the YAML file there is no
    [enable] flag, and the call does not return: it raises
    [AttributeError]. *)
Lemma disabled_call_raises_on_custom_none :
  enabled [("custom", PNone)] = false
  /\ add_green_ammonia literal_re sample_library unit tt
                       [("custom", PNone)] [] sample_network
     = (Err AttributeError, sample_network)
  /\ enabled [("custom", PDict [("green_ammonia", PNone)])] = false
  /\ add_green_ammonia literal_re sample_library unit tt
                       [("custom", PDict [("green_ammonia", PNone)])] []
                       sample_network
     = (Err AttributeError, sample_network).
Proof. repeat split. Qed.

Lemma disabled_is_noop_witness :
  enabled config_disabled = false
  /\ snd (add_green_ammonia literal_re sample_library unit tt
                            config_disabled [] sample_network)
     = sample_network
  /\ add_green_ammonia literal_re sample_library unit tt config_disabled []
                       sample_network = (Ok tt, sample_network).
Proof.
  split; [reflexivity|].
  destruct (disabled_is_noop literal_re sample_library unit tt
                             config_disabled [] sample_network eq_refl)
    as (Hsame & Hreturns & _).
  split; [exact Hsame|].
  exact (Hreturns [("enable", PBool false)] eq_refl).
Defined.

Lemma closest_bus_missing_coordinate_witness :
  (PFloat 0.9 = PNone \/ PNone = PNone)
  /\ country_candidates sample_network "ES" <> []
  /\ narrow literal_re (country_candidates sample_network "ES") PNone
     = Ok (buses sample_network)
  /\ (exists b rest,
         buses sample_network = b :: rest
         /\ _closest_bus literal_re sample_library sample_network
                         (PStr "ES") (PFloat 0.9) PNone PNone
            = Ok (bus_name b))
  /\ _closest_bus literal_re sample_library sample_network (PStr "ES")
                  (PFloat 0.9) PNone PNone
     = _closest_bus literal_re sample_library sample_network (PStr "ES")
                    PNone PNone PNone.
Proof.
  split; [now right|]. split; [discriminate|]. split; [reflexivity|].
  apply (closest_bus_missing_coordinate literal_re sample_library
           sample_network "ES" (PFloat 0.9) PNone PNone
           (buses sample_network)).
  - now right.
  - discriminate.
  - reflexivity.
Defined.

(** C5, the claim as stated fails: the filter "(" is in no label of the
    candidates, and the resolver raises [re.error] instead of keeping the
    country-filtered set. *)
Lemma closest_bus_raises_on_unclosed_group :
  forallb (fun b => negb (is_infix "(" (bus_name b)))
          (country_candidates sample_network "ES") = true
  /\ _closest_bus literal_re sample_library sample_network (PStr "ES")
                  PNone PNone (PStr "(")
     = Err ReError
  /\ add_green_ammonia literal_re sample_library unit tt
                       config_substring_paren [] sample_network
     = (Err ReError, sample_network).
Proof. repeat split. Qed.

Lemma substring_filter_fallback_witness :
  "ZZ" <> ""
  /\ literal_re "ZZ" = Some (is_infix "ZZ")
  /\ country_candidates sample_network "ES" <> []
  /\ filter (fun b => is_infix "ZZ" (bus_name b))
            (country_candidates sample_network "ES") = []
  /\ narrow literal_re (country_candidates sample_network "ES") (PStr "ZZ")
     = Ok (country_candidates sample_network "ES")
  /\ _closest_bus literal_re sample_library sample_network (PStr "ES")
                  (PFloat 0.9) (PFloat 0.9) (PStr "ZZ")
     = _closest_bus literal_re sample_library sample_network (PStr "ES")
                    (PFloat 0.9) (PFloat 0.9) PNone.
Proof.
  assert (Hpat : "ZZ" <> "") by discriminate.
  assert (Hcs : country_candidates sample_network "ES" <> [])
    by discriminate.
  split; [exact Hpat|]. split; [reflexivity|]. split; [exact Hcs|].
  split; [reflexivity|].
  exact (proj1 (proj2 (substring_filter_fallback
                         literal_re sample_library sample_network "ES"
                         (PFloat 0.9) (PFloat 0.9) "ZZ" (is_infix "ZZ")
                         Hpat eq_refl Hcs))
               eq_refl).
Defined.

(** C2, the claim as stated fails: the bus "ES0" is at the target, at
    distance 0, and the resolver returns "ES1", whose distance is NaN. *)
Lemma closest_bus_returns_nan_candidate :
  country_candidates network_with_nan "ES"
  = [sample_bus "ES0" 0 0; sample_bus "ES1" 0 nan]
  /\ distance 0 0 (sample_bus "ES0" 0 0) = 0%float
  /\ is_nan (distance 0 0 (sample_bus "ES1" 0 nan)) = true
  /\ (distance 0 0 (sample_bus "ES1" 0 nan)
      <=? distance 0 0 (sample_bus "ES0" 0 0))%float = false
  /\ _closest_bus literal_re sample_library network_with_nan (PStr "ES")
                  (PFloat 0) (PFloat 0) PNone = Ok "ES1".
Proof. repeat split. Qed.

Lemma closest_bus_nearest_witness :
  as_float (PFloat 0.9) = Some (Ok 0.9%float)
  /\ country_candidates sample_network "ES" <> []
  /\ narrow literal_re (country_candidates sample_network "ES") PNone
     = Ok (buses sample_network)
  /\ (exists i b,
         _closest_bus literal_re sample_library sample_network (PStr "ES")
                      (PFloat 0.9) (PFloat 0.9) PNone = Ok (bus_name b)
         /\ ((forall b', In b' (buses sample_network) ->
                         is_nan (distance 0.9 0.9 b') = false) ->
             nearest_first 0.9 0.9 (buses sample_network) i b)
         /\ ((exists b', In b' (buses sample_network)
                         /\ is_nan (distance 0.9 0.9 b') = true) ->
             first_nan_distance 0.9 0.9 (buses sample_network) i b))
  /\ _closest_bus literal_re sample_library sample_network (PStr "ES")
                  (PFloat 0.9) (PFloat 0.9) PNone = Ok "ES1".
Proof.
  assert (Hcs : country_candidates sample_network "ES" <> [])
    by discriminate.
  split; [reflexivity|]. split; [exact Hcs|]. split; [reflexivity|].
  split.
  - exact (proj1 (closest_bus_nearest literal_re sample_library)
                 sample_network "ES"
                 (PFloat 0.9) (PFloat 0.9) PNone 0.9%float 0.9%float
                 (buses sample_network) eq_refl eq_refl Hcs eq_refl).
  - exact (proj2 (closest_bus_nearest literal_re sample_library)
                 sample_network
                 (sample_bus "ES0" 0 0) (sample_bus "ES1" 1 1)
                 (sample_bus "ES2" 5 5)
                 eq_refl eq_refl eq_refl eq_refl eq_refl eq_refl eq_refl).
Defined.

(** C3, the claim as stated fails.  With [location:] left empty in the
    YAML file the call raises [AttributeError] on a network that has buses
    of the requested country: the missing country is not the only fatal
    condition.  On a network with no bus of the requested country "ZZ" the
    exception is a [ValueError], which is not of the [LookupError] class;
    and it is an [AttributeError] when [location:] is left empty, the read
    of the target coming before the search of the country. *)
Lemma other_fatal_condition_and_class :
  country_candidates sample_network "ES" <> []
  /\ add_green_ammonia literal_re sample_library unit tt
                       config_location_none [] sample_network
     = (Err AttributeError, sample_network)
  /\ country_candidates sample_network "ZZ" = []
  /\ (exists msg,
         add_green_ammonia literal_re sample_library unit tt
                           config_country_ZZ [] sample_network
         = (Err (ValueError msg), sample_network)
         /\ is_LookupError (ValueError msg) = false)
  /\ add_green_ammonia literal_re sample_library unit tt
                       (config_of [("enable", PBool true);
                                   ("country_code", PStr "ZZ");
                                   ("location", PNone)])
                       [] sample_network
     = (Err AttributeError, sample_network).
Proof.
  split; [discriminate|]. split; [reflexivity|]. split; [reflexivity|].
  split; [|reflexivity].
  eexists. split; reflexivity.
Qed.

Lemma no_bus_in_country_raises_witness :
  buses sample_network <> []
  /\ same_country sample_library sample_network (PStr "ZZ") = Ok []
  /\ same_country sample_library sample_network (PBool false) = Ok []
  /\ (exists msg,
         add_green_ammonia literal_re sample_library unit tt
                           config_country_ZZ [] sample_network
         = (Err (ValueError msg), sample_network)
         /\ is_ValueError (ValueError msg) = true
         /\ is_LookupError (ValueError msg) = false)
  /\ (exists msg,
         add_green_ammonia literal_re sample_library unit tt
                           config_country_no [] sample_network
         = (Err (ValueError msg), sample_network)
         /\ is_ValueError (ValueError msg) = true
         /\ is_LookupError (ValueError msg) = false).
Proof.
  split; [discriminate|]. split; [reflexivity|]. split; [reflexivity|].
  split.
  - apply (no_bus_in_country_raises
             literal_re sample_library unit tt config_country_ZZ []
             [("enable", PBool true); ("country_code", PStr "ZZ")] []
             sample_network);
      reflexivity.
  - apply (no_bus_in_country_raises
             literal_re sample_library unit tt config_country_no []
             [("enable", PBool true); ("country_code", PBool false)] []
             sample_network);
      reflexivity.
Defined.

Lemma defaults_when_absent_witness :
  in_index ("ES0" ++ "-NH3-electrolyser") (links_index sample_network)
  = false
  /\ assoc "efficiency" [("lifetime", PInt 30)] = None
  /\ (exists l,
         _add_electrolyser "ES0" "ES0-NH3" (PDict [("lifetime", PInt 30)])
                           (PStr "NH3-electrolyser") sample_network
         = (Ok tt, add_Link l sample_network)
         /\ link_efficiency l = PFloat 0.6)
  /\ (exists n' l,
         add_green_ammonia literal_re sample_library unit tt
                           config_enable_only [] sample_network
         = (Ok tt, n')
         /\ In l (links n')
         /\ link_name l = "ES0-NH3-electrolyser"
         /\ link_efficiency l = PFloat 0.6
         /\ link_capital_cost l = PFloat 7.5e5).
Proof.
  split; [reflexivity|]. split; [reflexivity|]. split.
  - destruct (proj1 (defaults_when_absent literal_re sample_library unit)
                    "ES0" "ES0-NH3" (PStr "NH3-electrolyser")
                    [("lifetime", PInt 30)] sample_network eq_refl)
      as (l & Hrun & _ & Heff & _).
    exists l. split; [exact Hrun|exact (Heff eq_refl)].
  - exact (proj2 (proj2 (proj2 (proj2 (defaults_when_absent
                                         literal_re sample_library unit))))
                 tt [] sample_network (sample_bus "ES0" 0 0)
                 [sample_bus "ES1" 1 1; sample_bus "ES2" 5 5]
                 eq_refl eq_refl).
Defined.

(** C7, the claim as stated fails: none of the four injected components is
    in [network_with_dangling_link], and after the call the new bus
    "ES1-NH3" has two inbound links, the link that was waiting for it and
    the electrolyser. *)
Lemma dangling_link_gives_two_inbound :
  chain_absent network_with_dangling_link "ES1" = true
  /\ fst (select_base_bus literal_re sample_library
                          (PDict [("enable", PBool true);
                                  ("location",
                                   PDict [("latitude", PFloat 0.9);
                                          ("longitude", PFloat 0.9)])])
                          network_with_dangling_link) = Ok "ES1"
  /\ exists n',
      add_green_ammonia literal_re sample_library unit tt config_target []
                        network_with_dangling_link = (Ok tt, n')
      /\ in_index "ES1-NH3" (buses_index network_with_dangling_link) = false
      /\ in_index "ES1-NH3" (buses_index n') = true
      /\ map link_name (inbound_links n' "ES1-NH3")
         = ["feeder"; "ES1-NH3-electrolyser"].
Proof.
  split; [reflexivity|]. split; [reflexivity|].
  eexists. split; [reflexivity|]. repeat split.
Qed.

Lemma injected_chain_consistent_witness :
  exists n',
    add_green_ammonia literal_re sample_library unit tt config_target []
                      sample_network
    = (Ok tt, n')
    /\ buses_defined sample_network = true
    /\ chain_absent sample_network "ES1" = true
    /\ in_index "ES1-NH3" (buses_index n') = true
    /\ (exists e, inbound_links n' "ES1-NH3" = [e]
                  /\ link_name e = "ES1-NH3-electrolyser"
                  /\ link_bus0 e = "ES1")
    /\ (exists g, outbound_links n' "ES1-NH3" = [g]
                  /\ link_name g = "ES1-NH3-CCGT"
                  /\ link_bus1 g = "ES1")
    /\ (exists s, attached_stores n' "ES1-NH3" = [s]
                  /\ store_name s = "ES1-NH3-store").
Proof.
  eexists. split; [reflexivity|]. split; [reflexivity|].
  split; [reflexivity|].
  refine (proj2 (injected_chain_consistent
                   literal_re sample_library unit tt config_target []
                   [("enable", PBool true);
                    ("location", PDict [("latitude", PFloat 0.9);
                                        ("longitude", PFloat 0.9)])]
                   sample_network _ "ES1"
                   eq_refl eq_refl eq_refl eq_refl eq_refl eq_refl)).
Defined.

(** C1, the code at the failing input: under [bus_substring: NH3] the first
    call finds no label with "NH3", falls back to the first bus "ES0" and
    adds "ES0-NH3" with its links and store; the second call finds "NH3" in
    "ES0-NH3", takes that bus as base and adds a second chain on it. *)
Theorem second_call_adds_a_chain :
  let call := add_green_ammonia literal_re sample_library unit tt
                                config_substring_NH3 [] in
  let once := snd (call sample_network) in
  let twice := snd (call once) in
  fst (call sample_network) = Ok tt
  /\ fst (call once) = Ok tt
  /\ buses_index once = ["ES0"; "ES1"; "ES2"; "ES0-NH3"]
  /\ buses_index twice = ["ES0"; "ES1"; "ES2"; "ES0-NH3"; "ES0-NH3-NH3"]
  /\ links_index once = ["ES0-NH3-electrolyser"; "ES0-NH3-CCGT"]
  /\ links_index twice = ["ES0-NH3-electrolyser"; "ES0-NH3-CCGT";
                          "ES0-NH3-NH3-electrolyser"; "ES0-NH3-NH3-CCGT"]
  /\ stores_index once = ["ES0-NH3-store"]
  /\ stores_index twice = ["ES0-NH3-store"; "ES0-NH3-NH3-store"]
  /\ twice <> once.
Proof.
  cbv zeta. repeat split. intros H.
  apply (f_equal stores_index) in H. vm_compute in H. discriminate H.
Qed.

(** *** The further properties on the sample data *)

Lemma sample_network_labels_unique : labels_unique sample_network.
Proof.
  unfold labels_unique. simpl.
  repeat split; repeat constructor; simpl; intuition discriminate.
Defined.

Lemma hook_keeps_labels_unique_witness :
  labels_unique sample_network
  /\ labels_unique (snd (add_green_ammonia literal_re sample_library unit tt
                                           config_target [] sample_network)).
Proof.
  split; [exact sample_network_labels_unique|].
  apply (hook_keeps_labels_unique literal_re sample_library unit tt
                                  config_target [] sample_network).
  exact sample_network_labels_unique.
Defined.

Lemma closest_bus_returns_country_bus_witness :
  _closest_bus literal_re sample_library sample_network (PStr "ES")
               PNone PNone (PStr "S1")
  = Ok "ES1"
  /\ (exists b, In b (buses sample_network) /\ bus_name b = "ES1"
                /\ bus_country b = "ES")
  /\ is_infix "S1" "ES1" = true.
Proof.
  split; [reflexivity|].
  destruct (closest_bus_returns_country_bus
              literal_re sample_library sample_network "ES" PNone PNone
              (PStr "S1") "ES1" eq_refl) as [Hbus Hmatch].
  split; [exact Hbus|].
  apply (Hmatch "S1" (is_infix "S1") eq_refl); [discriminate|reflexivity|].
  exists (sample_bus "ES1" 1 1). simpl. auto.
Defined.


(** A target that is not of real numbers can end in a lookup failure:
    with [latitude: [5, 5]], [longitude: [0, 0]] and the one candidate at
    (0,0), the two norms are [sqrt 50] and [0], [argmin] answers position
    1, and [candidates.index[1]] raises [IndexError]. *)
Lemma list_target_raises_index_error :
  typed_location (config_list_target 5 5 0 0) = false
  /\ np_argmin list_target_library (buses one_bus_network)
               (PList [PInt 5; PInt 5]) (PList [PInt 0; PInt 0]) = Ok 1
  /\ add_green_ammonia literal_re list_target_library unit tt
                       (config_list_target 5 5 0 0) [] one_bus_network
     = (Err IndexError, one_bus_network)
  /\ is_LookupError IndexError = true.
Proof. repeat split. Qed.

Lemma hook_keeps_buses_defined_witness :
  buses_defined sample_network = true
  /\ buses_defined (snd (add_green_ammonia literal_re sample_library unit tt
                                           config_target [] sample_network))
     = true.
Proof.
  split; [reflexivity|].
  apply (hook_keeps_buses_defined literal_re sample_library unit tt
                                  config_target [] sample_network).
  reflexivity.
Defined.

Lemma failure_leaves_partial_chain_witness :
  exists b,
    buses_loc sample_network "ES0" = Ok b
    /\ add_green_ammonia literal_re sample_library unit tt config_ccgt_none
                         [] sample_network
       = (Err AttributeError,
          add_Store (store_row ("ES0" ++ "-NH3") [] (PStr "NH3"))
            (add_Link (electrolyser_row "ES0" ("ES0" ++ "-NH3") []
                                        (PStr "NH3-electrolyser"))
               (add_Bus (mkBus ("ES0" ++ "-NH3") (bus_x b) (bus_y b)
                               (bus_country b) (PStr "NH3")
                               (bus_sub_network b))
                  (ensure (PStr "NH3-power")
                     (ensure (PStr "NH3-electrolyser")
                        (ensure (PStr "NH3") sample_network)))))).
Proof.
  apply (failure_leaves_partial_chain
           literal_re sample_library unit tt config_ccgt_none []
           [("enable", PBool true); ("ccgt", PNone)] [] []
           "ES0" "NH3" "NH3-electrolyser" "NH3-power" sample_network);
    try reflexivity.
  intros dc. discriminate.
Defined.

Lemma add_bus_then_lookup_witness :
  exists base n',
    buses_loc sample_network "ES1" = Ok base
    /\ _add_bus "ES1" (PStr "NH3") sample_network
       = (Ok ("ES1" ++ "-NH3"), n')
    /\ buses_loc n' ("ES1" ++ "-NH3")
       = Ok (mkBus ("ES1" ++ "-NH3") (bus_x base) (bus_y base)
                   (bus_country base) (PStr "NH3") (bus_sub_network base))
    /\ (forall label, label <> "ES1" ++ "-NH3" ->
                      buses_loc n' label = buses_loc sample_network label).
Proof.
  apply (add_bus_then_lookup "ES1" (PStr "NH3") sample_network);
    [exact (proj1 sample_network_labels_unique)|reflexivity|reflexivity].
Defined.

Lemma component_inserted_once_witness :
  let n' := add_Link (electrolyser_row "ES0" "ES0-NH3" []
                                       (PStr "NH3-electrolyser"))
                     sample_network in
  _add_electrolyser "ES0" "ES0-NH3" (PDict []) (PStr "NH3-electrolyser")
                    sample_network = (Ok tt, n')
  /\ _add_electrolyser "ES0" "ES1" PNone (PStr "AC") n' = (Ok tt, n').
Proof.
  cbv zeta. split; [reflexivity|].
  apply (proj1 (component_inserted_once
                  "ES0" "ES0-NH3" (PStr "NH3-electrolyser") (PDict [])
                  sample_network _)).
  reflexivity.
Defined.

Lemma successful_call_leaves_chain_witness :
  exists n',
    add_green_ammonia literal_re sample_library unit tt config_target []
                      sample_network
    = (Ok tt, n')
    /\ exists base cs ce cc,
        fst (select_base_bus literal_re sample_library
               (PDict [("enable", PBool true);
                       ("location", PDict [("latitude", PFloat 0.9);
                                           ("longitude", PFloat 0.9)])])
               sample_network) = Ok base
        /\ configured_carrier
             [("enable", PBool true);
              ("location", PDict [("latitude", PFloat 0.9);
                                  ("longitude", PFloat 0.9)])]
             "ammonia" "NH3" = Ok cs
        /\ configured_carrier
             [("enable", PBool true);
              ("location", PDict [("latitude", PFloat 0.9);
                                  ("longitude", PFloat 0.9)])]
             "to_store" "NH3-electrolyser" = Ok ce
        /\ configured_carrier
             [("enable", PBool true);
              ("location", PDict [("latitude", PFloat 0.9);
                                  ("longitude", PFloat 0.9)])]
             "to_power" "NH3-power" = Ok cc
        /\ chain_present n' base cs ce cc
        /\ grows sample_network n'.
Proof.
  eexists. split; [reflexivity|].
  apply (successful_call_leaves_chain
           literal_re sample_library unit tt config_target [] _
           sample_network _ eq_refl eq_refl eq_refl).
Defined.

Lemma rerun_ignores_new_parameters_witness :
  let once := snd (add_green_ammonia literal_re sample_library unit tt
                                     config_enable_only [] sample_network) in
  add_green_ammonia literal_re sample_library unit tt config_enable_only []
                    sample_network
  = (Ok tt, once)
  /\ add_green_ammonia literal_re sample_library unit tt
                       config_new_parameters [] once
     = (Ok tt, once).
Proof.
  cbv zeta. split; [reflexivity|].
  apply (rerun_ignores_new_parameters
           literal_re sample_library unit tt
           config_enable_only config_new_parameters
           [] [] [("enable", PBool true)]
           [("enable", PBool true);
            ("electrolyser", PDict [("efficiency", PFloat 0.7)]);
            ("storage", PNone)]
           sample_network);
    reflexivity.
Defined.

Lemma hook_idempotent_without_filter_witness :
  let once := snd (add_green_ammonia literal_re sample_library unit tt
                                     config_target [] sample_network) in
  real_target (PFloat 0.9) (PFloat 0.9) = true
  /\ add_green_ammonia literal_re sample_library unit tt config_target []
                       sample_network
     = (Ok tt, once)
  /\ add_green_ammonia literal_re sample_library unit tt config_target []
                       once
     = (Ok tt, once).
Proof.
  cbv zeta. split; [reflexivity|]. split; [reflexivity|].
  apply (hook_idempotent_without_filter
           literal_re sample_library unit tt config_target []
           [("enable", PBool true);
            ("location", PDict [("latitude", PFloat 0.9);
                                ("longitude", PFloat 0.9)])]
           [("latitude", PFloat 0.9); ("longitude", PFloat 0.9)]
           sample_network);
    try reflexivity.
  exact (proj1 sample_network_labels_unique).
Defined.

(** With a target that is not of real numbers a second call need not
    repeat the first: with [latitude: [0, 0]], [longitude: [1, 1]] and two
    candidates, the first call returns and adds the NH3 bus of "ES0"; the
    second call has three candidates, and the subtraction of line 68
    raises [ValueError]. *)
Lemma list_target_second_call_raises :
  let call := add_green_ammonia literal_re list_target_library unit tt
                                (config_list_target 0 0 1 1) [] in
  let once := snd (call two_bus_network) in
  real_target (PList [PInt 0; PInt 0]) (PList [PInt 1; PInt 1]) = false
  /\ fst (call two_bus_network) = Ok tt
  /\ buses_index once = ["ES0"; "ES1"; "ES0-NH3"]
  /\ call once
     = (Err (ValueError "operands could not be broadcast together"), once).
Proof. cbv zeta. repeat split. Qed.

Lemma injected_bus_joins_country_witness :
  exists n' b nb,
    add_green_ammonia literal_re sample_library unit tt config_target []
                      sample_network
    = (Ok tt, n')
    /\ buses_loc sample_network "ES1" = Ok b
    /\ bus_country b = "ES"
    /\ buses n' = (buses sample_network ++ [nb])%list
    /\ bus_name nb = "ES1" ++ "-NH3"
    /\ bus_x nb = bus_x b /\ bus_y nb = bus_y b
    /\ country_candidates n' "ES"
       = (country_candidates sample_network "ES" ++ [nb])%list.
Proof.
  eexists.
  destruct (injected_bus_joins_country
              literal_re sample_library unit tt config_target []
              [("enable", PBool true);
               ("location", PDict [("latitude", PFloat 0.9);
                                   ("longitude", PFloat 0.9)])]
              [("latitude", PFloat 0.9); ("longitude", PFloat 0.9)]
              "ES" "ES1" sample_network _
              eq_refl eq_refl eq_refl eq_refl
              (proj1 sample_network_labels_unique)
              eq_refl eq_refl eq_refl)
    as (b & nb & H).
  exists b, nb. split; [reflexivity|exact H].
Defined.
